(** * solar-datasheet-parser: a shallow embedding of [solar_parser.py] and
    [app.py], and the properties of the pipeline checked against it.

  Conventions of the embedding.
  - A Python [str] is a [string] holding the UTF-8 bytes of its code points
    (byte-wise lexicographic order is then code-point order, and the slices
    the program takes only ever cut ASCII markers).
  - A JSON / Python value is a [pyval]; a [dict] is an association list in
    insertion order.
  - A raised exception is a value of [exn]; a computation that may raise
    returns a [result]; code that also touches the outside world (file
    system, PDF library, model endpoint, standard streams) runs in the
    state-and-exception monad [io].
  - What the Python runtime and the third-party libraries provide (the PDF
    reader, the model endpoint, the JSON codec, the printing of floats) is
    collected in the record [Runtime]; every definition is parametric in it. *)

From Stdlib Require Import ZArith QArith Bool List Ascii String Lia.
From Stdlib Require Import DecimalString SpecFloat.
From Stdlib Require Import Permutation.
Import ListNotations.

Local Open Scope list_scope.
Local Open Scope string_scope.

(* ================================================================== *)
(** ** Strings *)

Module Str.

(** One-character strings that cannot be written inside a literal. *)
Definition dq : string := String (ascii_of_nat 34) EmptyString.
Definition nl : string := String (ascii_of_nat 10) EmptyString.

(** [quoted s] is [s] with every dollar sign replaced by a double quote:
    source literals that contain double quotes are written with a dollar
    sign standing for the quote character. *)
Fixpoint quoted (s : string) : string :=
  match s with
  | EmptyString => EmptyString
  | String c r =>
      String (if Ascii.eqb c "$"%char then ascii_of_nat 34 else c) (quoted r)
  end.

Fixpoint rev_onto (s acc : string) : string :=
  match s with
  | EmptyString => acc
  | String c r => rev_onto r (String c acc)
  end.

Definition rev (s : string) : string := rev_onto s EmptyString.

(** Whether the character [c] occurs in [s]. *)
Fixpoint mentions (c : ascii) (s : string) : bool :=
  match s with
  | EmptyString => false
  | String d r => Ascii.eqb c d || mentions c r
  end.

Fixpoint drop (n : nat) (s : string) : string :=
  match n, s with
  | O, _ => s
  | S n', String _ r => drop n' r
  | S _, EmptyString => EmptyString
  end.

(** [s.startswith(p)] and [s.endswith(p)]. *)
Definition startswith (s p : string) : bool := String.prefix p s.
Definition endswith (s p : string) : bool := String.prefix (rev p) (rev s).

(** [s[n:]] and [s[:-n]] for a literal [n > 0]; both are total in Python
    (a slice past either end is the empty string). *)
Definition slice_from (n : nat) (s : string) : string := drop n s.
Definition slice_to_minus (n : nat) (s : string) : string :=
  rev (drop n (rev s)).

(** Number of leading bytes of [s] that form one white-space character in
    the sense of [str.isspace] (0 when [s] does not start with one):
    U+0009..U+000D, U+001C..U+0020, U+0085, U+00A0, U+1680,
    U+2000..U+200A, U+2028, U+2029, U+202F, U+205F, U+3000. *)
Definition space_width (s : string) : nat :=
  match s with
  | EmptyString => 0
  | String c r =>
      let n := nat_of_ascii c in
      if ((9 <=? n) && (n <=? 13) || (28 <=? n) && (n <=? 32))%nat then 1
      else match r with
           | EmptyString => 0
           | String c1 r1 =>
               let n1 := nat_of_ascii c1 in
               if (n =? 194)%nat then
                 if ((n1 =? 133) || (n1 =? 160))%nat then 2 else 0
               else match r1 with
                    | EmptyString => 0
                    | String c2 _ =>
                        let n2 := nat_of_ascii c2 in
                        if ((n =? 225) && (n1 =? 154) && (n2 =? 128))%nat then 3
                        else if ((n =? 226) && (n1 =? 128))%nat then
                          if ((128 <=? n2) && (n2 <=? 138) || (n2 =? 168)
                              || (n2 =? 169) || (n2 =? 175))%nat then 3 else 0
                        else if ((n =? 226) && (n1 =? 129) && (n2 =? 159))%nat then 3
                        else if ((n =? 227) && (n1 =? 128) && (n2 =? 128))%nat then 3
                        else 0
                    end
           end
  end.

(** The same test on the reversed string (the bytes of the last character
    come first, last byte first). *)
Definition space_width_rev (s : string) : nat :=
  match s with
  | EmptyString => 0
  | String c r =>
      let n := nat_of_ascii c in
      if ((9 <=? n) && (n <=? 13) || (28 <=? n) && (n <=? 32))%nat then 1
      else match r with
           | EmptyString => 0
           | String c1 r1 =>
               let n1 := nat_of_ascii c1 in
               if ((n1 =? 194) && ((n =? 133) || (n =? 160)))%nat then 2
               else match r1 with
                    | EmptyString => 0
                    | String c2 _ =>
                        let n2 := nat_of_ascii c2 in
                        if ((n2 =? 225) && (n1 =? 154) && (n =? 128))%nat then 3
                        else if ((n2 =? 226) && (n1 =? 128))%nat then
                          if ((128 <=? n) && (n <=? 138) || (n =? 168)
                              || (n =? 169) || (n =? 175))%nat then 3 else 0
                        else if ((n2 =? 226) && (n1 =? 129) && (n =? 159))%nat then 3
                        else if ((n2 =? 227) && (n1 =? 128) && (n =? 128))%nat then 3
                        else 0
                    end
           end
  end.

(** Drop white-space characters from the front, at most [fuel] of them
    ([String.length s] is always enough: each one is at least a byte). *)
Fixpoint strip_front (width : string -> nat) (fuel : nat) (s : string) : string :=
  match fuel with
  | O => s
  | S fuel' =>
      match width s with
      | O => s
      | w => strip_front width fuel' (drop w s)
      end
  end.

Definition lstrip (s : string) : string :=
  strip_front space_width (String.length s) s.
Definition rstrip (s : string) : string :=
  rev (strip_front space_width_rev (String.length s) (rev s)).

(** [s.strip()] *)
Definition strip (s : string) : string := rstrip (lstrip s).

(** [sep.join(parts)] *)
Definition join (sep : string) (parts : list string) : string :=
  String.concat sep parts.

(** ASCII lower-casing; on the bytes of a non-ASCII character it is the
    identity.  [str.lower] differs from it only on non-ASCII letters, and
    none of them lower-cases to a text that contains a dot or one of the
    letters p, d, f: the two agree on whether the result ends with the
    extension the upload handler looks for. *)
Definition lower_ascii (c : ascii) : ascii :=
  let n := nat_of_ascii c in
  if ((65 <=? n) && (n <=? 90))%nat then ascii_of_nat (n + 32) else c.

Fixpoint lower (s : string) : string :=
  match s with
  | EmptyString => EmptyString
  | String c r => String (lower_ascii c) (lower r)
  end.

(** The characters of a string, one string per code point: a new character
    starts at every byte that is not a UTF-8 continuation byte. *)
Definition is_continuation (c : ascii) : bool :=
  let n := nat_of_ascii c in ((128 <=? n) && (n <=? 191))%nat.

Fixpoint chars_from (cur : string) (s : string) : list string :=
  match s with
  | EmptyString => [rev cur]
  | String c r =>
      if is_continuation c then chars_from (String c cur) r
      else rev cur :: chars_from (String c EmptyString) r
  end.

Definition chars (s : string) : list string :=
  match s with
  | EmptyString => []
  | String c r => chars_from (String c EmptyString) r
  end.

(** Decimal text of an integer, as [str(int)] prints it. *)
Definition of_Z (z : Z) : string := NilZero.string_of_int (Z.to_int z).

End Str.

(* ================================================================== *)
(** ** Exceptions and results *)

(** The exception classes the program can meet, with the part of Python's
    class hierarchy that its [except] clauses distinguish. *)
Inductive exn_class : Type :=
| BaseException
| SystemExit
| KeyboardInterrupt
| Exception
| OSError                (* IOError is an alias of OSError *)
| FileNotFoundError
| PermissionError
| TypeError
| AttributeError
| ValueError
| JSONDecodeError
| LookupError
| IndexError
| KeyError
| NameError
| UnboundLocalError
| ClientError            (* botocore.exceptions.ClientError *)
| PDFSyntaxError         (* raised by the PDF reader on a malformed file *)
| RequestEntityTooLarge. (* werkzeug.exceptions: HTTP status 413 *)

Definition parent (c : exn_class) : option exn_class :=
  match c with
  | BaseException => None
  | SystemExit | KeyboardInterrupt | Exception => Some BaseException
  | OSError | TypeError | AttributeError | ValueError | LookupError
  | NameError | ClientError | PDFSyntaxError | RequestEntityTooLarge =>
      Some Exception
  | FileNotFoundError | PermissionError => Some OSError
  | JSONDecodeError => Some ValueError
  | IndexError | KeyError => Some LookupError
  | UnboundLocalError => Some NameError
  end.

Definition exn_class_eqb (a b : exn_class) : bool :=
  match a, b with
  | BaseException, BaseException | SystemExit, SystemExit
  | KeyboardInterrupt, KeyboardInterrupt | Exception, Exception
  | OSError, OSError | FileNotFoundError, FileNotFoundError
  | PermissionError, PermissionError | TypeError, TypeError
  | AttributeError, AttributeError | ValueError, ValueError
  | JSONDecodeError, JSONDecodeError | LookupError, LookupError
  | IndexError, IndexError | KeyError, KeyError | NameError, NameError
  | UnboundLocalError, UnboundLocalError | ClientError, ClientError
  | PDFSyntaxError, PDFSyntaxError
  | RequestEntityTooLarge, RequestEntityTooLarge => true
  | _, _ => false
  end.

(** [issubclass c d]; the hierarchy above has depth four. *)
Fixpoint subclass_fuel (fuel : nat) (c d : exn_class) : bool :=
  exn_class_eqb c d ||
  match fuel with
  | O => false
  | S fuel' =>
      match parent c with
      | Some p => subclass_fuel fuel' p d
      | None => false
      end
  end.

Definition subclass : exn_class -> exn_class -> bool := subclass_fuel 4.

(** An exception object: its class and the text [str(e)] gives. *)
Record exn : Type := mkExn { exn_cls : exn_class; exn_str : string }.

(** [isinstance(e, c)] *)
Definition isinstance (e : exn) (c : exn_class) : bool := subclass (exn_cls e) c.

(** The exception [sys.exit(code)] raises. *)
Definition sys_exit (code : Z) : exn := mkExn SystemExit (Str.of_Z code).

Inductive result (A : Type) : Type :=
| Ok (a : A)
| Raise (e : exn).
Arguments Ok {A} a.
Arguments Raise {A} e.

Definition rbind {A B : Type} (m : result A) (k : A -> result B) : result B :=
  match m with
  | Ok a => k a
  | Raise e => Raise e
  end.

Declare Scope result_scope.
Delimit Scope result_scope with result.
Notation "x <- m ;; k" := (rbind m (fun x => k))
  (at level 61, m at next level, right associativity) : result_scope.

(** [try: body  except c as e: handler e] on a pure computation. *)
Definition try_except {A : Type} (body : result A) (c : exn_class)
    (handler : exn -> result A) : result A :=
  match body with
  | Ok a => Ok a
  | Raise e => if isinstance e c then handler e else Raise e
  end.

(* ================================================================== *)
(** ** Python values *)

(** The values [json.loads] produces.  A float is an IEEE-754 binary64 value
    in the form of [spec_float]; a dict keeps its keys in insertion order. *)
#[warnings="-register-all"]
Inductive pyval : Type :=
| PNone
| PBool (b : bool)
| PInt (z : Z)
| PFloat (f : spec_float)
| PStr (s : string)
| PList (l : list pyval)
| PDict (d : list (string * pyval)).

Definition pydict : Type := list (string * pyval).

(** [type(v).__name__] *)
Definition type_name (v : pyval) : string :=
  match v with
  | PNone => "NoneType"
  | PBool _ => "bool"
  | PInt _ => "int"
  | PFloat _ => "float"
  | PStr _ => "str"
  | PList _ => "list"
  | PDict _ => "dict"
  end.

(** *** Dictionaries *)

Fixpoint lookup (k : string) (d : pydict) : option pyval :=
  match d with
  | [] => None
  | (k', v) :: d' => if String.eqb k k' then Some v else lookup k d'
  end.

Definition has_key (k : string) (d : pydict) : bool :=
  match lookup k d with Some _ => true | None => false end.

Definition keys (d : pydict) : list string := map fst d.

(** [d[k] = v]: an existing key keeps its place, a new key goes last. *)
Fixpoint dict_set (d : pydict) (k : string) (v : pyval) : pydict :=
  match d with
  | [] => [(k, v)]
  | (k', v') :: d' =>
      if String.eqb k k' then (k', v) :: d' else (k', v') :: dict_set d' k v
  end.

(** *** Attribute and item access *)

Definition no_attribute (v : pyval) (name : string) : exn :=
  mkExn AttributeError
        ("'" ++ type_name v ++ "' object has no attribute '" ++ name ++ "'").

(** [o.get(k, default)]; [o.get(k)] is [py_get o k PNone]. *)
Definition py_get (o : pyval) (k : string) (default : pyval) : result pyval :=
  match o with
  | PDict d => Ok (match lookup k d with Some v => v | None => default end)
  | _ => Raise (no_attribute o "get")
  end.

(** [o[k]] for a string key (used on a value already known to have the key). *)
Definition py_getitem_str (o : pyval) (k : string) : result pyval :=
  match o with
  | PDict d =>
      match lookup k d with
      | Some v => Ok v
      | None => Raise (mkExn KeyError ("'" ++ k ++ "'"))
      end
  | PStr _ => Raise (mkExn TypeError "string indices must be integers, not 'str'")
  | PList _ => Raise (mkExn TypeError "list indices must be integers or slices, not str")
  | _ => Raise (mkExn TypeError ("'" ++ type_name o ++ "' object is not subscriptable"))
  end.

(** [o[0]] *)
Definition py_getitem_0 (o : pyval) : result pyval :=
  match o with
  | PList (x :: _) => Ok x
  | PList [] => Raise (mkExn IndexError "list index out of range")
  | PStr s =>
      match Str.chars s with
      | c :: _ => Ok (PStr c)
      | [] => Raise (mkExn IndexError "string index out of range")
      end
  | PDict _ => Raise (mkExn KeyError "0")
  | _ => Raise (mkExn TypeError ("'" ++ type_name o ++ "' object is not subscriptable"))
  end.

(** The items a [for] loop or a comprehension draws from a value. *)
Definition py_iter (o : pyval) : result (list pyval) :=
  match o with
  | PList l => Ok l
  | PStr s => Ok (map PStr (Str.chars s))
  | PDict d => Ok (map PStr (keys d))
  | _ => Raise (mkExn TypeError ("'" ++ type_name o ++ "' object is not iterable"))
  end.

(** Whether [k] occurs in [s] (at one of its first [fuel + 1] positions). *)
Fixpoint is_substring (fuel : nat) (k s : string) : bool :=
  String.prefix k s ||
  match fuel, s with
  | S fuel', String _ r => is_substring fuel' k r
  | _, _ => false
  end.

(** *** Truth value *)

(** [bool(v)] *)
Definition py_truthy (v : pyval) : bool :=
  match v with
  | PNone => false
  | PBool b => b
  | PInt z => negb (z =? 0)%Z
  | PFloat (S754_zero _) => false
  | PFloat _ => true
  | PStr s => negb (String.eqb s "")
  | PList l => match l with [] => false | _ => true end
  | PDict d => match d with [] => false | _ => true end
  end.

Definition is_none (v : pyval) : bool :=
  match v with PNone => true | _ => false end.

(** *** Numbers and their order *)

(** The exact value of a number: Python compares ints, bools and floats by
    value, and a binary64 comparison is the comparison of the exact values
    (with NaN unordered). *)
Inductive xnum : Type :=
| XNaN
| XNegInf
| XFin (q : Q)
| XPosInf.

Definition float_value (f : spec_float) : xnum :=
  match f with
  | S754_nan => XNaN
  | S754_zero _ => XFin 0
  | S754_infinity true => XNegInf
  | S754_infinity false => XPosInf
  | S754_finite s m e =>
      let n := if s then Z.neg m else Z.pos m in
      if (0 <=? e)%Z then XFin (inject_Z (n * 2 ^ e))
      else XFin (Qmake n (Pos.pow 2 (Z.to_pos (- e))))
  end.

Definition num_value (v : pyval) : option xnum :=
  match v with
  | PBool b => Some (XFin (if b then 1 else 0))
  | PInt z => Some (XFin (inject_Z z))
  | PFloat f => Some (float_value f)
  | _ => None
  end.

(** [a > b] and [a == b] on exact values. *)
Definition xgt (a b : xnum) : bool :=
  match a, b with
  | XNaN, _ | _, XNaN => false
  | XPosInf, XPosInf => false
  | XPosInf, _ => true
  | _, XPosInf => false
  | XNegInf, _ => false
  | XFin _, XNegInf => true
  | XFin p, XFin q => match Qcompare p q with Gt => true | _ => false end
  end.

Definition xeq (a b : xnum) : bool :=
  match a, b with
  | XNegInf, XNegInf | XPosInf, XPosInf => true
  | XFin p, XFin q => Qeq_bool p q
  | _, _ => false
  end.

Definition is_nan (v : pyval) : bool :=
  match v with PFloat S754_nan => true | _ => false end.

(** *** Equality and order of values *)

(** [a == b].  Inside containers CPython first tests identity; of the values
    [json.loads] builds, the only ones identical but not equal are the NaNs
    (one shared object), which [item_eq] accounts for. *)
Fixpoint py_eq (a b : pyval) {struct a} : bool :=
  match a, b with
  | PNone, PNone => true
  | PStr s, PStr t => String.eqb s t
  | PList la, PList lb =>
      (fix items (la lb : list pyval) {struct la} : bool :=
         match la, lb with
         | [], [] => true
         | x :: la', y :: lb' =>
             (is_nan x && is_nan y || py_eq x y) && items la' lb'
         | _, _ => false
         end) la lb
  | PDict da, PDict db =>
      Nat.eqb (List.length da) (List.length db) &&
      (fix entries (da : pydict) {struct da} : bool :=
         match da with
         | [] => true
         | (k, v) :: da' =>
             match lookup k db with
             | Some w => (is_nan v && is_nan w || py_eq v w) && entries da'
             | None => false
             end
         end) da
  | _, _ =>
      match num_value a, num_value b with
      | Some x, Some y => xeq x y
      | _, _ => false
      end
  end.

Definition item_eq (a b : pyval) : bool :=
  is_nan a && is_nan b || py_eq a b.

Definition not_supported (op : string) (a b : pyval) : exn :=
  mkExn TypeError
        ("'" ++ op ++ "' not supported between instances of '"
             ++ type_name a ++ "' and '" ++ type_name b ++ "'").

(** [a > b]: numbers by value, strings by code points, lists by their first
    differing items; anything else is a [TypeError]. *)
Fixpoint py_gt (a b : pyval) {struct a} : result bool :=
  match a, b with
  | PStr s, PStr t => Ok (String.ltb t s)
  | PList la, PList lb =>
      (fix items (la lb : list pyval) {struct la} : result bool :=
         match la, lb with
         | [], _ => Ok false
         | _ :: _, [] => Ok true
         | x :: la', y :: lb' =>
             if item_eq x y then items la' lb' else py_gt x y
         end) la lb
  | _, _ =>
      match num_value a, num_value b with
      | Some x, Some y => Ok (xgt x y)
      | _, _ => Raise (not_supported ">" a b)
      end
  end.

(** [max(items)] of a non-empty list: the first item is kept until a later
    one compares greater than the current maximum. *)
Fixpoint max_from (cur : pyval) (rest : list pyval) : result pyval :=
  match rest with
  | [] => Ok cur
  | x :: rest' =>
      match py_gt x cur with
      | Ok true => max_from x rest'
      | Ok false => max_from cur rest'
      | Raise e => Raise e
      end
  end.

Definition py_max (items : list pyval) : result pyval :=
  match items with
  | [] => Raise (mkExn ValueError "max() iterable argument is empty")
  | x :: rest => max_from x rest
  end.

(** [k in o] for a string [k]. *)
Definition py_contains (k : string) (o : pyval) : result bool :=
  match o with
  | PDict d => Ok (has_key k d)
  | PList l => Ok (existsb (fun x => py_eq x (PStr k)) l)
  | PStr s => Ok (is_substring (String.length s) k s)
  | _ => Raise (mkExn TypeError
                      ("argument of type '" ++ type_name o ++ "' is not iterable"))
  end.

(* ================================================================== *)
(** ** The runtime and the outside world *)

(** What the interpreter and the libraries provide.  [world] is the state of
    everything outside the program (files, the remote endpoint); an
    operation on it returns its outcome and the world it leaves.
    - [pdfplumber_open path]: [pdfplumber.open(path)] and the pages of the
      document in order, or the exception the library raises on opening; a
      page is the outcome of its [page.extract_text()], a text, [None], or
      an exception;
    - [boto3_client service region]: the construction of the client;
    - [invoke_model model body]: [client.invoke_model(...)] followed by
      [response.get('body').read()], the raw response text;
    - [json_loads], [json_dumps]: the JSON codec;
    - [float_repr], [str_repr]: [repr] of a float and of a string;
    - [format_exc]: the text [traceback.format_exc()] gives for an exception;
    - [mkstemp], [os_close], [file_save], [os_remove]: temporary-file
      handling of the upload handler. *)
Record Runtime : Type := mkRuntime {
  world : Type;
  os_path_exists : string -> world -> bool;
  pdfplumber_open :
    string -> world -> result (list (result (option string))) * world;
  boto3_client : string -> string -> world -> result unit * world;
  invoke_model : string -> string -> world -> result string * world;
  json_loads : string -> result pyval;
  json_dumps : pyval -> string;
  float_repr : spec_float -> string;
  str_repr : string -> string;
  format_exc : exn -> string;
  mkstemp : string -> world -> result (Z * string) * world;
  os_close : Z -> world -> result unit * world;
  file_save : string -> string -> world -> result unit * world;
  os_remove : string -> world -> result unit * world
}.

(** The runtime at hand is found from the context. *)
Existing Class Runtime.

(** What the program does that an observer outside can see. *)
Inductive event : Type :=
| EvStdout (line : string)
| EvStderr (line : string)
| EvPdfOpen (path : string)
| EvInvokeModel (model body : string).

(** The state a computation threads: the world and the events so far, most
    recent first. *)
Record state (rt : Runtime) : Type := mkState {
  st_world : world rt;
  st_trace : list event
}.
Arguments mkState {rt} _ _.
Arguments st_world {rt} _.
Arguments st_trace {rt} _.

Definition io (rt : Runtime) (A : Type) : Type :=
  state rt -> result A * state rt.

Section IO.

Context {rt : Runtime}.

Definition ret {A : Type} (a : A) : io rt A := fun s => (Ok a, s).

Definition raise {A : Type} (e : exn) : io rt A := fun s => (Raise e, s).

Definition bind {A B : Type} (m : io rt A) (k : A -> io rt B) : io rt B :=
  fun s =>
    match m s with
    | (Ok a, s') => k a s'
    | (Raise e, s') => (Raise e, s')
    end.

Definition lift {A : Type} (r : result A) : io rt A := fun s => (r, s).

Definition emit (ev : event) : io rt unit :=
  fun s => (Ok tt, mkState (st_world s) (ev :: st_trace s)).

(** An operation of the world, lifted to the state. *)
Definition perform {A : Type} (op : world rt -> result A * world rt) : io rt A :=
  fun s =>
    let (r, w) := op (st_world s) in (r, mkState w (st_trace s)).

Definition observe {A : Type} (q : world rt -> A) : io rt A :=
  fun s => (Ok (q (st_world s)), s).

(** One clause [except c as e: handler e]. *)
Definition handler_clause (A : Type) : Type := (exn_class * (exn -> io rt A))%type.

(** The first clause whose class the exception is an instance of. *)
Fixpoint select_clause {A : Type} (e : exn) (clauses : list (handler_clause A))
  : option (exn -> io rt A) :=
  match clauses with
  | [] => None
  | (c, h) :: rest => if isinstance e c then Some h else select_clause e rest
  end.

(** [try: body  except ...: ...]: an exception of the body goes to the first
    matching clause; one that no clause matches, and one raised by a handler,
    propagate. *)
Definition try_catch {A : Type} (body : io rt A)
    (clauses : list (handler_clause A)) : io rt A :=
  fun s =>
    match body s with
    | (Ok a, s') => (Ok a, s')
    | (Raise e, s') =>
        match select_clause e clauses with
        | Some h => h e s'
        | None => (Raise e, s')
        end
    end.

(** [try: body  finally: cleanup]: the cleanup runs in every case; when it
    raises, its exception replaces the outcome of the body. *)
Definition try_finally {A : Type} (body : io rt A) (cleanup : io rt unit) : io rt A :=
  fun s =>
    let (r, s') := body s in
    match cleanup s' with
    | (Ok _, s'') => (r, s'')
    | (Raise e, s'') => (Raise e, s'')
    end.

End IO.

Declare Scope io_scope.
Delimit Scope io_scope with io.
Notation "x <- m ;; k" := (bind m (fun x => k))
  (at level 61, m at next level, right associativity) : io_scope.
Notation "m ;;; k" := (bind m (fun _ => k))
  (at level 61, right associativity) : io_scope.

(* ================================================================== *)
(** ** solar_parser.py *)

Section SolarParser.

Context {rt : Runtime}.

(** *** Printing values *)

(** [repr(v)] *)
Fixpoint py_repr (v : pyval) : string :=
  match v with
  | PNone => "None"
  | PBool true => "True"
  | PBool false => "False"
  | PInt z => Str.of_Z z
  | PFloat f => float_repr rt f
  | PStr s => str_repr rt s
  | PList l => "[" ++ Str.join ", " (map py_repr l) ++ "]"
  | PDict d =>
      "{" ++ Str.join ", "
               (map (fun kv => match kv with
                               | (k, x) => (str_repr rt k ++ ": " ++ py_repr x)%string
                               end) d) ++ "}"
  end.

(** [str(v)], which is also what an f-string field [{v}] inserts. *)
Definition py_str (v : pyval) : string :=
  match v with
  | PStr s => s
  | _ => py_repr v
  end.

(** [sep.join(o)] *)
Fixpoint join_items (i : Z) (items : list pyval) : result (list string) :=
  match items with
  | [] => Ok []
  | PStr s :: rest =>
      match join_items (i + 1) rest with
      | Ok l => Ok (s :: l)
      | Raise e => Raise e
      end
  | x :: _ =>
      Raise (mkExn TypeError
                   ("sequence item " ++ Str.of_Z i ++ ": expected str instance, "
                      ++ type_name x ++ " found"))
  end.

Definition py_join (sep : string) (o : pyval) : result string :=
  match py_iter o with
  | Ok items =>
      match join_items 0 items with
      | Ok l => Ok (Str.join sep l)
      | Raise e => Raise e
      end
  | Raise _ => Raise (mkExn TypeError "can only join an iterable")
  end.

(** [o.strip()]: of the values [json.loads] builds only a [str] has it. *)
Definition py_strip (o : pyval) : result string :=
  match o with
  | PStr s => Ok (Str.strip s)
  | _ => Raise (no_attribute o "strip")
  end.

(** *** Constants *)

Definition AWS_REGION : string := "us-west-2".
Definition MODEL_ID : string := "anthropic.claude-3-5-sonnet-20241022-v2:0".

Definition JSON_SCHEMA : string := Str.quoted "
{
  $product$: {
    $manufacturer$: $string$,
    $series$: $string$,
    $model_types$: [$string$],
    $wattage_range$: { $min$: number, $max$: number }
  },
  $electrical_specs$: {
    $power_variants$: [
      {
        $nominal_power_w$: number,
        $vmax_v$: number,
        $imax_a$: number,
        $voc_v$: number,
        $isc_a$: number,
        $efficiency_pct$: number
      }
    ],
    $max_system_voltage_v$: number,
    $max_series_fuse_a$: number
  },
  $mechanical_specs$: {
    $length_mm$: number,
    $width_mm$: number,
    $weight_kg$: number,
    $frame_material$: $string$,
    $cell_type$: $string$
  },
  $temperature_specs$: {
    $operating_range_c$: { $min$: number, $max$: number },
    $temp_coefficient_pmax_pct_per_c$: number,
    $noct_c$: number
  },
  $warranty$: {
    $years$: number,
    $degradation_rate_pct$: number
  },
  $certifications$: [$string$]
}
".

(** *** extract_text_from_pdf *)

(** [page.extract_text() + newline] *)
Definition page_line (page : result (option string)) : result string :=
  match page with
  | Ok (Some t) => Ok (t ++ Str.nl)
  | Ok None =>
      Raise (mkExn TypeError "unsupported operand type(s) for +: 'NoneType' and 'str'")
  | Raise e => Raise e
  end.

(** The loop over [pdf.pages], [text] being the text gathered so far. *)
Fixpoint concat_pages (text : string) (pages : list (result (option string)))
  : result string :=
  match pages with
  | [] => Ok text
  | page :: rest =>
      match page_line page with
      | Ok line => concat_pages (text ++ line) rest
      | Raise e => Raise e
      end
  end.

(** The [with] block: the document is opened and its pages are read. *)
Definition read_pages (pdf_path : string) : io rt string :=
  (emit (EvPdfOpen pdf_path) ;;;
   pages <- perform (pdfplumber_open rt pdf_path) ;;
   lift (concat_pages "" pages))%io.

Definition extract_text_from_pdf (pdf_path : string) : io rt string :=
  try_catch
    (read_pages pdf_path)
    [(Exception,
      fun e =>
        (emit (EvStderr ("Error reading PDF " ++ pdf_path ++ ": " ++ exn_str e)) ;;;
         raise (sys_exit 1))%io)].

(** *** parse_with_bedrock *)

(** The prompt: the instruction template around the datasheet text and the
    schema. *)
Definition prompt_of (text : string) : string :=
  Str.quoted "
    You are an expert data extraction assistant. Extract technical specifications from the datasheet text and output EXACTLY one JSON object that matches the schema.

    <datasheet_text>
    " ++ text ++ Str.quoted "
    </datasheet_text>

    Rules (must follow):
    1) Output ONLY valid JSON (no markdown, no commentary).
    2) Use EXACTLY these top-level keys and nesting:
       product, electrical_specs, mechanical_specs, temperature_specs, warranty, certifications
    3) Do NOT invent values. If a value is not explicitly present, use null.
    4) All numeric fields must be numbers (no units, no percent sign). Examples:
       - $34 kg$ -> 34
       - $0.3%$ -> 0.3
       - $1,500 V$ -> 1500
       - $-0.32 %/°C$ -> -0.32
    5) model_types must include only identifiers explicitly found (do not infer).
    6) certifications: include exact strings as written, including versions/years if present.
    7) electrical_specs.power_variants: include one object for EACH power class/column/variant in the datasheet. Each object must include all 6 fields; if a field for that variant is missing, set it to null.
    8) wattage_range.min/max must be derived from the power_variants nominal_power_w values when possible; otherwise null.

    Schema (types + keys must match exactly):
    " ++ JSON_SCHEMA ++ "
    ".

(** The request body handed to [json.dumps]. *)
Definition request_body (prompt : string) : pyval :=
  PDict [("anthropic_version", PStr "bedrock-2023-05-31");
         ("max_tokens", PInt 4096);
         ("messages", PList [PDict [("role", PStr "user");
                                    ("content", PStr prompt)]]);
         ("temperature", PInt 0)].

(** The two fence tests, on the completion already stripped of white space. *)
Definition remove_fences (clean_json_text : string) : string :=
  let clean_json_text :=
    if Str.startswith clean_json_text "```json"
    then Str.slice_from 7 clean_json_text else clean_json_text in
  if Str.endswith clean_json_text "```"
  then Str.slice_to_minus 3 clean_json_text else clean_json_text.

(** The statements of the [try] block up to the assignment of
    [result_text]. *)
Definition fetch_result_text (body : string) : io rt pyval :=
  (emit (EvInvokeModel MODEL_ID body) ;;;
   response <- perform (invoke_model rt MODEL_ID body) ;;
   response_body <- lift (json_loads rt response) ;;
   content <- lift (py_get response_body "content" PNone) ;;
   first <- lift (py_getitem_0 content) ;;
   lift (py_get first "text" PNone))%io.

(** The rest of the [try] block. *)
Definition decode_result_text (result_text : pyval) : io rt pyval :=
  (clean_json_text <- lift (py_strip result_text) ;;
   lift (json_loads rt (remove_fences clean_json_text)))%io.

(** The [except] clauses.  The second one prints [result_text], which is
    unbound when the exception comes from a statement before its assignment:
    the handler itself then raises [UnboundLocalError]. *)
Definition on_client_error (e : exn) : io rt pyval :=
  (emit (EvStderr ("AWS Bedrock API Error: " ++ exn_str e)) ;;;
   raise (sys_exit 1))%io.

Definition on_decode_error (result_text : option pyval) (e : exn) : io rt pyval :=
  (emit (EvStderr ("Failed to parse JSON response from model: " ++ exn_str e)) ;;;
   match result_text with
   | Some t =>
       emit (EvStderr ("Raw response: " ++ py_str t)) ;;;
       raise (sys_exit 1)
   | None =>
       raise (mkExn UnboundLocalError
                    "cannot access local variable 'result_text' where it is not associated with a value")
   end)%io.

Definition on_unexpected (e : exn) : io rt pyval :=
  (emit (EvStderr ("An unexpected error occurred: " ++ exn_str e)) ;;;
   raise (sys_exit 1))%io.

Definition bedrock_clauses (result_text : option pyval)
  : list (handler_clause (rt := rt) pyval) :=
  [(ClientError, on_client_error);
   (JSONDecodeError, on_decode_error result_text);
   (Exception, on_unexpected)].

(** No handler returns normally, so the single [try] of the source is the
    sequence of its two halves, each under the same clauses. *)
Definition parse_with_bedrock (text : string) : io rt pyval :=
  (let prompt := prompt_of text in
   perform (boto3_client rt "bedrock-runtime" AWS_REGION) ;;;
   let body := json_dumps rt (request_body prompt) in
   result_text <- try_catch (fetch_result_text body) (bedrock_clauses None) ;;
   try_catch (decode_result_text result_text)
             (bedrock_clauses (Some result_text)))%io.

(** *** generate_summary *)

(** The values the fields of the summary's f-string evaluate to, in the
    order of the template. *)
Record summary_fields : Type := mkFields {
  f_manufacturer : pyval;
  f_series : pyval;
  f_models : string;
  f_power_min : pyval;
  f_power_max : pyval;
  f_max_efficiency : pyval;
  f_max_system_voltage : pyval;
  f_length : pyval;
  f_width : pyval;
  f_weight : pyval;
  f_cell_type : pyval;
  f_temp_min : pyval;
  f_temp_max : pyval;
  f_temp_coefficient : pyval;
  f_warranty_years : pyval;
  f_degradation : pyval
}.

(** The text around the fields. *)
Definition render (f : summary_fields) : string :=
  "
## Product Overview
**" ++ py_str (f_manufacturer f) ++ " " ++ py_str (f_series f) ++ "**
*Models*: " ++ f_models f ++ "
*Power Range*: " ++ py_str (f_power_min f) ++ "W - " ++ py_str (f_power_max f) ++ "W

## Key Specifications
- **Efficiency**: Up to " ++ py_str (f_max_efficiency f) ++ "%
- **Max System Voltage**: " ++ py_str (f_max_system_voltage f) ++ "V
- **Dimensions**: " ++ py_str (f_length f) ++ "mm x " ++ py_str (f_width f) ++ "mm
- **Weight**: " ++ py_str (f_weight f) ++ "kg
- **Cell Type**: " ++ py_str (f_cell_type f) ++ "

## Performance & Warranty
- **Operating Temp**: " ++ py_str (f_temp_min f) ++ "°C to " ++ py_str (f_temp_max f) ++ "°C
- **Temperature Coefficient (Pmax)**: " ++ py_str (f_temp_coefficient f) ++ "%/°C
- **Warranty**: " ++ py_str (f_warranty_years f) ++ " Years (" ++ py_str (f_degradation f) ++ "% degradation/year)
".

(** The comprehension
    [[v.get('efficiency_pct') for v in ... if v.get('efficiency_pct') is not None]]. *)
Fixpoint efficiency_comprehension (variants : list pyval) : result (list pyval) :=
  match variants with
  | [] => Ok []
  | v :: rest =>
      (probe <- py_get v "efficiency_pct" PNone ;;
       if is_none probe then efficiency_comprehension rest
       else
         x <- py_get v "efficiency_pct" PNone ;;
         xs <- efficiency_comprehension rest ;;
         Ok (x :: xs))%result
  end.

(** The body of the [try] block: the statements before the f-string, then
    the fields of the f-string from left to right. *)
Definition summary_fields_of (data : pyval) : result summary_fields :=
  (product <- py_get data "product" (PDict []) ;;
   elec <- py_get data "electrical_specs" (PDict []) ;;
   mech <- py_get data "mechanical_specs" (PDict []) ;;
   temp <- py_get data "temperature_specs" (PDict []) ;;
   warranty <- py_get data "warranty" (PDict []) ;;
   (* max_power, computed and not used afterwards *)
   range <- py_get product "wattage_range" PNone ;;
   max_power <-
     (if py_truthy range
      then r <- py_getitem_str product "wattage_range" ;;
           m <- py_get r "max" PNone ;;
           Ok (py_str m ++ "W")
      else Ok "N/A") ;;
   (* max_efficiency *)
   variants <- py_get elec "power_variants" (PList []) ;;
   items <- py_iter variants ;;
   efficiency_values <- efficiency_comprehension items ;;
   max_efficiency <-
     (match efficiency_values with
      | [] => Ok (PStr "N/A")
      | _ => py_max efficiency_values
      end) ;;
   (* the fields of the template *)
   manufacturer <- py_get product "manufacturer" (PStr "Unknown") ;;
   series <- py_get product "series" (PStr "Solar Module") ;;
   model_types <- py_get product "model_types" (PList []) ;;
   models <- py_join ", " model_types ;;
   range_a <- py_get product "wattage_range" (PDict []) ;;
   power_min <- py_get range_a "min" PNone ;;
   range_b <- py_get product "wattage_range" (PDict []) ;;
   power_max <- py_get range_b "max" PNone ;;
   max_system_voltage <- py_get elec "max_system_voltage_v" PNone ;;
   length_mm <- py_get mech "length_mm" PNone ;;
   width_mm <- py_get mech "width_mm" PNone ;;
   weight_kg <- py_get mech "weight_kg" PNone ;;
   cell_type <- py_get mech "cell_type" PNone ;;
   operating_a <- py_get temp "operating_range_c" (PDict []) ;;
   temp_min <- py_get operating_a "min" PNone ;;
   operating_b <- py_get temp "operating_range_c" (PDict []) ;;
   temp_max <- py_get operating_b "max" PNone ;;
   coefficient <- py_get temp "temp_coefficient_pmax_pct_per_c" PNone ;;
   years <- py_get warranty "years" PNone ;;
   degradation <- py_get warranty "degradation_rate_pct" PNone ;;
   Ok (mkFields manufacturer series models power_min power_max max_efficiency
                max_system_voltage length_mm width_mm weight_kg cell_type
                temp_min temp_max coefficient years degradation))%result.

Definition summary_body (data : pyval) : result string :=
  (f <- summary_fields_of data ;; Ok (render f))%result.

Definition generate_summary (data : pyval) : result string :=
  try_except (summary_body data) Exception
             (fun e => Ok ("Error generating summary: " ++ exn_str e)).

(** *** process_pdf *)

Definition ordered_keys : list string :=
  ["product"; "electrical_specs"; "mechanical_specs"; "temperature_specs";
   "warranty"; "certifications"].

(** The comprehension [{k: raw_json.get(k) for k in ks if k in raw_json}],
    [acc] being the dict built so far. *)
Fixpoint key_comprehension (raw_json : pyval) (ks : list string) (acc : pydict)
  : result pydict :=
  match ks with
  | [] => Ok acc
  | k :: rest =>
      (present <- py_contains k raw_json ;;
       if present
       then v <- py_get raw_json k PNone ;;
            key_comprehension raw_json rest (dict_set acc k v)
       else key_comprehension raw_json rest acc)%result
  end.

Definition enforce_key_order (raw_json : pyval) : result pyval :=
  (d <- key_comprehension raw_json ordered_keys [] ;; Ok (PDict d))%result.

Definition process_pdf (pdf_path : string) : io rt (pyval * string) :=
  (present <- observe (os_path_exists rt pdf_path) ;;
   if negb present
   then raise (mkExn FileNotFoundError ("File not found: " ++ pdf_path))
   else
     text_content <- extract_text_from_pdf pdf_path ;;
     text_content <- extract_text_from_pdf pdf_path ;;
     raw_json <- parse_with_bedrock text_content ;;
     json_output <- lift (enforce_key_order raw_json) ;;
     summary <- lift (generate_summary json_output) ;;
     ret (json_output, summary))%io.

(** What [process_pdf] does once the text is there. *)
Definition rest_of_pipeline (text_content : string) : io rt (pyval * string) :=
  (raw_json <- parse_with_bedrock text_content ;;
   json_output <- lift (enforce_key_order raw_json) ;;
   summary <- lift (generate_summary json_output) ;;
   ret (json_output, summary))%io.

(** The pipeline as the design notes ask for it: the text extracted once,
    everything else as in [process_pdf]. *)
Definition process_pdf_once (pdf_path : string) : io rt (pyval * string) :=
  (present <- observe (os_path_exists rt pdf_path) ;;
   if negb present
   then raise (mkExn FileNotFoundError ("File not found: " ++ pdf_path))
   else
     text_content <- extract_text_from_pdf pdf_path ;;
     raw_json <- parse_with_bedrock text_content ;;
     json_output <- lift (enforce_key_order raw_json) ;;
     summary <- lift (generate_summary json_output) ;;
     ret (json_output, summary))%io.

End SolarParser.

(* ================================================================== *)
(** ** app.py *)

(** The uploaded file of a request: [request.files['file']], when there is
    one. *)
Record upload : Type := mkUpload {
  up_filename : string;
  up_content : string
}.

(** A request to the upload route: the length of its body in bytes, and the
    part named file of its form, when there is one. *)
Record request : Type := mkRequest {
  req_content_length : Z;
  req_file : option upload
}.

(** [app.config['MAX_CONTENT_LENGTH']] *)
Definition MAX_CONTENT_LENGTH : Z := 16 * 1024 * 1024.

(** [request.files]: the form is parsed when it is first asked for, and the
    parsing of a body longer than [MAX_CONTENT_LENGTH] raises (the framework
    answers such a request with status 413). *)
Definition request_files (req : request) : result (option upload) :=
  if (MAX_CONTENT_LENGTH <? req_content_length req)%Z
  then Raise (mkExn RequestEntityTooLarge
                    "413 Request Entity Too Large: The data value transmitted exceeds the capacity limit.")
  else Ok (req_file req).

(** What the view returns: the JSON body and the HTTP status. *)
Record response : Type := mkResponse {
  resp_body : pyval;
  resp_status : Z
}.

Section App.

Context {rt : Runtime}.

Definition error_envelope (message : string) (status : Z) : response :=
  mkResponse (PDict [("error", PStr message)]) status.

Definition success_envelope (json_data : pyval) (summary : string) : response :=
  mkResponse (PDict [("success", PBool true);
                     ("data", json_data);
                     ("summary", PStr summary)]) 200.

(** The [except Exception as e] clause of the view. *)
Definition upload_clauses : list (handler_clause (rt := rt) response) :=
  [(Exception,
    fun e =>
      (emit (EvStdout (format_exc rt e)) ;;;
       ret (error_envelope (exn_str e) 500))%io)].

(** The [finally] clause; [temp_path] is [None] until [mkstemp] has
    returned. *)
Definition remove_temp (temp_path : option string) : io rt unit :=
  match temp_path with
  | Some p =>
      if negb (String.eqb p "")
      then (present <- observe (os_path_exists rt p) ;;
            if present then perform (os_remove rt p) else ret tt)%io
      else ret tt
  | None => ret tt
  end.

(** The view, from the point where [request.files] has been evaluated:
    [file_part] is the part named file, when the form has one. *)
Definition upload_file (file_part : option upload) : io rt response :=
  match file_part with
  | None => ret (error_envelope "No file part" 400)
  | Some file =>
      if String.eqb (up_filename file) ""
      then ret (error_envelope "No selected file" 400)
      else if negb (String.eqb (up_filename file) "")
              && Str.endswith (Str.lower (up_filename file)) ".pdf"
      then
        fun s =>
          match perform (mkstemp rt ".pdf") s with
          | (Raise e, s') =>
              try_finally (try_catch (raise e) upload_clauses)
                          (remove_temp None) s'
          | (Ok (fd, temp_path), s') =>
              try_finally
                (try_catch
                   (perform (os_close rt fd) ;;;
                    perform (file_save rt (up_content file) temp_path) ;;;
                    out <- process_pdf temp_path ;;
                    ret (success_envelope (fst out) (snd out)))%io
                   upload_clauses)
                (remove_temp (Some temp_path)) s'
          end
      else ret (error_envelope "Invalid file type. Please upload a PDF." 400)
  end.

(** The view on a request: [request.files] is evaluated first, outside every
    [try], and the tests of the view follow. *)
Definition upload_route (req : request) : io rt response :=
  (files <- lift (request_files req) ;;
   upload_file files)%io.

End App.

(* ================================================================== *)
(** ** Vocabulary of the specification and of the proofs *)

(** The value at a path of keys of a record, [None] when a key on the way is
    absent (or what is there is not an object). *)
Fixpoint path_lookup (path : list string) (v : pyval) : option pyval :=
  match path with
  | [] => Some v
  | k :: rest =>
      match v with
      | PDict d =>
          match lookup k d with
          | Some x => path_lookup rest x
          | None => None
          end
      | _ => None
      end
  end.

(** What an absent value is printed as. *)
Definition or_none (o : option pyval) : pyval :=
  match o with Some v => v | None => PNone end.

(** The non-null [efficiency_pct] values across
    [electrical_specs.power_variants], in order. *)
Definition efficiency_of (variant : pyval) : list pyval :=
  match path_lookup ["efficiency_pct"] variant with
  | Some x => if is_none x then [] else [x]
  | None => []
  end.

Definition spec_efficiency_values (data : pyval) : list pyval :=
  match path_lookup ["electrical_specs"; "power_variants"] data with
  | Some (PList variants) => flat_map efficiency_of variants
  | _ => []
  end.

(** [a <= b] on exact values, and on the numbers that have one. *)
Definition xle (a b : xnum) : bool :=
  match a, b with
  | XNaN, _ | _, XNaN => false
  | XNegInf, _ => true
  | _, XPosInf => true
  | XFin p, XFin q => Qle_bool p q
  | _, _ => false
  end.

Definition num_le (a b : pyval) : bool :=
  match num_value a, num_value b with
  | Some x, Some y => xle x y
  | _, _ => false
  end.

(** An exact value that takes part in the order. *)
Definition ordered (x : xnum) : Prop := x <> XNaN.

(** [m] is the maximum of [vals]: one of them, and no smaller than any. *)
Definition is_maximum (m : pyval) (vals : list pyval) : Prop :=
  In m vals /\ forall v, In v vals -> num_le v m = true.

(** A JSON number of the data model: an integer or a float other than NaN. *)
Definition is_number (v : pyval) : bool :=
  match v with
  | PInt _ => true
  | PFloat S754_nan => false
  | PFloat _ => true
  | _ => false
  end.

Definition is_dict (v : pyval) : bool :=
  match v with PDict _ => true | _ => false end.

Definition is_str (v : pyval) : bool :=
  match v with PStr _ => true | _ => false end.

(** Records of the shape of the data model, any key of which may be absent:
    the five sections are objects, [wattage_range] and [operating_range_c]
    are objects, [model_types] is a list of strings, [power_variants] a list
    of objects whose [efficiency_pct] is a number or null.  (The leaves that
    are only printed may hold anything.) *)
Definition absent_or (p : pyval -> bool) (o : option pyval) : bool :=
  match o with None => true | Some v => p v end.

Definition is_str_list (v : pyval) : bool :=
  match v with PList l => forallb is_str l | _ => false end.

Definition variant_ok (v : pyval) : bool :=
  match v with
  | PDict d => absent_or (fun x => is_none x || is_number x) (lookup "efficiency_pct" d)
  | _ => false
  end.

Definition is_variant_list (v : pyval) : bool :=
  match v with PList l => forallb variant_ok l | _ => false end.

Definition product_ok (v : pyval) : bool :=
  match v with
  | PDict d => absent_or is_dict (lookup "wattage_range" d)
               && absent_or is_str_list (lookup "model_types" d)
  | _ => false
  end.

Definition electrical_ok (v : pyval) : bool :=
  match v with
  | PDict d => absent_or is_variant_list (lookup "power_variants" d)
  | _ => false
  end.

Definition temperature_ok (v : pyval) : bool :=
  match v with
  | PDict d => absent_or is_dict (lookup "operating_range_c" d)
  | _ => false
  end.

Definition conforms (data : pyval) : bool :=
  match data with
  | PDict d =>
      absent_or product_ok (lookup "product" d)
      && absent_or electrical_ok (lookup "electrical_specs" d)
      && absent_or is_dict (lookup "mechanical_specs" d)
      && absent_or temperature_ok (lookup "temperature_specs" d)
      && absent_or is_dict (lookup "warranty" d)
  | _ => false
  end.

(** The entries of [d] at the keys [ks], in the order of [ks]. *)
Definition selected (d : pydict) (ks : list string) : pydict :=
  flat_map (fun k => match lookup k d with
                     | Some v => [(k, v)]
                     | None => []
                     end) ks.

(** A computation that raises nothing but instances of [Exception]. *)
Definition tame {A : Type} (r : result A) : Prop :=
  forall e, r = Raise e -> isinstance e Exception = true.

(** Induction on values, with the hypothesis available for the items of a
    list and for the values of a dict. *)
Section PyvalInduction.

Variable P : pyval -> Prop.
Hypothesis HNone : P PNone.
Hypothesis HBool : forall b, P (PBool b).
Hypothesis HInt : forall z, P (PInt z).
Hypothesis HFloat : forall f, P (PFloat f).
Hypothesis HStr : forall s, P (PStr s).
Hypothesis HList : forall l, Forall P l -> P (PList l).
Hypothesis HDict : forall d, Forall (fun kv => P (snd kv)) d -> P (PDict d).

Fixpoint pyval_nested_ind (v : pyval) : P v :=
  match v with
  | PNone => HNone
  | PBool b => HBool b
  | PInt z => HInt z
  | PFloat f => HFloat f
  | PStr s => HStr s
  | PList l =>
      HList l ((fix items (l : list pyval) : Forall P l :=
                  match l with
                  | [] => Forall_nil P
                  | x :: r => Forall_cons x (pyval_nested_ind x) (items r)
                  end) l)
  | PDict d =>
      HDict d ((fix entries (d : pydict) : Forall (fun kv => P (snd kv)) d :=
                  match d with
                  | [] => Forall_nil _
                  | (k, x) :: r =>
                      Forall_cons (k, x) (pyval_nested_ind x) (entries r)
                  end) d)
  end.

End PyvalInduction.

(** ASCII white space: the one-byte characters [str.strip] removes. *)
Definition is_blank (c : ascii) : bool :=
  let n := nat_of_ascii c in
  ((9 <=? n) && (n <=? 13) || (28 <=? n) && (n <=? 32))%nat.

Fixpoint blank (s : string) : bool :=
  match s with
  | EmptyString => true
  | String c r => is_blank c && blank r
  end.

(** Two lines of the summary, as functions of the texts they show. *)
Definition power_range_line (lo hi : string) : string :=
  "*Power Range*: " ++ lo ++ "W - " ++ hi ++ "W".

Definition efficiency_line (v : string) : string :=
  "- **Efficiency**: Up to " ++ v ++ "%".

(** The fields of the summary of a record with nothing in it: the two
    defaults of the header, N/A for the efficiency, and [None] wherever a
    value is missing. *)
Definition placeholder_fields : summary_fields :=
  mkFields (PStr "Unknown") (PStr "Solar Module") "" PNone PNone (PStr "N/A")
           PNone PNone PNone PNone PNone PNone PNone PNone PNone PNone.

Section Lines.

Context {rt : Runtime}.

(** The lines of the summary, top to bottom. *)
Definition summary_lines (f : summary_fields) : list string :=
  [ "";
    "## Product Overview";
    "**" ++ py_str (rt := rt) (f_manufacturer f) ++ " "
         ++ py_str (rt := rt) (f_series f) ++ "**";
    "*Models*: " ++ f_models f;
    power_range_line (py_str (rt := rt) (f_power_min f))
                     (py_str (rt := rt) (f_power_max f));
    "";
    "## Key Specifications";
    efficiency_line (py_str (rt := rt) (f_max_efficiency f));
    "- **Max System Voltage**: " ++ py_str (rt := rt) (f_max_system_voltage f) ++ "V";
    "- **Dimensions**: " ++ py_str (rt := rt) (f_length f) ++ "mm x "
                         ++ py_str (rt := rt) (f_width f) ++ "mm";
    "- **Weight**: " ++ py_str (rt := rt) (f_weight f) ++ "kg";
    "- **Cell Type**: " ++ py_str (rt := rt) (f_cell_type f);
    "";
    "## Performance & Warranty";
    "- **Operating Temp**: " ++ py_str (rt := rt) (f_temp_min f) ++ "°C to "
                             ++ py_str (rt := rt) (f_temp_max f) ++ "°C";
    "- **Temperature Coefficient (Pmax)**: "
      ++ py_str (rt := rt) (f_temp_coefficient f) ++ "%/°C";
    "- **Warranty**: " ++ py_str (rt := rt) (f_warranty_years f) ++ " Years ("
                       ++ py_str (rt := rt) (f_degradation f) ++ "% degradation/year)" ].

(** A text made of the given lines, each ended by a newline. *)
Fixpoint unlines (ls : list string) : string :=
  match ls with
  | [] => ""
  | l :: rest => l ++ Str.nl ++ unlines rest
  end.

(** The summary shows [v] as the maximum efficiency: the text is made of
    lines, the eighth of which is the efficiency line with [v]. *)
Definition reports_max_efficiency (summary v : string) : Prop :=
  exists lines, summary = unlines lines
                /\ nth 7 lines "" = efficiency_line v.

(** Calling extraction on [path] in world [w] and then again gives the same
    outcome both times, the second call changing nothing further. *)
Definition repeatable (path : string) (w : world rt) : Prop :=
  pdfplumber_open rt path (snd (pdfplumber_open rt path w))
  = (fst (pdfplumber_open rt path w), snd (pdfplumber_open rt path w)).

(** A computation whose outcome and effect on the world do not depend on
    the events recorded so far. *)
Definition trace_blind {A : Type} (m : io rt A) : Prop :=
  forall (w : world rt) (t1 t2 : list event),
    fst (m (mkState w t1)) = fst (m (mkState w t2))
    /\ st_world (snd (m (mkState w t1))) = st_world (snd (m (mkState w t2))).

(** No model invocation happened between two states. *)
Definition no_model_call (before after : state rt) : Prop :=
  forall m b, In (EvInvokeModel m b) (st_trace after) ->
              In (EvInvokeModel m b) (st_trace before).

End Lines.

(* ================================================================== *)
(** ** A simulated runtime *)

(** A small concrete runtime on which the program can be run: the file
    system is a table from paths to what opening the file as a PDF gives,
    the endpoint answers every request with one fixed outcome, and the JSON
    decoder knows the texts of a table. *)
Module Sim.

Definition opened : Type := result (list (result (option string))).

Record sim_world : Type := mkWorld {
  w_files : list (string * opened);
  w_reply : result string
}.

Fixpoint find_file (p : string) (fs : list (string * opened)) : option opened :=
  match fs with
  | [] => None
  | (q, o) :: rest => if String.eqb p q then Some o else find_file p rest
  end.

Definition remove_file (p : string) (fs : list (string * opened))
  : list (string * opened) :=
  filter (fun e => negb (String.eqb p (fst e))) fs.

(** A saved upload is a readable one-page document when its content starts
    with the PDF magic number, and a malformed one otherwise. *)
Definition parse_content (content : string) : opened :=
  if String.prefix "%PDF" content
  then Ok [Ok (Some content)]
  else Raise (mkExn PDFSyntaxError "No /Root object! - Is this really a PDF?").

Fixpoint decode (table : list (string * pyval)) (text : string) : result pyval :=
  match table with
  | [] => Raise (mkExn JSONDecodeError "Expecting value: line 1 column 1 (char 0)")
  | (t, v) :: rest => if String.eqb text t then Ok v else decode rest text
  end.

(** The doubles nearest to 21.2 and to 22.5. *)
Definition f21_2 : spec_float := S754_finite false 5967269506265907 (-48).
Definition f22_5 : spec_float := S754_finite false 6333186975989760 (-48).

Definition sim_float_repr (f : spec_float) : string :=
  match f with
  | S754_finite false 5967269506265907 (-48) => "21.2"
  | S754_finite false 6333186975989760 (-48) => "22.5"
  | S754_nan => "nan"
  | S754_infinity false => "inf"
  | S754_infinity true => "-inf"
  | S754_zero false => "0.0"
  | S754_zero true => "-0.0"
  | S754_finite _ _ _ => "<float>"
  end.

Definition runtime (table : list (string * pyval)) : Runtime :=
  {| world := sim_world;
     os_path_exists := fun p w =>
       match find_file p (w_files w) with Some _ => true | None => false end;
     pdfplumber_open := fun p w =>
       match find_file p (w_files w) with
       | Some o => (o, w)
       | None => (Raise (mkExn FileNotFoundError
                               ("[Errno 2] No such file or directory: '" ++ p ++ "'")), w)
       end;
     boto3_client := fun _ _ w => (Ok tt, w);
     invoke_model := fun _ _ w => (w_reply w, w);
     json_loads := decode table;
     json_dumps := fun _ => "<request>";
     float_repr := sim_float_repr;
     str_repr := fun s => "'" ++ s ++ "'";
     format_exc := fun e => "Traceback (most recent call last): " ++ exn_str e;
     mkstemp := fun suffix w => (Ok (3%Z, "/tmp/tmpupload" ++ suffix), w);
     os_close := fun _ w => (Ok tt, w);
     file_save := fun content p w =>
       (Ok tt, mkWorld ((p, parse_content content) :: remove_file p (w_files w))
                       (w_reply w));
     os_remove := fun p w =>
       (Ok tt, mkWorld (remove_file p (w_files w)) (w_reply w)) |}.

(** The record of the specification's example: three power variants with
    efficiencies 21.2, null and 22.5. *)
Definition three_variants : pyval :=
  PDict [("electrical_specs",
          PDict [("power_variants",
                  PList [PDict [("efficiency_pct", PFloat f21_2)];
                         PDict [("efficiency_pct", PNone)];
                         PDict [("efficiency_pct", PFloat f22_5)]])])].

(** A record whose first efficiency is NaN (which [json.loads] accepts). *)
Definition nan_variants : pyval :=
  PDict [("electrical_specs",
          PDict [("power_variants",
                  PList [PDict [("efficiency_pct", PFloat S754_nan)];
                         PDict [("efficiency_pct", PFloat f22_5)]])])].

(** A record whose [power_variants] is null. *)
Definition null_variants : pyval :=
  PDict [("electrical_specs", PDict [("power_variants", PNone)])].

(** A record whose [wattage_range] is null, and one without it. *)
Definition null_range : pyval :=
  PDict [("product", PDict [("manufacturer", PStr "Acme");
                            ("wattage_range", PNone)])].
Definition no_range : pyval :=
  PDict [("product", PDict [("manufacturer", PStr "Acme")])].

(** The decoder of the scenarios: the response of the endpoint is the text
    R, whose completion is an empty object inside a fence. *)
Definition codec : list (string * pyval) :=
  [("R", PDict [("content", PList [PDict [("text", PStr "```json{}```")]])]);
   ("{}", PDict [])].

(** A readable one-page datasheet and an endpoint that answers. *)
Definition good_world : sim_world :=
  mkWorld [("a.pdf", Ok [Ok (Some "Module X 400W")])] (Ok "R").

(** A file that is there but is no PDF. *)
Definition broken_world : sim_world :=
  mkWorld [("broken.pdf",
            Raise (mkExn PDFSyntaxError "No /Root object! - Is this really a PDF?"))]
          (Ok "R").

(** An endpoint that throttles. *)
Definition throttled_world : sim_world :=
  mkWorld [("a.pdf", Ok [Ok (Some "Module X 400W")])]
          (Raise (mkExn ClientError
                        "An error occurred (ThrottlingException) when calling the InvokeModel operation: Too many requests")).

(** An endpoint whose completion is a JSON list that holds the word
    product: the response text Q carries the completion LIST. *)
Definition list_codec : list (string * pyval) :=
  [("Q", PDict [("content", PList [PDict [("text", PStr "LIST")]])]);
   ("LIST", PList [PStr "product"])].

Definition list_world : sim_world :=
  mkWorld [] (Ok "Q").

(** Two uploads: a PDF, and a file that only carries the extension. *)
Definition pdf_upload : upload := mkUpload "datasheet.pdf" "%PDF-1.7 Module X 400W".
Definition fake_upload : upload := mkUpload "datasheet.pdf" "not a pdf at all".

(** An endpoint whose completion has its keys out of order, and one key
    too many: the response text N carries the completion NOTED. *)
Definition noted_output : pydict :=
  [("notes", PStr "see page 2");
   ("warranty", PDict [("years", PInt 25)]);
   ("product", PDict [("manufacturer", PStr "Acme")])].

Definition noted_codec : list (string * pyval) :=
  [("N", PDict [("content", PList [PDict [("text", PStr "NOTED")]])]);
   ("NOTED", PDict noted_output)].

Definition noted_world : sim_world :=
  mkWorld [("a.pdf", Ok [Ok (Some "Module X 400W")])] (Ok "N").

(** The initial state over a world: nothing has happened yet. *)
Definition start {table} (w : sim_world) : state (runtime table) :=
  mkState (rt := runtime table) w [].

End Sim.

(* ================================================================== *)
(** ** The command line *)

(** What [parser.parse_args()] returns: the positional [pdf_path] and the
    [--output] option (which defaults to output.json).  The parsing of the
    command line itself is argparse's and is not modelled. *)
Record cli_args : Type := mkArgs {
  arg_pdf_path : string;
  arg_output : string
}.

Section Cli.

Context {rt : Runtime}.

(** [with open(path, 'w') as f: json.dump(obj, f, indent=2)], an operation of
    the world. *)
Variable write_json : string -> pyval -> world rt -> result unit * world rt.

(** [main], from the [try] on. *)
Definition main (args : cli_args) : io rt unit :=
  try_catch
    (emit (EvStdout ("Extracting text from " ++ arg_pdf_path args ++ "...")) ;;;
     out <- process_pdf (arg_pdf_path args) ;;
     emit (EvStdout ("Sending to Bedrock (" ++ MODEL_ID ++ ")...")) ;;;
     emit (EvStdout "Extraction successful.") ;;;
     perform (write_json (arg_output args) (fst out)) ;;;
     emit (EvStdout ("Results saved to " ++ arg_output args)))%io
    [(Exception,
      fun e =>
        (emit (EvStderr ("Error: " ++ exn_str e)) ;;;
         raise (sys_exit 1))%io)].

End Cli.

(* ================================================================== *)
(** ** Further vocabulary *)

(** The five sections [generate_summary] reads. *)
Definition summary_sections : list string :=
  ["product"; "electrical_specs"; "mechanical_specs"; "temperature_specs";
   "warranty"].

(** The number of model invocations in a trace. *)
Definition is_invocation (ev : event) : bool :=
  match ev with EvInvokeModel _ _ => true | _ => false end.

Definition invocations (t : list event) : nat :=
  List.length (filter is_invocation t).

(** The texts a list of strings holds, and the pages of a document all of
    whose pages have a text. *)
Definition text_pages (texts : list string) : list (result (option string)) :=
  map (fun t => Ok (Some t)) texts.

(** A page the reading of which fails: [extract_text()] returns [None], or
    raises. *)
Definition page_error (page : result (option string)) : option exn :=
  match page with
  | Ok (Some _) => None
  | Ok None =>
      Some (mkExn TypeError "unsupported operand type(s) for +: 'NoneType' and 'str'")
  | Raise e => Some e
  end.

Section MoreVocabulary.

Context {rt : Runtime}.

(** A computation that adds at most [n] model invocations to the trace,
    however it ends. *)
Definition calls_at_most {A : Type} (n : nat) (m : io rt A) : Prop :=
  forall s, (invocations (st_trace (snd (m s)))
             <= invocations (st_trace s) + n)%nat.

(** The request body the client sends for a text. *)
Definition request_of (text : string) : string :=
  json_dumps rt (request_body (prompt_of text)).

(** The branch of [upload_file] that handles an accepted file. *)
Definition process_upload (file : upload) : io rt response :=
  fun s =>
    match perform (mkstemp rt ".pdf") s with
    | (Raise e, s') =>
        try_finally (try_catch (raise e) upload_clauses)
                    (remove_temp None) s'
    | (Ok (fd, temp_path), s') =>
        try_finally
          (try_catch
             (perform (os_close rt fd) ;;;
              perform (file_save rt (up_content file) temp_path) ;;;
              out <- process_pdf temp_path ;;
              ret (success_envelope (fst out) (snd out)))%io
             upload_clauses)
          (remove_temp (Some temp_path)) s'
    end.

(** The three shapes of a response of the view. *)
Definition is_success_response (r : response) : Prop :=
  resp_status r = 200%Z
  /\ exists data summary,
       resp_body r = PDict [("success", PBool true); ("data", data);
                            ("summary", PStr summary)].

Definition is_error_response (status : Z) (r : response) : Prop :=
  resp_status r = status
  /\ exists message, resp_body r = PDict [("error", PStr message)].

End MoreVocabulary.

(** A simulated output file: writing makes the path exist. *)
Module SimCli.

Definition write_json (path : string) (obj : pyval) (w : Sim.sim_world)
  : result unit * Sim.sim_world :=
  (Ok tt, Sim.mkWorld ((path, Ok []) :: Sim.remove_file path (Sim.w_files w))
                      (Sim.w_reply w)).

(** A disk that is full. *)
Definition write_fails (path : string) (obj : pyval) (w : Sim.sim_world)
  : result unit * Sim.sim_world :=
  (Raise (mkExn OSError "[Errno 28] No space left on device"), w).

(** A document of two pages, and one whose second page has no text and
    whose third cannot be read. *)
Definition two_page_world : Sim.sim_world :=
  Sim.mkWorld [("two.pdf", Ok [Ok (Some "Page one"); Ok (Some "Page two")])]
              (Ok "R").

Definition holed_world : Sim.sim_world :=
  Sim.mkWorld [("holed.pdf",
                Ok [Ok (Some "Page one"); Ok None;
                    Raise (mkExn PDFSyntaxError "unreadable page")])]
              (Ok "R").

(** An endpoint whose completion is prose (the response text B), and one
    whose response is no JSON at all. *)
Definition chatty_codec : list (string * pyval) :=
  [("B", PDict [("content",
                 PList [PDict [("text", PStr "Sorry, I cannot read this.")]])])].

Definition chatty_world : Sim.sim_world :=
  Sim.mkWorld [("a.pdf", Ok [Ok (Some "Module X 400W")])] (Ok "B").

Definition gateway_world : Sim.sim_world :=
  Sim.mkWorld [("a.pdf", Ok [Ok (Some "Module X 400W")])]
              (Ok "<html>502 Bad Gateway</html>").

(** The entries of [Sim.noted_output] in another order. *)
Definition reordered_output : pydict :=
  [("product", PDict [("manufacturer", PStr "Acme")]);
   ("notes", PStr "see page 2");
   ("warranty", PDict [("years", PInt 25)])].

(** Records for the summary: a warranty that is null, a wattage range that
    is a number, a manufacturer that is null, and a filled record. *)
Definition null_warranty : pydict := [("warranty", PNone)].

Definition numeric_range : pyval :=
  PDict [("product", PDict [("wattage_range", PInt 400)])].



(** Two requests: one of 17 MB, and a small one that carries a text file. *)
Definition oversize_request : request :=
  mkRequest (17 * 1024 * 1024) (Some Sim.pdf_upload).

Definition text_request : request :=
  mkRequest 2048 (Some (mkUpload "datasheet.txt" "Module X 400W")).

Definition cli : cli_args := mkArgs "a.pdf" "output.json".
Definition cli_missing : cli_args := mkArgs "nowhere.pdf" "output.json".

End SimCli.

(* ================================================================== *)
(** * Properties *)

(** ** Strings *)

Module StrFacts.

Import Str.

Lemma append_nil_r (s : string) : s ++ "" = s.
Proof. induction s as [|c s IH]; simpl; [reflexivity | now rewrite IH]. Qed.

Lemma append_assoc (a b c : string) : (a ++ b) ++ c = a ++ b ++ c.
Proof. induction a as [|x a IH]; simpl; [reflexivity | now rewrite IH]. Qed.

Lemma rev_onto_spec (s acc : string) : rev_onto s acc = rev s ++ acc.
Proof.
  unfold rev. revert acc.
  induction s as [|c s IH]; intro acc; simpl; [reflexivity|].
  rewrite (IH (String c "")), IH, append_assoc. reflexivity.
Qed.

Lemma rev_cons (c : ascii) (s : string) : rev (String c s) = rev s ++ String c "".
Proof. unfold rev at 1. simpl. apply rev_onto_spec. Qed.

Lemma rev_append (a b : string) : rev (a ++ b) = rev b ++ rev a.
Proof.
  induction a as [|c a IH]; simpl.
  - now rewrite append_nil_r.
  - now rewrite !rev_cons, IH, append_assoc.
Qed.

Lemma rev_involutive (s : string) : rev (rev s) = s.
Proof.
  induction s as [|c s IH]; [reflexivity|].
  rewrite rev_cons, rev_append, IH. reflexivity.
Qed.

Lemma prefix_append (p s : string) : String.prefix p (p ++ s) = true.
Proof.
  induction p as [|c p IH]; simpl.
  - now destruct s.
  - destruct (ascii_dec c c) as [_|N]; [exact IH | now elim N].
Qed.

Lemma drop_append (p s : string) : drop (String.length p) (p ++ s) = s.
Proof. induction p as [|c p IH]; simpl; [now destruct s | exact IH]. Qed.

(** A text that starts with a character that is not white space is left
    alone by the stripping loop, whatever the fuel. *)
Lemma strip_front_fixed (width : string -> nat) (fuel : nat) (s : string) :
  width s = O -> strip_front width fuel s = s.
Proof. intro H. destruct fuel; simpl; [reflexivity | now rewrite H]. Qed.

(** The fenced completion is already stripped: it starts and ends with a
    backtick. *)
Lemma strip_fenced (j : string) :
  strip ("```json" ++ j ++ "```") = "```json" ++ j ++ "```".
Proof.
  unfold strip, lstrip, rstrip.
  rewrite (strip_front_fixed space_width) by reflexivity.
  rewrite strip_front_fixed.
  - apply rev_involutive.
  - rewrite rev_append, rev_append. reflexivity.
Qed.

Lemma length_append (a b : string) :
  String.length (a ++ b) = (String.length a + String.length b)%nat.
Proof. induction a as [|c a IH]; simpl; [reflexivity | now rewrite IH]. Qed.

Lemma length_rev (s : string) : String.length (rev s) = String.length s.
Proof.
  induction s as [|c s IH]; [reflexivity|].
  rewrite rev_cons, length_append, IH. simpl. lia.
Qed.

Lemma blank_append (a b : string) : blank (a ++ b) = blank a && blank b.
Proof.
  induction a as [|c a IH]; simpl; [reflexivity|].
  now rewrite IH, andb_assoc.
Qed.

Lemma blank_rev (s : string) : blank s = true -> blank (rev s) = true.
Proof.
  induction s as [|c s IH]; [reflexivity|]. simpl. intro H.
  apply andb_prop in H. destruct H as [Hc Hs].
  rewrite rev_cons, blank_append, (IH Hs). simpl. now rewrite Hc.
Qed.

(** The stripping loop eats a run of ASCII white space in front of a text
    that does not start with white space, given fuel for each character. *)
Lemma strip_front_blank (width : string -> nat) (ws core : string) (fuel : nat) :
  (forall c r, is_blank c = true -> width (String c r) = 1%nat) ->
  blank ws = true ->
  (String.length ws <= fuel)%nat ->
  width core = O ->
  strip_front width fuel (ws ++ core) = core.
Proof.
  intros Hone. revert fuel.
  induction ws as [|c ws IH]; intros fuel Hb Hlen Hcore; simpl in *.
  - now apply strip_front_fixed.
  - apply andb_prop in Hb. destruct Hb as [Hc Hws].
    destruct fuel as [|fuel]; [lia|]. simpl.
    rewrite (Hone c _ Hc). simpl. apply IH; [assumption | lia | assumption].
Qed.

Lemma space_width_blank (c : ascii) (r : string) :
  is_blank c = true -> space_width (String c r) = 1%nat.
Proof. unfold is_blank, space_width. intro H. now rewrite H. Qed.

Lemma space_width_rev_blank (c : ascii) (r : string) :
  is_blank c = true -> space_width_rev (String c r) = 1%nat.
Proof. unfold is_blank, space_width_rev. intro H. now rewrite H. Qed.

(** White space around the fenced completion is stripped. *)
Lemma strip_padded_fenced (before j after : string) :
  blank before = true -> blank after = true ->
  strip (before ++ ("```json" ++ j ++ "```") ++ after)
  = "```json" ++ j ++ "```".
Proof.
  intros Hb Ha. unfold strip, lstrip, rstrip.
  rewrite (strip_front_blank space_width before);
    [ | exact space_width_blank | assumption
      | rewrite length_append; lia | reflexivity ].
  rewrite rev_append.
  rewrite (strip_front_blank space_width_rev (rev after));
    [ apply rev_involutive | exact space_width_rev_blank
    | now apply blank_rev
    | rewrite length_rev, !length_append; lia
    | rewrite rev_append, rev_append; reflexivity ].
Qed.

End StrFacts.

(** ** Results and values *)

Lemma rbind_ok {A B : Type} (m : result A) (k : A -> result B) (b : B) :
  rbind m k = Ok b -> exists a, m = Ok a /\ k a = Ok b.
Proof. destruct m as [a|e]; simpl; intro H; [eauto | discriminate]. Qed.

Lemma tame_ok {A : Type} (a : A) : tame (Ok a).
Proof. intros e H. discriminate. Qed.

Lemma tame_raise {A : Type} (e : exn) :
  isinstance e Exception = true -> tame (@Raise A e).
Proof. intros H e' E. now inversion E; subst. Qed.

Lemma tame_bind {A B : Type} (m : result A) (k : A -> result B) :
  tame m -> (forall a, tame (k a)) -> tame (rbind m k).
Proof.
  intros Hm Hk e. destruct m as [a|e0]; simpl.
  - apply Hk.
  - intro H. inversion H; subst. now apply Hm.
Qed.

Lemma tame_if {A : Type} (c : bool) (x y : result A) :
  tame x -> tame y -> tame (if c then x else y).
Proof. now destruct c. Qed.

Lemma tame_py_get (o : pyval) (k : string) (dflt : pyval) : tame (py_get o k dflt).
Proof. destruct o; simpl; try (now apply tame_raise); apply tame_ok. Qed.

Lemma tame_py_getitem_str (o : pyval) (k : string) : tame (py_getitem_str o k).
Proof.
  destruct o; simpl; try (now apply tame_raise).
  destruct (lookup k d); [apply tame_ok | now apply tame_raise].
Qed.

Lemma tame_py_iter (o : pyval) : tame (py_iter o).
Proof. destruct o; simpl; try (now apply tame_raise); apply tame_ok. Qed.

Lemma tame_py_gt (a b : pyval) : tame (py_gt a b).
Proof.
  revert b. induction a as [| | | | |la Hla|da _] using pyval_nested_ind;
    intro rhs; destruct rhs as [| | |g| |lb|db]; simpl;
    try apply tame_ok; try (now apply tame_raise);
    try (destruct (float_value g); first [apply tame_ok | now apply tame_raise]).
  revert lb. induction Hla as [|x la Hx _ IH]; intro lb.
  - apply tame_ok.
  - destruct lb as [|y lb]; [apply tame_ok|].
    destruct (item_eq x y); [apply IH | apply Hx].
Qed.

Lemma tame_max_from (rest : list pyval) (cur : pyval) : tame (max_from cur rest).
Proof.
  revert cur. induction rest as [|x rest IH]; intro cur; simpl.
  - apply tame_ok.
  - pose proof (tame_py_gt x cur) as Hgt.
    destruct (py_gt x cur) as [[|]|e]; try apply IH.
    apply tame_raise. now apply Hgt.
Qed.

Lemma tame_py_max (items : list pyval) : tame (py_max items).
Proof.
  destruct items; simpl; [now apply tame_raise | apply tame_max_from].
Qed.

Lemma tame_efficiency_comprehension (variants : list pyval) :
  tame (efficiency_comprehension variants).
Proof.
  induction variants as [|v rest IH]; simpl.
  - apply tame_ok.
  - apply tame_bind; [apply tame_py_get|]. intro probe.
    apply tame_if; [exact IH|].
    apply tame_bind; [apply tame_py_get|]. intro x.
    apply tame_bind; [exact IH|]. intro xs. apply tame_ok.
Qed.

Create HintDb tame discriminated.
#[local] Hint Resolve tame_ok tame_py_get tame_py_getitem_str tame_py_iter
  tame_py_max tame_efficiency_comprehension : tame.

Section SummaryTotality.

Context {rt : Runtime}.

Lemma tame_join_items (items : list pyval) (i : Z) : tame (join_items i items).
Proof.
  revert i. induction items as [|x rest IH]; intro i; simpl.
  - apply tame_ok.
  - destruct x; try (now apply tame_raise).
    specialize (IH (i + 1)%Z).
    destruct (join_items (i + 1) rest) as [l|e]; [apply tame_ok|].
    apply tame_raise. now apply IH.
Qed.

Lemma tame_py_join (sep : string) (o : pyval) : tame (py_join sep o).
Proof.
  unfold py_join. destruct (py_iter o) as [items|e]; [|now apply tame_raise].
  pose proof (tame_join_items items 0) as H.
  destruct (join_items 0 items); [apply tame_ok|].
  apply tame_raise. now apply H.
Qed.

Ltac tame_step :=
  first [ apply tame_bind; [| intro]
        | apply tame_if
        | apply tame_py_join
        | solve [auto with tame] ].

Lemma tame_summary_fields_of (data : pyval) : tame (summary_fields_of (rt := rt) data).
Proof.
  unfold summary_fields_of.
  repeat tame_step.
  match goal with |- tame (match ?l with _ => _ end) => destruct l end;
    auto with tame.
Qed.

Lemma tame_summary_body (data : pyval) : tame (summary_body (rt := rt) data).
Proof.
  unfold summary_body. apply tame_bind; [apply tame_summary_fields_of|].
  intro f. apply tame_ok.
Qed.

(** What [generate_summary] returns, by the outcome of its [try] block. *)
Lemma generate_summary_ok (data : pyval) (f : summary_fields) :
  summary_fields_of (rt := rt) data = Ok f ->
  generate_summary data = Ok (render f).
Proof.
  intro H. unfold generate_summary, summary_body. now rewrite H.
Qed.

Lemma generate_summary_caught (data : pyval) (e : exn) :
  summary_body (rt := rt) data = Raise e ->
  generate_summary data = Ok ("Error generating summary: " ++ exn_str e).
Proof.
  intro H. pose proof (tame_summary_body data e H) as Hcls.
  unfold generate_summary, try_except. rewrite H, Hcls. reflexivity.
Qed.

Lemma generate_summary_total (data : pyval) :
  exists text, generate_summary (rt := rt) data = Ok text.
Proof.
  destruct (summary_body data) as [text|e] eqn:E.
  - exists text. unfold generate_summary. now rewrite E.
  - exists ("Error generating summary: " ++ exn_str e).
    now apply generate_summary_caught.
Qed.

End SummaryTotality.

(** ** The model client *)

Section ModelClientFacts.

Context {rt : Runtime}.

Lemma remove_fences_fenced (j : string) :
  remove_fences ("```json" ++ j ++ "```") = j.
Proof.
  unfold remove_fences, Str.startswith, Str.endswith, Str.slice_from,
    Str.slice_to_minus.
  rewrite StrFacts.prefix_append.
  change (Str.drop 7 ("```json" ++ j ++ "```")) with (j ++ "```").
  rewrite StrFacts.rev_append.
  change (Str.rev "```") with "```".
  rewrite StrFacts.prefix_append.
  change (Str.drop 3 ("```" ++ Str.rev j)) with (Str.rev j).
  apply StrFacts.rev_involutive.
Qed.

(** The same with ASCII white space around the fences, which the strip
    removes first. *)
Lemma padded_fenced_completion_decodes_as_bare
    (before j after : string) (s : state rt) :
  blank before = true -> blank after = true ->
  decode_result_text (PStr (before ++ ("```json" ++ j ++ "```") ++ after)) s
  = (json_loads rt j, s).
Proof.
  intros Hb Ha. unfold decode_result_text, bind, lift, py_strip.
  rewrite StrFacts.strip_padded_fenced by assumption.
  rewrite remove_fences_fenced.
  now destruct (json_loads rt j).
Qed.

(** C4.  The post-processing of the model client (strip the white space,
    remove a leading json fence marker and a trailing fence marker, decode
    the rest as JSON), run on the completion made of a text [j] between a
    leading json fence and a trailing fence, gives exactly what decoding [j]
    itself gives; so for every valid JSON text the parsed values are
    equal. *)
Theorem fenced_completion_decodes_as_bare (j : string) (s : state rt) :
  decode_result_text (PStr ("```json" ++ j ++ "```")) s = (json_loads rt j, s).
Proof.
  unfold decode_result_text, bind, lift, py_strip.
  rewrite StrFacts.strip_fenced, remove_fences_fenced.
  now destruct (json_loads rt j).
Qed.

End ModelClientFacts.

(** ** Dictionaries and the key-order comprehension *)

Section KeyOrder.

Lemma lookup_app (k : string) (a b : pydict) :
  lookup k (a ++ b)%list
  = match lookup k a with Some v => Some v | None => lookup k b end.
Proof.
  induction a as [|[k' v] a IH]; simpl; [reflexivity|].
  destruct (String.eqb k k'); [reflexivity | exact IH].
Qed.

Lemma dict_set_fresh (d : pydict) (k : string) (v : pyval) :
  lookup k d = None -> dict_set d k v = (d ++ [(k, v)])%list.
Proof.
  induction d as [|[k' v'] d IH]; simpl; [reflexivity|].
  destruct (String.eqb k k'); [discriminate|].
  intro H. now rewrite IH.
Qed.

Lemma lookup_selected_absent (d : pydict) (ks : list string) (k : string) :
  ~ In k ks -> lookup k (selected d ks) = None.
Proof.
  induction ks as [|k0 ks IH]; simpl; [reflexivity|].
  intro H. rewrite lookup_app.
  assert (String.eqb k k0 = false) as Hne
      by (apply String.eqb_neq; intro E; apply H; now left).
  destruct (lookup k0 d); simpl; rewrite ?Hne; apply IH; tauto.
Qed.

Lemma key_comprehension_dict (d : pydict) (ks : list string) (acc : pydict) :
  NoDup ks ->
  (forall k, In k ks -> lookup k acc = None) ->
  key_comprehension (PDict d) ks acc = Ok (acc ++ selected d ks)%list.
Proof.
  revert acc. induction ks as [|k ks IH]; intros acc Hnd Hfresh; simpl.
  - now rewrite app_nil_r.
  - inversion Hnd as [|? ? Hk Hnd']; subst.
    unfold has_key. destruct (lookup k d) as [v|] eqn:E; simpl.
    + rewrite dict_set_fresh by (apply Hfresh; now left).
      rewrite IH; [now rewrite <- app_assoc | assumption |].
      intros k' Hin. rewrite lookup_app, Hfresh by now right.
      simpl. destruct (String.eqb_spec k' k); [now subst | reflexivity].
    + apply IH; [assumption|]. intros k' Hin. apply Hfresh. now right.
Qed.

Lemma keys_selected (d : pydict) (ks : list string) :
  keys (selected d ks) = filter (fun k => has_key k d) ks.
Proof.
  unfold keys, has_key.
  induction ks as [|k ks IH]; simpl; [reflexivity|].
  rewrite map_app, IH. now destruct (lookup k d).
Qed.

Lemma lookup_selected (d : pydict) (ks : list string) (k : string) :
  lookup k (selected d ks)
  = if existsb (String.eqb k) ks then lookup k d else None.
Proof.
  induction ks as [|k0 ks IH]; simpl; [reflexivity|].
  rewrite lookup_app.
  destruct (String.eqb_spec k k0) as [->|Hne]; simpl.
  - destruct (lookup k0 d) as [v|] eqn:E; simpl.
    + now rewrite String.eqb_refl.
    + rewrite IH. now destruct (existsb (String.eqb k0) ks).
  - destruct (lookup k0 d) as [v|]; simpl; [|exact IH].
    apply String.eqb_neq in Hne. now rewrite Hne.
Qed.

Lemma ordered_keys_nodup : NoDup ordered_keys.
Proof.
  unfold ordered_keys.
  repeat (constructor; [simpl; intuition discriminate|]). constructor.
Qed.

Lemma enforce_key_order_dict (d : pydict) :
  enforce_key_order (PDict d) = Ok (PDict (selected d ordered_keys)).
Proof.
  unfold enforce_key_order.
  now rewrite key_comprehension_dict by (auto using ordered_keys_nodup).
Qed.

End KeyOrder.

(** ** Runs of the pipeline *)

Section PipelineRuns.

Context {rt : Runtime}.

(** A run in which the text is read (twice) and the model answers. *)
Lemma process_pdf_run (path : string) (s s1 s2 s3 : state rt)
    (t1 t2 : string) (raw out : pyval) :
  os_path_exists rt path (st_world s) = true ->
  extract_text_from_pdf path s = (Ok t1, s1) ->
  extract_text_from_pdf path s1 = (Ok t2, s2) ->
  parse_with_bedrock t2 s2 = (Ok raw, s3) ->
  enforce_key_order raw = Ok out ->
  exists summary,
    generate_summary out = Ok summary
    /\ process_pdf path s = (Ok (out, summary), s3).
Proof.
  intros Hex H1 H2 H3 H4.
  destruct (generate_summary_total out) as [summary Hs].
  exists summary. split; [assumption|].
  unfold process_pdf, bind, observe, lift, ret.
  rewrite Hex. cbn [negb]. cbv beta iota. rewrite H1. cbv beta iota.
  rewrite H2. cbv beta iota. rewrite H3. cbv beta iota.
  now rewrite H4, Hs.
Qed.

(** C1.  When the model's parsed output is a JSON object [d], the canonical
    result [process_pdf] returns holds exactly those of the six known
    top-level keys that [d] has, in the fixed order (product,
    electrical_specs, mechanical_specs, temperature_specs, warranty,
    certifications), each with the value [d] gives it; every other key of
    [d] is dropped, and a key [d] lacks is absent from the result rather
    than bound to null. *)
Theorem canonical_result_keys (path : string) (s s1 s2 s3 : state rt)
    (t1 t2 : string) (d : pydict) :
  os_path_exists rt path (st_world s) = true ->
  extract_text_from_pdf path s = (Ok t1, s1) ->
  extract_text_from_pdf path s1 = (Ok t2, s2) ->
  parse_with_bedrock t2 s2 = (Ok (PDict d), s3) ->
  exists c summary,
    process_pdf path s = (Ok (PDict c, summary), s3)
    /\ keys c = filter (fun k => has_key k d) ordered_keys
    /\ (forall k, lookup k c
                  = if existsb (String.eqb k) ordered_keys
                    then lookup k d else None).
Proof.
  intros Hex H1 H2 H3.
  destruct (process_pdf_run path s s1 s2 s3 t1 t2 _ _ Hex H1 H2 H3
              (enforce_key_order_dict d)) as [summary [_ Hrun]].
  exists (selected d ordered_keys), summary.
  split; [exact Hrun|]. split.
  - apply keys_selected.
  - intro k. apply lookup_selected.
Qed.

End PipelineRuns.

(** ** The order of numbers and [max] *)

Section NumberOrder.

Lemma xgt_true_xle (a b : xnum) : xgt a b = true -> xle b a = true.
Proof.
  destruct a as [| |p|], b as [| |q|]; simpl; try discriminate; try reflexivity.
  destruct (Qcompare p q) eqn:E; try discriminate. intros _.
  apply Qle_bool_iff, Qlt_le_weak. now apply Qgt_alt.
Qed.

Lemma xgt_false_xle (a b : xnum) :
  ordered a -> ordered b -> xgt a b = false -> xle a b = true.
Proof.
  unfold ordered.
  destruct a as [| |p|], b as [| |q|]; simpl; intros Ha Hb;
    try congruence; try reflexivity.
  destruct (Qcompare p q) eqn:E; try discriminate; intros _;
    apply Qle_bool_iff.
  - apply Qeq_alt in E. rewrite E. apply Qle_refl.
  - apply Qlt_le_weak. now apply Qlt_alt.
Qed.

Lemma xle_trans (a b c : xnum) :
  xle a b = true -> xle b c = true -> xle a c = true.
Proof.
  destruct a as [| |p|], b as [| |q|], c as [| |r|]; simpl;
    try discriminate; try reflexivity.
  rewrite !Qle_bool_iff. apply Qle_trans.
Qed.

Lemma xle_refl (a : xnum) : ordered a -> xle a a = true.
Proof.
  unfold ordered. destruct a as [| |p|]; simpl; try congruence.
  intros _. apply Qle_bool_iff, Qle_refl.
Qed.

(** A number of the data model has an exact value, which is not NaN. *)
Lemma number_value (v : pyval) :
  is_number v = true -> exists x, num_value v = Some x /\ ordered x.
Proof.
  unfold ordered.
  destruct v as [| | |f| | |]; simpl; try discriminate; intros H.
  - eexists; split; [reflexivity | discriminate].
  - exists (float_value f). split; [reflexivity|].
    destruct f as [| [|] | | [|] m e]; simpl in *; try discriminate;
      destruct (0 <=? e)%Z; discriminate.
Qed.

Lemma py_gt_numbers (a b : pyval) (x y : xnum) :
  is_number a = true -> num_value a = Some x -> num_value b = Some y ->
  py_gt a b = Ok (xgt x y).
Proof.
  intros Ha Hx Hy.
  destruct a as [| | |f| | |]; simpl in Ha; try discriminate;
    destruct b as [| | | | | |]; simpl in *; try discriminate;
      inversion Hx; inversion Hy; subst; reflexivity.
Qed.

Lemma num_le_refl (v : pyval) : is_number v = true -> num_le v v = true.
Proof.
  intro H. destruct (number_value v H) as [x [Hx Ho]].
  unfold num_le. rewrite Hx. now apply xle_refl.
Qed.

Lemma num_le_trans (a b c : pyval) :
  num_le a b = true -> num_le b c = true -> num_le a c = true.
Proof.
  unfold num_le.
  destruct (num_value a), (num_value b), (num_value c); try discriminate.
  apply xle_trans.
Qed.

(** The loop of [max] on numbers: it ends on one of the items, which is no
    smaller than the running maximum and than every remaining item. *)
Lemma max_from_numbers (rest : list pyval) (cur : pyval) :
  is_number cur = true ->
  forallb is_number rest = true ->
  exists m, max_from cur rest = Ok m
            /\ In m (cur :: rest)
            /\ is_number m = true
            /\ num_le cur m = true
            /\ forall v, In v rest -> num_le v m = true.
Proof.
  revert cur. induction rest as [|x rest IH]; intros cur Hc Hr; simpl in *.
  - exists cur. repeat split; auto using num_le_refl.
  - apply andb_prop in Hr. destruct Hr as [Hx Hr].
    destruct (number_value x Hx) as [vx [Ex Ox]].
    destruct (number_value cur Hc) as [vc [Ec Oc]].
    rewrite (py_gt_numbers x cur vx vc Hx Ex Ec).
    destruct (xgt vx vc) eqn:G.
    + destruct (IH x Hx Hr) as (m & Hm & Hin & Hnum & Hle & Hall).
      exists m. split; [exact Hm|]. split.
      { destruct Hin as [<-|Hin]; [now right; left | now right; right]. }
      split; [exact Hnum|]. split.
      { apply num_le_trans with x; [|assumption].
        unfold num_le. rewrite Ec, Ex. now apply xgt_true_xle. }
      intros v [<-|Hv]; auto.
    + destruct (IH cur Hc Hr) as (m & Hm & Hin & Hnum & Hle & Hall).
      exists m. split; [exact Hm|]. split.
      { destruct Hin as [<-|Hin]; [now left | now right; right]. }
      split; [exact Hnum|]. split; [exact Hle|].
      intros v [<-|Hv]; auto.
      apply num_le_trans with cur; [|assumption].
      unfold num_le. rewrite Ec, Ex. now apply xgt_false_xle.
Qed.

Lemma py_max_numbers (vals : list pyval) :
  vals <> [] ->
  forallb is_number vals = true ->
  exists m, py_max vals = Ok m /\ is_maximum m vals.
Proof.
  destruct vals as [|x rest]; [congruence|]. intros _ H. simpl in H.
  apply andb_prop in H. destruct H as [Hx Hr].
  destruct (max_from_numbers rest x Hx Hr) as (m & Hm & Hin & _ & Hle & Hall).
  exists m. split; [exact Hm|]. split; [exact Hin|].
  intros v [<-|Hv]; auto.
Qed.

End NumberOrder.

(** ** The summary *)

Section SummaryFacts.

Context {rt : Runtime}.

(** The summary is its lines, each ended by a newline. *)
Lemma render_lines (f : summary_fields) : render f = unlines (summary_lines f).
Proof.
  unfold render, summary_lines, unlines, power_range_line, efficiency_line.
  cbn [append].
  repeat (rewrite !StrFacts.append_assoc; cbn [append]).
  reflexivity.
Qed.

(** The text of a summary shows what its efficiency field prints as. *)
Lemma rendered_reports (f : summary_fields) :
  reports_max_efficiency (render f) (py_str (f_max_efficiency f)).
Proof.
  exists (summary_lines f). split; [apply render_lines | reflexivity].
Qed.

Lemma mentions_append (c : ascii) (a b : string) :
  Str.mentions c (a ++ b) = Str.mentions c a || Str.mentions c b.
Proof.
  induction a as [|d a IH]; simpl; [reflexivity|].
  now rewrite IH, orb_assoc.
Qed.

(** A text of one line, without a newline, shows no efficiency. *)
Lemma one_line_reports_nothing (text v : string) :
  Str.mentions (ascii_of_nat 10) text = false ->
  ~ reports_max_efficiency text v.
Proof.
  intros Hnl [lines [E Hline]].
  destruct lines as [|l rest].
  - simpl in Hline. unfold efficiency_line in Hline. discriminate.
  - subst text. simpl in Hnl. rewrite !mentions_append in Hnl.
    simpl in Hnl. rewrite orb_true_r in Hnl. discriminate.
Qed.

Lemma py_get_ok (o : pyval) (k : string) (dflt v : pyval) :
  py_get o k dflt = Ok v ->
  exists d, o = PDict d
            /\ v = match lookup k d with Some x => x | None => dflt end.
Proof.
  destruct o; simpl; try discriminate. intro H. inversion H. eauto.
Qed.

Lemma py_get_dict (d : pydict) (k : string) (dflt : pyval) :
  py_get (PDict d) k dflt
  = Ok (match lookup k d with Some x => x | None => dflt end).
Proof. reflexivity. Qed.

(** The comprehension over the variants, when it returns, returns the
    non-null efficiencies in order. *)
Lemma efficiency_comprehension_ok (variants : list pyval) (vals : list pyval) :
  efficiency_comprehension variants = Ok vals ->
  vals = flat_map efficiency_of variants
  /\ Forall (fun v => is_dict v = true) variants.
Proof.
  revert vals. induction variants as [|v rest IH]; intros vals H; simpl in H.
  - inversion H. split; [reflexivity | constructor].
  - destruct v as [| | | | | |d]; simpl in H; try discriminate.
    unfold efficiency_of at 1. simpl.
    destruct (lookup "efficiency_pct" d) as [x|]; simpl in H.
    + destruct (is_none x) eqn:N.
      * destruct (IH vals H) as [-> HF]. split; [reflexivity | now constructor].
      * apply rbind_ok in H. destruct H as [xs [Hxs H]].
        inversion H; subst. destruct (IH xs Hxs) as [-> HF].
        split; [reflexivity | now constructor].
    + destruct (IH vals H) as [-> HF]. split; [reflexivity | now constructor].
Qed.

Ltac invert_bind H :=
  let a := fresh "a" in
  let Ha := fresh "Ha" in
  apply rbind_ok in H; destruct H as [a [Ha H]]; cbv beta in H.

Ltac case_lookup :=
  match goal with
  | |- context [lookup ?k ?d] => destruct (lookup k d)
  end.

Lemma strings_are_not_dicts (l : list string) :
  Forall (fun v => is_dict v = true) (map PStr l) -> l = [].
Proof.
  destruct l as [|x l]; [reflexivity|]. intro H. inversion H. discriminate.
Qed.

(** What the comprehension of [generate_summary] collects is what the
    specification calls the non-null efficiency values. *)
Lemma efficiency_values_computed (d e : pydict) (items vals : list pyval) :
  PDict e = match lookup "electrical_specs" d with
            | Some x => x | None => PDict [] end ->
  py_iter (match lookup "power_variants" e with
           | Some x => x | None => PList [] end) = Ok items ->
  efficiency_comprehension items = Ok vals ->
  spec_efficiency_values (PDict d) = vals.
Proof.
  intros He Hi Hc.
  apply efficiency_comprehension_ok in Hc. destruct Hc as [-> HF].
  unfold spec_efficiency_values. cbn [path_lookup].
  destruct (lookup "electrical_specs" d) as [x|].
  - subst x. destruct (lookup "power_variants" e) as [v|].
    + destruct v; simpl in Hi; try discriminate; inversion Hi; subst items;
        try reflexivity;
        apply strings_are_not_dicts in HF; rewrite HF; reflexivity.

    + inversion Hi. reflexivity.
  - inversion He; subst e. simpl in Hi. inversion Hi. reflexivity.
Qed.

(** What the fields of a summary are, when there is one. *)
Lemma summary_fields_inv (data : pyval) (f : summary_fields) :
  summary_fields_of data = Ok f ->
  f_power_min f = or_none (path_lookup ["product"; "wattage_range"; "min"] data)
  /\ f_power_max f = or_none (path_lookup ["product"; "wattage_range"; "max"] data)
  /\ f_manufacturer f
     = match path_lookup ["product"; "manufacturer"] data with
       | Some v => v | None => PStr "Unknown" end
  /\ f_series f
     = match path_lookup ["product"; "series"] data with
       | Some v => v | None => PStr "Solar Module" end
  /\ match spec_efficiency_values data with
     | [] => f_max_efficiency f = PStr "N/A"
     | vals => py_max vals = Ok (f_max_efficiency f)
     end.
Proof.
  intro H. unfold summary_fields_of in H.
  repeat invert_bind H. inversion H; subst f; clear H.
  cbn [f_power_min f_power_max f_manufacturer f_series f_max_efficiency].
  apply py_get_ok in Ha. destruct Ha as (d & -> & Hprod).
  apply py_get_ok in Ha0. destruct Ha0 as (d' & E & Helec). injection E as <-.
  apply py_get_ok in Ha4. destruct Ha4 as (p & -> & _).
  apply py_get_ok in Ha6. destruct Ha6 as (e & -> & ->).
  apply py_get_ok in Ha10. destruct Ha10 as (p' & E & ->). injection E as <-.
  apply py_get_ok in Ha11. destruct Ha11 as (p' & E & ->). injection E as <-.
  apply py_get_ok in Ha14. destruct Ha14 as (p' & E & Hra). injection E as <-.
  apply py_get_ok in Ha15. destruct Ha15 as (ra & -> & ->).
  apply py_get_ok in Ha16. destruct Ha16 as (p' & E & Hrb). injection E as <-.
  apply py_get_ok in Ha17. destruct Ha17 as (rb & -> & ->).
  rewrite (efficiency_values_computed d e a7 a8 Helec Ha7 Ha8).
  assert (Hmax : match a8 with
                 | [] => a9 = PStr "N/A"
                 | _ :: _ => py_max a8 = Ok a9
                 end)
    by (destruct a8; [now inversion Ha9 | exact Ha9]).
  clear - Hprod Hra Hrb Hmax. cbn [path_lookup].
  destruct (lookup "product" d) as [x|].
  - subst x.
    destruct (lookup "wattage_range" p) as [r|].
    + subst r. inversion Hrb; subst rb.
      repeat split; try (now destruct a8); now repeat case_lookup.
    + inversion Hra; inversion Hrb; subst.
      repeat split; try (now destruct a8); now repeat case_lookup.
  - inversion Hprod; subst p. simpl in Hra, Hrb.
    inversion Hra; inversion Hrb; subst.
    repeat split; now destruct a8.
Qed.

(** *** Records of the shape of the data model always get a summary *)

Lemma section_value (p : pyval -> bool) (o : option pyval) (dflt : pyval) :
  absent_or p o = true -> p dflt = true ->
  p (match o with Some x => x | None => dflt end) = true.
Proof. now destruct o. Qed.

Lemma is_dict_inv (v : pyval) : is_dict v = true -> exists d, v = PDict d.
Proof. destruct v; simpl; try discriminate. eauto. Qed.

Lemma join_items_strings (l : list pyval) (i : Z) :
  forallb is_str l = true -> exists parts, join_items i l = Ok parts.
Proof.
  revert i. induction l as [|x l IH]; intros i H; simpl in *.
  - eauto.
  - apply andb_prop in H. destruct H as [Hx Hl].
    destruct x; simpl in Hx; try discriminate.
    destruct (IH (i + 1)%Z Hl) as [parts ->]. eauto.
Qed.

Lemma py_join_strings (sep : string) (v : pyval) :
  is_str_list v = true -> exists text, py_join sep v = Ok text.
Proof.
  destruct v; simpl; try discriminate. intro H.
  unfold py_join. simpl.
  destruct (join_items_strings l 0 H) as [parts ->]. eauto.
Qed.

Lemma efficiency_comprehension_variants (l : list pyval) :
  forallb variant_ok l = true ->
  efficiency_comprehension l = Ok (flat_map efficiency_of l)
  /\ forallb is_number (flat_map efficiency_of l) = true.
Proof.
  induction l as [|v l IH]; intro H; simpl in *.
  - split; reflexivity.
  - apply andb_prop in H. destruct H as [Hv Hl].
    destruct (IH Hl) as [IHc IHn].
    destruct v as [| | | | | |d]; simpl in Hv; try discriminate.
    unfold efficiency_of at 1 3. simpl.
    destruct (lookup "efficiency_pct" d) as [x|]; simpl in *.
    + destruct (is_none x) eqn:N; simpl in *.
      * now split.
      * rewrite IHc. simpl. split; [reflexivity|]. now rewrite Hv.
    + now split.
Qed.

Ltac section_dict H name :=
  apply (section_value _ _ (PDict [])) in H; [|reflexivity];
  match type of H with
  | _ ?v = true =>
      let x := fresh name in
      set (x := v) in *; clearbody x;
      destruct x; simpl in H; try discriminate
  end.

Lemma conforming_summary (data : pyval) :
  conforms data = true -> exists f, summary_fields_of data = Ok f.
Proof.
  destruct data as [| | | | | |d]; simpl; try discriminate.
  intro H. repeat (apply andb_prop in H; destruct H as [H ?]).
  unfold summary_fields_of. rewrite !py_get_dict. cbn [rbind].
  section_dict H product. section_dict H3 elec. section_dict H2 mech.
  section_dict H1 temp. section_dict H0 warranty.
  rewrite !py_get_dict. cbn [rbind].
  apply andb_prop in H. destruct H as [Hrange Hmodels].
  (* max_power *)
  assert (Hpower : exists text,
             (if py_truthy match lookup "wattage_range" d0 with
                           | Some x => x | None => PNone end
              then (r <- py_getitem_str (PDict d0) "wattage_range" ;;
                    m <- py_get r "max" PNone ;;
                    Ok (py_str m ++ "W"))%result
              else Ok "N/A") = Ok text).
  { cbn [py_getitem_str].
    destruct (lookup "wattage_range" d0) as [r|]; [|simpl; eauto].
    apply is_dict_inv in Hrange. destruct Hrange as [rd ->].
    destruct (py_truthy (PDict rd)); simpl; eauto. }
  destruct Hpower as [text ->]. cbn [rbind].
  (* max_efficiency *)
  apply (section_value _ _ (PList [])) in H3; [|reflexivity].
  set (variants := match lookup "power_variants" d1 with
                   | Some x => x | None => PList [] end) in *.
  clearbody variants.
  destruct variants as [| | | | |l|]; simpl in H3; try discriminate.
  cbn [py_iter rbind].
  destruct (efficiency_comprehension_variants l H3) as [-> Hnum].
  cbn [rbind].
  assert (Hmax : exists m,
             match flat_map efficiency_of l with
             | [] => Ok (PStr "N/A")
             | _ :: _ => py_max (flat_map efficiency_of l)
             end = Ok m).
  { destruct (flat_map efficiency_of l) as [|x vals] eqn:E; [eauto|].
    destruct (py_max_numbers (x :: vals)) as [m [Hm _]];
      [discriminate | assumption | eauto]. }
  destruct Hmax as [m ->]. cbn [rbind].
  (* the models line *)
  apply (section_value _ _ (PList [])) in Hmodels; [|reflexivity].
  destruct (py_join_strings ", " _ Hmodels) as [models ->]. cbn [rbind].
  (* the two ranges *)
  apply (section_value _ _ (PDict [])) in Hrange; [|reflexivity].
  apply is_dict_inv in Hrange. destruct Hrange as [rd ->].
  apply (section_value _ _ (PDict [])) in H1; [|reflexivity].
  apply is_dict_inv in H1. destruct H1 as [od ->].
  rewrite !py_get_dict. cbn [rbind]. eauto.
Qed.

Lemma conforming_efficiencies (data : pyval) :
  conforms data = true ->
  forallb is_number (spec_efficiency_values data) = true.
Proof.
  destruct data as [| | | | | |d]; simpl; try discriminate.
  intro H. repeat (apply andb_prop in H; destruct H as [H ?]).
  unfold spec_efficiency_values. cbn [path_lookup].
  destruct (lookup "electrical_specs" d) as [x|]; [|reflexivity].
  destruct x as [| | | | | |e]; simpl in *; try discriminate.
  destruct (lookup "power_variants" e) as [v|]; [|reflexivity].
  destruct v as [| | | | |l|]; simpl in *; try reflexivity.
  now apply efficiency_comprehension_variants.
Qed.

(** The error text is never the text of a summary. *)
Lemma error_text_is_no_summary (msg : string) (f : summary_fields) :
  "Error generating summary: " ++ msg <> render f.
Proof. unfold render. cbn [append]. discriminate. Qed.


(** The maximum efficiency of a summary, whenever there is a summary. *)
Lemma max_efficiency_of_summary (data : pyval) (f : summary_fields) :
  summary_fields_of data = Ok f ->
  forallb is_number (spec_efficiency_values data) = true ->
  (spec_efficiency_values data = [] -> f_max_efficiency f = PStr "N/A")
  /\ (spec_efficiency_values data <> [] ->
      is_maximum (f_max_efficiency f) (spec_efficiency_values data)).
Proof.
  intros H Hnum. destruct (summary_fields_inv data f H) as (_ & _ & _ & _ & Hm).
  destruct (spec_efficiency_values data) as [|x vals] eqn:E.
  - split; [now intros _ | congruence].
  - split; [discriminate|]. intros _.
    destruct (py_max_numbers (x :: vals)) as [m [Hpm Hmax]];
      [discriminate | assumption |].
    rewrite Hpm in Hm. now inversion Hm; subst.
Qed.

(** C5 (amended).  For every input record for which the formatted summary
    is produced, and whose non-null efficiency_pct values are numbers other
    than NaN, the maximum efficiency the summary reports, on the efficiency
    line of its text, is the maximum of all non-null efficiency_pct values
    across electrical_specs.power_variants, and the text N/A when there is
    no such value.  Every record of the shape of the data model is such a
    record: an object in which each of the five sections is absent or an
    object, wattage_range and operating_range_c are absent or objects,
    model_types is absent or a list of strings, and power_variants is absent
    or a list of objects whose efficiency_pct is absent, null or a number
    other than NaN. *)
Theorem max_efficiency_is_reported :
  (forall data f,
      summary_fields_of data = Ok f ->
      forallb is_number (spec_efficiency_values data) = true ->
      generate_summary data = Ok (render f)
      /\ render f = unlines (summary_lines f)
      /\ nth 7 (summary_lines f) ""
         = "- **Efficiency**: Up to " ++ py_str (f_max_efficiency f) ++ "%"
      /\ reports_max_efficiency (render f) (py_str (f_max_efficiency f))
      /\ (spec_efficiency_values data = [] ->
          f_max_efficiency f = PStr "N/A"
          /\ reports_max_efficiency (render f) "N/A")
      /\ (spec_efficiency_values data <> [] ->
          is_maximum (f_max_efficiency f) (spec_efficiency_values data)))
  /\ (forall data,
        conforms data = true ->
        (exists f, summary_fields_of data = Ok f)
        /\ forallb is_number (spec_efficiency_values data) = true).
Proof.
  split.
  - intros data f Hf Hnum.
    destruct (max_efficiency_of_summary data f Hf Hnum) as [Hnone Hmax].
    split; [now apply generate_summary_ok|].
    split; [apply render_lines|].
    split; [reflexivity|].
    split; [apply rendered_reports|].
    split; [|exact Hmax].
    intro E. split; [now apply Hnone|].
    pose proof (rendered_reports f) as Hr.
    now rewrite (Hnone E) in Hr.
  - intros data Hc. split.
    + now apply conforming_summary.
    + now apply conforming_efficiencies.
Qed.

(** The summary of the empty record, field by field and as a text. *)
Lemma empty_record_summary :
  enforce_key_order (PDict []) = Ok (PDict [])
  /\ summary_fields_of (PDict []) = Ok placeholder_fields
  /\ generate_summary (PDict []) = Ok (render placeholder_fields)
  /\ nth 2 (summary_lines placeholder_fields) "" = "**Unknown Solar Module**"
  /\ render placeholder_fields = "
## Product Overview
**Unknown Solar Module**
*Models*: 
*Power Range*: NoneW - NoneW

## Key Specifications
- **Efficiency**: Up to N/A%
- **Max System Voltage**: NoneV
- **Dimensions**: Nonemm x Nonemm
- **Weight**: Nonekg
- **Cell Type**: None

## Performance & Warranty
- **Operating Temp**: None°C to None°C
- **Temperature Coefficient (Pmax)**: None%/°C
- **Warranty**: None Years (None% degradation/year)
".
Proof. repeat split; reflexivity. Qed.

Lemma rbind_raises {A B : Type} (m : result A) (k : A -> result B) :
  (exists e, m = Raise e) -> exists e, rbind m k = Raise e.
Proof. intros [e ->]. now exists e. Qed.

Lemma rbind_raises_at {A B : Type} (a : A) (m : result A) (k : A -> result B) :
  m = Ok a -> (exists e, k a = Raise e) -> exists e, rbind m k = Raise e.
Proof. now intros ->. Qed.

Lemma rbind_raises_later {A B : Type} (m : result A) (k : A -> result B) :
  (forall a, exists e, k a = Raise e) -> exists e, rbind m k = Raise e.
Proof. intro H. destruct m as [a|e]; [apply H | now exists e]. Qed.

(** With [wattage_range] bound to null the body of [generate_summary]
    raises: at the latest when the power range line asks the null for its
    [min]. *)
Lemma null_range_raises (data : pyval) :
  path_lookup ["product"; "wattage_range"] data = Some PNone ->
  exists e, summary_body data = Raise e.
Proof.
  intro H. cbn [path_lookup] in H.
  destruct data as [| | | | | |d]; try discriminate.
  destruct (lookup "product" d) as [x|] eqn:Ep; try discriminate.
  destruct x as [| | | | | |p]; try discriminate.
  destruct (lookup "wattage_range" p) as [r|] eqn:Er; try discriminate.
  injection H as ->.
  unfold summary_body. apply rbind_raises. unfold summary_fields_of.
  apply (rbind_raises_at (PDict p)); [cbn [py_get]; now rewrite Ep|].
  repeat match goal with
         | |- exists e, rbind (py_get (PDict p) "wattage_range" (PDict [])) _ = Raise e =>
             apply (rbind_raises_at PNone); [cbn [py_get]; now rewrite Er|]
         | |- exists e, rbind (py_get PNone _ _) _ = Raise e =>
             cbn [py_get rbind]; eauto
         | |- exists e, rbind _ _ = Raise e =>
             apply rbind_raises_later; intro
         end.
Qed.

(** C10 (amended).  For every input record in which product.wattage_range
    is present but null, [generate_summary] produces no formatted summary:
    the body raises and the function returns the fallback text that
    describes the error.  A record in which wattage_range is absent
    altogether shows, whenever its summary is produced, the literal None
    twice on the power range line of the text; and the summary is produced
    for every record of the shape of the data model.  (Absence alone does
    not make a summary: the rest of the record can still end in the error
    text.) *)
Theorem null_wattage_range_gives_error_text :
  (forall data,
      path_lookup ["product"; "wattage_range"] data = Some PNone ->
      exists e,
        summary_body data = Raise e
        /\ generate_summary data
           = Ok ("Error generating summary: " ++ exn_str e)
        /\ forall f, generate_summary data <> Ok (render f))
  /\ (forall data f,
        path_lookup ["product"; "wattage_range"] data = None ->
        summary_fields_of data = Ok f ->
        generate_summary data = Ok (render f)
        /\ render f = unlines (summary_lines f)
        /\ nth 4 (summary_lines f) "" = "*Power Range*: NoneW - NoneW")
  /\ (forall data,
        conforms data = true ->
        exists f, summary_fields_of data = Ok f).
Proof.
  split; [|split].
  - intros data H. destruct (null_range_raises data H) as [e He].
    exists e. split; [exact He|].
    pose proof (generate_summary_caught data e He) as Hg.
    split; [exact Hg|].
    intros f Hf. rewrite Hg in Hf.
    apply (error_text_is_no_summary (exn_str e) f). congruence.
  - intros data f Habs Hf.
    split; [now apply generate_summary_ok|].
    split; [apply render_lines|].
    destruct (summary_fields_inv data f Hf) as (Hmin & Hmax & _).
    cbn [summary_lines nth]. rewrite Hmin, Hmax.
    cbn [path_lookup] in *.
    destruct data as [| | | | | |d]; try reflexivity.
    destruct (lookup "product" d) as [x|]; [|reflexivity].
    destruct x as [| | | | | |p]; try reflexivity.
    destruct (lookup "wattage_range" p); [discriminate | reflexivity].
  - exact conforming_summary.
Qed.

End SummaryFacts.

(** ** The pipeline and the outside world *)

Section PipelineFacts.

Context {rt : Runtime}.

(** *** Computations that do not look at the trace *)

Lemma blind_ret {A : Type} (a : A) : trace_blind (ret (rt := rt) a).
Proof. intros w t1 t2. now split. Qed.

Lemma blind_raise {A : Type} (e : exn) : trace_blind (raise (rt := rt) (A := A) e).
Proof. intros w t1 t2. now split. Qed.

Lemma blind_lift {A : Type} (r : result A) : trace_blind (lift (rt := rt) r).
Proof. intros w t1 t2. now split. Qed.

Lemma blind_emit (ev : event) : trace_blind (emit (rt := rt) ev).
Proof. intros w t1 t2. now split. Qed.

Lemma blind_perform {A : Type} (op : world rt -> result A * world rt) :
  trace_blind (perform op).
Proof.
  intros w t1 t2. unfold perform. simpl. now destruct (op w).
Qed.

Lemma blind_observe {A : Type} (q : world rt -> A) : trace_blind (observe q).
Proof. intros w t1 t2. now split. Qed.

Lemma blind_bind {A B : Type} (m : io rt A) (k : A -> io rt B) :
  trace_blind m -> (forall a, trace_blind (k a)) -> trace_blind (bind m k).
Proof.
  intros Hm Hk w t1 t2. unfold bind.
  destruct (Hm w t1 t2) as [Hr Hw].
  destruct (m (mkState w t1)) as [r1 [w1 u1]].
  destruct (m (mkState w t2)) as [r2 [w2 u2]].
  simpl in Hr, Hw. subst r2 w2.
  destruct r1 as [a|e]; [apply Hk | now split].
Qed.

Lemma blind_try_catch {A : Type} (body : io rt A)
    (clauses : list (handler_clause A)) :
  trace_blind body ->
  Forall (fun c => forall e, trace_blind (snd c e)) clauses ->
  trace_blind (try_catch body clauses).
Proof.
  intros Hb Hc w t1 t2. unfold try_catch.
  destruct (Hb w t1 t2) as [Hr Hw].
  destruct (body (mkState w t1)) as [r1 [w1 u1]].
  destruct (body (mkState w t2)) as [r2 [w2 u2]].
  simpl in Hr, Hw. subst r2 w2.
  destruct r1 as [a|e]; [now split|].
  induction Hc as [|[c h] rest Hh _ IH]; simpl; [now split|].
  destruct (isinstance e c); [apply Hh | exact IH].
Qed.

Ltac blind :=
  repeat first
    [ apply blind_bind; [| intro]
    | apply blind_try_catch
    | apply blind_ret | apply blind_raise | apply blind_lift
    | apply blind_emit | apply blind_perform | apply blind_observe
    | apply Forall_cons; [intro |] | apply Forall_nil
    | progress cbn [snd] ].

Lemma blind_extract (path : string) : trace_blind (extract_text_from_pdf path).
Proof. unfold extract_text_from_pdf, read_pages. blind. Qed.

Lemma blind_parse (text : string) : trace_blind (parse_with_bedrock text).
Proof.
  unfold parse_with_bedrock, bedrock_clauses, fetch_result_text,
    decode_result_text, on_client_error, on_decode_error, on_unexpected.
  blind.
Qed.

Lemma blind_rest (text : string) : trace_blind (rest_of_pipeline text).
Proof. unfold rest_of_pipeline. blind. Qed.

(** *** Text extraction *)

(** What one call of [extract_text_from_pdf] does. *)
Lemma extract_spec (path : string) (w : world rt) (t : list event) :
  extract_text_from_pdf path (mkState w t)
  = match rbind (fst (pdfplumber_open rt path w)) (concat_pages "") with
    | Ok text =>
        (Ok text,
         mkState (snd (pdfplumber_open rt path w)) (EvPdfOpen path :: t))
    | Raise e =>
        if isinstance e Exception
        then (Raise (sys_exit 1),
              mkState (snd (pdfplumber_open rt path w))
                      (EvStderr ("Error reading PDF " ++ path ++ ": " ++ exn_str e)
                         :: EvPdfOpen path :: t))
        else (Raise e,
              mkState (snd (pdfplumber_open rt path w)) (EvPdfOpen path :: t))
    end.
Proof.
  unfold extract_text_from_pdf, read_pages, try_catch, bind, emit, perform,
    lift, raise. cbn [st_world st_trace select_clause].
  destruct (pdfplumber_open rt path w) as [[pages|e] w1]; cbn [fst snd rbind].
  - destruct (concat_pages "" pages) as [text|e]; [reflexivity|].
    now destruct (isinstance e Exception).
  - now destruct (isinstance e Exception).
Qed.

Lemma process_pdf_unfold (path : string) (s : state rt) :
  process_pdf path s
  = if os_path_exists rt path (st_world s)
    then (first <- extract_text_from_pdf path ;;
          second <- extract_text_from_pdf path ;;
          rest_of_pipeline second)%io s
    else (Raise (mkExn FileNotFoundError ("File not found: " ++ path)), s).
Proof.
  unfold process_pdf, bind at 1, observe.
  now destruct (os_path_exists rt path (st_world s)).
Qed.

Lemma process_pdf_once_unfold (path : string) (s : state rt) :
  process_pdf_once path s
  = if os_path_exists rt path (st_world s)
    then (text <- extract_text_from_pdf path ;; rest_of_pipeline text)%io s
    else (Raise (mkExn FileNotFoundError ("File not found: " ++ path)), s).
Proof.
  unfold process_pdf_once, bind at 1, observe.
  now destruct (os_path_exists rt path (st_world s)).
Qed.

(** C9.  [process_pdf] calls the text-extraction step twice on the same path
    and continues with the second text only; on every path on which
    extraction is repeatable (a second call gives what the first gave and
    changes nothing further) the pipeline returns exactly what the variant
    that extracts once returns, the same canonical result and summary or
    the same error, and leaves the same world. *)
Theorem double_extraction_is_redundant (path : string) (s : state rt) :
  repeatable path (st_world s) ->
  (os_path_exists rt path (st_world s) = true ->
   process_pdf path s
   = (first <- extract_text_from_pdf path ;;
      second <- extract_text_from_pdf path ;;
      rest_of_pipeline second)%io s)
  /\ (forall text s1,
        os_path_exists rt path (st_world s) = true ->
        extract_text_from_pdf path s = (Ok text, s1) ->
        exists s2,
          extract_text_from_pdf path s1 = (Ok text, s2)
          /\ st_trace s2 = EvPdfOpen path :: EvPdfOpen path :: st_trace s
          /\ st_trace s1 = EvPdfOpen path :: st_trace s
          /\ process_pdf path s = rest_of_pipeline text s2
          /\ process_pdf_once path s = rest_of_pipeline text s1)
  /\ fst (process_pdf path s) = fst (process_pdf_once path s)
  /\ st_world (snd (process_pdf path s))
     = st_world (snd (process_pdf_once path s)).
Proof.
  intro Hrep. destruct s as [w t]. cbn [st_world] in *.
  unfold repeatable in Hrep.
  assert (Hsecond : forall text s1,
             extract_text_from_pdf path (mkState w t) = (Ok text, s1) ->
             s1 = mkState (snd (pdfplumber_open rt path w)) (EvPdfOpen path :: t)
             /\ extract_text_from_pdf path s1
                = (Ok text,
                   mkState (snd (pdfplumber_open rt path w))
                           (EvPdfOpen path :: EvPdfOpen path :: t))).
  { intros text s1 H. rewrite extract_spec in H.
    destruct (rbind (fst (pdfplumber_open rt path w)) (concat_pages ""))
      as [text'|e] eqn:E.
    - inversion H; subst text' s1. split; [reflexivity|].
      rewrite extract_spec, Hrep. cbn [fst snd]. now rewrite E.
    - destruct (isinstance e Exception); discriminate. }
  split; [|split].
  - intro Hex. rewrite process_pdf_unfold. cbn [st_world]. now rewrite Hex.
  - intros text s1 Hex H. destruct (Hsecond text s1 H) as [-> H2].
    eexists. split; [exact H2|]. cbn [st_trace].
    split; [reflexivity|]. split; [reflexivity|].
    rewrite process_pdf_unfold, process_pdf_once_unfold. cbn [st_world].
    rewrite Hex. unfold bind. rewrite H. cbv beta iota. now rewrite H2.
  - rewrite process_pdf_unfold, process_pdf_once_unfold. cbn [st_world].
    destruct (os_path_exists rt path w); [|now split].
    unfold bind.
    destruct (extract_text_from_pdf path (mkState w t)) as [[text|e] s1] eqn:H;
      [|now split].
    destruct (Hsecond text s1 eq_refl) as [-> H2].
    rewrite H2. apply (blind_rest text).
Qed.

(** *** Which errors abort the call *)

Lemma process_pdf_missing (path : string) (s : state rt) :
  os_path_exists rt path (st_world s) = false ->
  process_pdf path s
  = (Raise (mkExn FileNotFoundError ("File not found: " ++ path)), s).
Proof. intro H. rewrite process_pdf_unfold. now rewrite H. Qed.

Lemma process_pdf_first_extraction_fails (path : string) (s s1 : state rt) (e : exn) :
  os_path_exists rt path (st_world s) = true ->
  extract_text_from_pdf path s = (Raise e, s1) ->
  process_pdf path s = (Raise e, s1).
Proof.
  intros Hex H. rewrite process_pdf_unfold, Hex. unfold bind. now rewrite H.
Qed.

Lemma process_pdf_second_extraction_fails (path : string) (s s1 s2 : state rt)
    (t1 : string) (e : exn) :
  os_path_exists rt path (st_world s) = true ->
  extract_text_from_pdf path s = (Ok t1, s1) ->
  extract_text_from_pdf path s1 = (Raise e, s2) ->
  process_pdf path s = (Raise e, s2).
Proof.
  intros Hex H1 H2. rewrite process_pdf_unfold, Hex. unfold bind.
  rewrite H1. cbv beta iota. now rewrite H2.
Qed.

Lemma process_pdf_model_fails (path : string) (s s1 s2 s3 : state rt)
    (t1 t2 : string) (e : exn) :
  os_path_exists rt path (st_world s) = true ->
  extract_text_from_pdf path s = (Ok t1, s1) ->
  extract_text_from_pdf path s1 = (Ok t2, s2) ->
  parse_with_bedrock t2 s2 = (Raise e, s3) ->
  process_pdf path s = (Raise e, s3).
Proof.
  intros Hex H1 H2 H3. rewrite process_pdf_unfold, Hex.
  unfold rest_of_pipeline, bind.
  rewrite H1. cbv beta iota. rewrite H2. cbv beta iota. now rewrite H3.
Qed.

Lemma process_pdf_key_order_fails (path : string) (s s1 s2 s3 : state rt)
    (t1 t2 : string) (raw : pyval) (e : exn) :
  os_path_exists rt path (st_world s) = true ->
  extract_text_from_pdf path s = (Ok t1, s1) ->
  extract_text_from_pdf path s1 = (Ok t2, s2) ->
  parse_with_bedrock t2 s2 = (Ok raw, s3) ->
  enforce_key_order raw = Raise e ->
  process_pdf path s = (Raise e, s3).
Proof.
  intros Hex H1 H2 H3 H4. rewrite process_pdf_unfold, Hex.
  unfold rest_of_pipeline, bind, lift.
  rewrite H1. cbv beta iota. rewrite H2. cbv beta iota. rewrite H3.
  cbv beta iota. now rewrite H4.
Qed.

(** C6.  When the body of summary generation raises, [generate_summary]
    returns a text that describes the error instead of raising, so a run in
    which the text is read, the model answers and the key order is enforced
    returns the canonical result with a summary text whatever the record
    looks like.  No other step is recovered: a missing file, a failure of
    either extraction, of the model client or of the key-order step ends the
    call with that error. *)
Theorem only_summary_errors_are_recovered :
  (forall data e,
      summary_body data = Raise e ->
      generate_summary data = Ok ("Error generating summary: " ++ exn_str e))
  /\ (forall data, exists text, generate_summary data = Ok text)
  /\ (forall path (s s1 s2 s3 : state rt) t1 t2 raw out,
        os_path_exists rt path (st_world s) = true ->
        extract_text_from_pdf path s = (Ok t1, s1) ->
        extract_text_from_pdf path s1 = (Ok t2, s2) ->
        parse_with_bedrock t2 s2 = (Ok raw, s3) ->
        enforce_key_order raw = Ok out ->
        exists summary,
          generate_summary out = Ok summary
          /\ process_pdf path s = (Ok (out, summary), s3))
  /\ (forall path (s : state rt),
        os_path_exists rt path (st_world s) = false ->
        exists e, process_pdf path s = (Raise e, s))
  /\ (forall path (s s1 : state rt) e,
        os_path_exists rt path (st_world s) = true ->
        extract_text_from_pdf path s = (Raise e, s1) ->
        process_pdf path s = (Raise e, s1))
  /\ (forall path (s s1 s2 : state rt) t1 e,
        os_path_exists rt path (st_world s) = true ->
        extract_text_from_pdf path s = (Ok t1, s1) ->
        extract_text_from_pdf path s1 = (Raise e, s2) ->
        process_pdf path s = (Raise e, s2))
  /\ (forall path (s s1 s2 s3 : state rt) t1 t2 e,
        os_path_exists rt path (st_world s) = true ->
        extract_text_from_pdf path s = (Ok t1, s1) ->
        extract_text_from_pdf path s1 = (Ok t2, s2) ->
        parse_with_bedrock t2 s2 = (Raise e, s3) ->
        process_pdf path s = (Raise e, s3))
  /\ (forall path (s s1 s2 s3 : state rt) t1 t2 raw e,
        os_path_exists rt path (st_world s) = true ->
        extract_text_from_pdf path s = (Ok t1, s1) ->
        extract_text_from_pdf path s1 = (Ok t2, s2) ->
        parse_with_bedrock t2 s2 = (Ok raw, s3) ->
        enforce_key_order raw = Raise e ->
        process_pdf path s = (Raise e, s3)).
Proof.
  split; [exact generate_summary_caught|].
  split; [exact generate_summary_total|].
  split; [intros; eapply process_pdf_run; eassumption|].
  split; [intros path s H; eexists; now apply process_pdf_missing|].
  split; [exact process_pdf_first_extraction_fails|].
  split; [exact process_pdf_second_extraction_fails|].
  split; [exact process_pdf_model_fails|].
  exact process_pdf_key_order_fails.
Qed.

(** C7.  When the model returns the empty JSON object, the canonical result
    has no top-level key and summary generation does not raise: the run
    returns the summary in which every field has fallen back to its
    placeholder, the text of which is given in full below, its header line
    reading Unknown for the manufacturer and Solar Module for the series. *)
Theorem empty_output_gets_placeholders (path : string) (s s1 s2 s3 : state rt)
    (t1 t2 : string) :
  os_path_exists rt path (st_world s) = true ->
  extract_text_from_pdf path s = (Ok t1, s1) ->
  extract_text_from_pdf path s1 = (Ok t2, s2) ->
  parse_with_bedrock t2 s2 = (Ok (PDict []), s3) ->
  process_pdf path s = (Ok (PDict [], render placeholder_fields), s3)
  /\ enforce_key_order (PDict []) = Ok (PDict [])
  /\ summary_body (PDict []) = Ok (render placeholder_fields)
  /\ generate_summary (PDict []) = Ok (render placeholder_fields)
  /\ f_manufacturer placeholder_fields = PStr "Unknown"
  /\ f_series placeholder_fields = PStr "Solar Module"
  /\ render placeholder_fields = unlines (summary_lines placeholder_fields)
  /\ nth 2 (summary_lines placeholder_fields) "" = "**Unknown Solar Module**"
  /\ render placeholder_fields = "
## Product Overview
**Unknown Solar Module**
*Models*: 
*Power Range*: NoneW - NoneW

## Key Specifications
- **Efficiency**: Up to N/A%
- **Max System Voltage**: NoneV
- **Dimensions**: Nonemm x Nonemm
- **Weight**: Nonekg
- **Cell Type**: None

## Performance & Warranty
- **Operating Temp**: None°C to None°C
- **Temperature Coefficient (Pmax)**: None%/°C
- **Warranty**: None Years (None% degradation/year)
".
Proof.
  intros Hex H1 H2 H3.
  destruct (process_pdf_run path s s1 s2 s3 t1 t2 (PDict []) (PDict [])
              Hex H1 H2 H3 eq_refl) as [summary [Hs Hrun]].
  assert (summary = render placeholder_fields) as -> by (now inversion Hs).
  destruct empty_record_summary as (Hkeys & _ & Hsum & Hline & Htext).
  split; [exact Hrun|]. split; [exact Hkeys|]. split; [exact Hs|].
  split; [exact Hsum|]. split; [reflexivity|]. split; [reflexivity|].
  split; [apply render_lines|]. split; [exact Hline | exact Htext].
Qed.

(** *** The view *)

(** The [except Exception] clause of the view lets through whatever is no
    instance of Exception, an exit request in particular, and turns every
    instance of Exception into the envelope with status 500. *)
Lemma upload_clauses_miss (body : io rt response) (s s' : state rt) (e : exn) :
  body s = (Raise e, s') ->
  isinstance e Exception = false ->
  try_catch body upload_clauses s = (Raise e, s').
Proof.
  intros H Hcls. unfold try_catch, upload_clauses. rewrite H.
  cbn [select_clause]. now rewrite Hcls.
Qed.

Lemma upload_clauses_catch (body : io rt response) (s s' : state rt) (e : exn) :
  body s = (Raise e, s') ->
  isinstance e Exception = true ->
  try_catch body upload_clauses s
  = (Ok (error_envelope (exn_str e) 500),
     mkState (st_world s') (EvStdout (format_exc rt e) :: st_trace s')).
Proof.
  intros H Hcls. unfold try_catch, upload_clauses. rewrite H.
  cbn [select_clause]. now rewrite Hcls.
Qed.

(** *** Unreadable files *)

(** C3 (amended).  For every PDF path that cannot be opened or parsed (the
    PDF library, or the reading of a page, raises an error of class
    Exception) the text-extraction step prints a diagnostic and fails, with
    the exit request of status 1 rather than with an error of class
    IOError, and the whole pipeline aborts with that failure: nothing is
    returned and the model is not called.  (A path at which there is no file
    at all is refused before extraction, with FileNotFoundError.) *)
Theorem unreadable_pdf_aborts (path : string) (s s1 : state rt) (e : exn) :
  read_pages path s = (Raise e, s1) ->
  isinstance e Exception = true ->
  extract_text_from_pdf path s
  = (Raise (sys_exit 1),
     mkState (st_world s1)
             (EvStderr ("Error reading PDF " ++ path ++ ": " ++ exn_str e)
                :: st_trace s1))
  /\ isinstance (sys_exit 1) OSError = false
  /\ (os_path_exists rt path (st_world s) = true ->
      process_pdf path s
      = (Raise (sys_exit 1),
         mkState (st_world s1)
                 (EvStderr ("Error reading PDF " ++ path ++ ": " ++ exn_str e)
                    :: st_trace s1)))
  /\ (os_path_exists rt path (st_world s) = false ->
      process_pdf path s
      = (Raise (mkExn FileNotFoundError ("File not found: " ++ path)), s))
  /\ no_model_call s
       (mkState (st_world s1)
                (EvStderr ("Error reading PDF " ++ path ++ ": " ++ exn_str e)
                   :: st_trace s1)).
Proof.
  intros H Hcls.
  assert (Hextract :
            extract_text_from_pdf path s
            = (Raise (sys_exit 1),
               mkState (st_world s1)
                       (EvStderr ("Error reading PDF " ++ path ++ ": " ++ exn_str e)
                          :: st_trace s1))).
  { unfold extract_text_from_pdf, try_catch. rewrite H.
    cbn [select_clause]. now rewrite Hcls. }
  split; [exact Hextract|]. split; [reflexivity|].
  split; [intro Hex; now apply process_pdf_first_extraction_fails|].
  split; [apply process_pdf_missing|].
  (* the trace has grown by the opening of the file and the diagnostic *)
  assert (Htrace : st_trace s1 = EvPdfOpen path :: st_trace s).
  { unfold read_pages, bind, emit, perform, lift in H. cbn [st_world st_trace] in H.
    destruct (pdfplumber_open rt path (st_world s)) as [[pages|e'] w1];
      inversion H; reflexivity. }
  intros m b Hin. cbn [st_trace] in Hin. rewrite Htrace in Hin.
  destruct Hin as [Hin|[Hin|Hin]]; [discriminate | discriminate | exact Hin].
Qed.

End PipelineFacts.

(** ** The properties at work on the simulated runtime *)

Module Scenarios.

Import Sim.

(** C1 at work: the keys come back in the fixed order, without the note. *)
Lemma canonical_result_keys_witness :
  exists s3 c summary,
    process_pdf (rt := runtime noted_codec) "a.pdf" (start noted_world)
    = (Ok (PDict c, summary), s3)
    /\ keys c = ["product"; "warranty"]
    /\ lookup "notes" c = None
    /\ lookup "certifications" c = None.
Proof.
  edestruct (canonical_result_keys (rt := runtime noted_codec) "a.pdf"
               (start noted_world))
    as (c & summary & Hrun & Hkeys & Hlookup);
    [vm_compute; reflexivity ..|].
  eexists; exists c, summary.
  split; [exact Hrun|]. split; [exact Hkeys|].
  split; rewrite Hlookup; reflexivity.
Defined.

(** C2 (the code differs).  The view turns an error of class Exception into
    the JSON error envelope with status 500, as it does for the attribute
    error of a completion that is a list; but an extraction error and a
    remote-service error have been turned into exit requests by
    [extract_text_from_pdf] and [parse_with_bedrock], and an exit request is
    no instance of Exception: it leaves [upload_file] as it came, and no
    envelope is returned. *)
Theorem upload_errors_escape_the_view :
  fst (upload_file (rt := runtime codec) (Some fake_upload) (start good_world))
  = Raise (sys_exit 1)
  /\ fst (upload_file (rt := runtime codec) (Some pdf_upload) (start throttled_world))
     = Raise (sys_exit 1)
  /\ isinstance (sys_exit 1) Exception = false
  /\ fst (upload_file (rt := runtime list_codec) (Some pdf_upload) (start list_world))
     = Ok (error_envelope "'list' object has no attribute 'get'" 500).
Proof. repeat split; vm_compute; reflexivity. Qed.

(** C3 as stated fails: a file that is no PDF makes the extraction step end
    with the exit request, which is no instance of the IOError class. *)
Lemma unreadable_pdf_error_is_no_ioerror :
  fst (extract_text_from_pdf (rt := runtime codec) "broken.pdf" (start broken_world))
  = Raise (sys_exit 1)
  /\ ~ (exists e,
          fst (extract_text_from_pdf (rt := runtime codec) "broken.pdf"
                                     (start broken_world)) = Raise e
          /\ isinstance e OSError = true).
Proof.
  split; [vm_compute; reflexivity|].
  intros [e [He Hio]].
  assert (Hrun : fst (extract_text_from_pdf (rt := runtime codec) "broken.pdf"
                                            (start broken_world))
                 = Raise (sys_exit 1)) by (vm_compute; reflexivity).
  rewrite Hrun in He. inversion He; subst e. discriminate.
Qed.

Lemma unreadable_pdf_aborts_witness :
  exists s',
    process_pdf (rt := runtime codec) "broken.pdf" (start broken_world)
    = (Raise (sys_exit 1), s')
    /\ no_model_call (start broken_world) s'.
Proof.
  edestruct (unreadable_pdf_aborts (rt := runtime codec) "broken.pdf"
               (start broken_world))
    as (_ & _ & Hrun & _ & Hcalls);
    [vm_compute; reflexivity | vm_compute; reflexivity |].
  eexists. split; [apply Hrun; reflexivity | exact Hcalls].
Defined.

(** C5 as stated fails: with [power_variants] null there is no non-null
    efficiency, and yet what comes back is not a summary that reports N/A
    but the error text.  (And a NaN that comes first is reported although
    it is no maximum: 22.5 is not below it.) *)
Lemma null_variants_report_nothing :
  (spec_efficiency_values null_variants = []
   /\ generate_summary (rt := runtime codec) null_variants
      = Ok "Error generating summary: 'NoneType' object is not iterable"
   /\ ~ reports_max_efficiency
         "Error generating summary: 'NoneType' object is not iterable" "N/A")
  /\ (exists f,
        summary_fields_of (rt := runtime codec) nan_variants = Ok f
        /\ f_max_efficiency f = PFloat S754_nan
        /\ ~ is_maximum (f_max_efficiency f) (spec_efficiency_values nan_variants)).
Proof.
  split.
  - split; [reflexivity|]. split; [reflexivity|].
    now apply one_line_reports_nothing.
  - eexists. split; [reflexivity|]. split; [reflexivity|].
    intros [_ Hle].
    specialize (Hle (PFloat f22_5) (or_intror (or_introl eq_refl))).
    discriminate.
Qed.

(** The example of the specification: 21.2, null and 22.5 give 22.5. *)
Lemma max_efficiency_is_reported_witness :
  exists f,
    generate_summary (rt := runtime codec) three_variants
    = Ok (render (rt := runtime codec) f)
    /\ f_max_efficiency f = PFloat f22_5
    /\ render (rt := runtime codec) f
       = unlines (summary_lines (rt := runtime codec) f)
    /\ nth 7 (summary_lines (rt := runtime codec) f) ""
       = "- **Efficiency**: Up to 22.5%"
    /\ reports_max_efficiency (render (rt := runtime codec) f) "22.5".
Proof.
  destruct (max_efficiency_is_reported (rt := runtime codec)) as [Hmax Hshape].
  destruct (Hshape three_variants eq_refl) as [[f Hf] Hnum].
  destruct (Hmax three_variants f Hf Hnum)
    as (Hsum & Htext & Hline & Hrep & _ & Hm).
  exists f. split; [exact Hsum|].
  assert (Hval : f_max_efficiency f = PFloat f22_5).
  { destruct Hm as [Hin Hle]; [discriminate|].
    destruct Hin as [E|[E|[]]]; [|now symmetry].
    specialize (Hle (PFloat f22_5) (or_intror (or_introl eq_refl))).
    rewrite <- E in Hle. discriminate. }
  split; [exact Hval|]. split; [exact Htext|].
  rewrite Hval in Hrep, Hline. split; [exact Hline | exact Hrep].
Defined.

Lemma only_summary_errors_are_recovered_witness :
  generate_summary (rt := runtime codec) null_range
  = Ok "Error generating summary: 'NoneType' object has no attribute 'get'"
  /\ exists s', process_pdf (rt := runtime codec) "broken.pdf" (start broken_world)
                = (Raise (sys_exit 1), s').
Proof.
  destruct (only_summary_errors_are_recovered (rt := runtime codec))
    as (Hcaught & _ & _ & _ & Hfirst & _).
  split.
  - apply (Hcaught null_range
             (mkExn AttributeError "'NoneType' object has no attribute 'get'")).
    reflexivity.
  - eexists. apply Hfirst; vm_compute; reflexivity.
Defined.

Lemma empty_output_gets_placeholders_witness :
  exists s3,
    process_pdf (rt := runtime codec) "a.pdf" (start good_world)
    = (Ok (PDict [], render (rt := runtime codec) placeholder_fields), s3).
Proof.
  eexists.
  eapply (empty_output_gets_placeholders (rt := runtime codec) "a.pdf"
            (start good_world));
    vm_compute; reflexivity.
Defined.


Lemma double_extraction_is_redundant_witness :
  fst (process_pdf (rt := runtime codec) "a.pdf" (start good_world))
  = fst (process_pdf_once (rt := runtime codec) "a.pdf" (start good_world)).
Proof.
  apply (double_extraction_is_redundant (rt := runtime codec) "a.pdf"
           (start good_world)).
  reflexivity.
Defined.

(** C10 as stated fails in its second half: a record without wattage_range
    need not get a summary with None values.  With [power_variants] null
    (and no product at all) what comes back is the error text. *)
Lemma absent_range_without_summary :
  path_lookup ["product"; "wattage_range"] null_variants = None
  /\ generate_summary (rt := runtime codec) null_variants
     = Ok "Error generating summary: 'NoneType' object is not iterable"
  /\ ~ (exists f,
          generate_summary (rt := runtime codec) null_variants
          = Ok (render (rt := runtime codec) f)).
Proof.
  split; [reflexivity|]. split; [reflexivity|].
  intros [f Hf].
  apply (error_text_is_no_summary (rt := runtime codec)
           "'NoneType' object is not iterable" f).
  assert (Hg : generate_summary (rt := runtime codec) null_variants
               = Ok "Error generating summary: 'NoneType' object is not iterable")
    by reflexivity.
  rewrite Hg in Hf. now inversion Hf.
Qed.

Lemma null_wattage_range_gives_error_text_witness :
  (exists e,
      generate_summary (rt := runtime codec) null_range
      = Ok ("Error generating summary: " ++ exn_str e))
  /\ (exists f,
        generate_summary (rt := runtime codec) no_range = Ok (render (rt := runtime codec) f)
        /\ render (rt := runtime codec) f
           = unlines (summary_lines (rt := runtime codec) f)
        /\ nth 4 (summary_lines (rt := runtime codec) f) ""
           = "*Power Range*: NoneW - NoneW").
Proof.
  destruct (null_wattage_range_gives_error_text (rt := runtime codec))
    as (Hnull & Habsent & Hshape).
  split.
  - destruct (Hnull null_range eq_refl) as (e & _ & Hg & _). now exists e.
  - destruct (Hshape no_range eq_refl) as [f Hf].
    exists f. now apply (Habsent no_range f).
Defined.

End Scenarios.

(* ================================================================== *)
(** * Further properties of the code *)

(** ** Text extraction *)

Section ExtractionFacts.

Context {rt : Runtime}.

Lemma concat_pages_texts (texts : list string) (acc : string) :
  concat_pages acc (text_pages texts) = Ok (acc ++ unlines texts).
Proof.
  revert acc. induction texts as [|t texts IH]; intro acc; simpl.
  - now rewrite StrFacts.append_nil_r.
  - rewrite IH. now rewrite !StrFacts.append_assoc.
Qed.

Lemma concat_pages_stops (good : list string) (bad : result (option string))
    (rest : list (result (option string))) (e : exn) (acc : string) :
  page_error bad = Some e ->
  concat_pages acc (text_pages good ++ bad :: rest)%list = Raise e.
Proof.
  intro Hbad. revert acc.
  induction good as [|t good IH]; intro acc; simpl.
  - destruct bad as [[t|]|e']; simpl in *; try discriminate;
      now inversion Hbad.
  - apply IH.
Qed.

(** X1.  When every page of the document has a text, the extracted text is
    the texts of the pages in page order, each followed by a newline (the
    empty text for a document without pages); the only trace the call leaves
    is the opening of the file. *)
Theorem extraction_concatenates_pages (path : string) (s : state rt)
    (texts : list string) (w1 : world rt) :
  pdfplumber_open rt path (st_world s) = (Ok (text_pages texts), w1) ->
  extract_text_from_pdf path s
  = (Ok (unlines texts), mkState w1 (EvPdfOpen path :: st_trace s)).
Proof.
  intro H. destruct s as [w t]. cbn [st_world st_trace] in *.
  rewrite extract_spec, H. cbn [fst snd rbind].
  now rewrite concat_pages_texts.
Qed.

(** X2.  The first page whose reading fails (its text is None, or the
    library raises on it) ends the extraction: whatever the pages before it
    held and whatever the pages after it are, no text is returned, the error
    of that page is printed and the call ends with the exit request of
    status 1. *)
Theorem first_bad_page_ends_extraction (path : string) (s : state rt)
    (good : list string) (bad : result (option string))
    (rest : list (result (option string))) (e : exn) (w1 : world rt) :
  pdfplumber_open rt path (st_world s)
  = (Ok (text_pages good ++ bad :: rest)%list, w1) ->
  page_error bad = Some e ->
  isinstance e Exception = true ->
  extract_text_from_pdf path s
  = (Raise (sys_exit 1),
     mkState w1 (EvStderr ("Error reading PDF " ++ path ++ ": " ++ exn_str e)
                   :: EvPdfOpen path :: st_trace s)).
Proof.
  intros H Hbad Hcls. destruct s as [w t]. cbn [st_world st_trace] in *.
  rewrite extract_spec, H. cbn [fst snd rbind].
  rewrite (concat_pages_stops good bad rest e "" Hbad). now rewrite Hcls.
Qed.

(** X3.  No error that leaves [extract_text_from_pdf] is an instance of
    Exception: an [except Exception] clause around a call of it never
    fires. *)
Theorem extraction_never_raises_exception (path : string) (s s' : state rt)
    (e : exn) :
  extract_text_from_pdf path s = (Raise e, s') ->
  isinstance e Exception = false.
Proof.
  destruct s as [w t]. rewrite extract_spec.
  destruct (rbind (fst (pdfplumber_open rt path w)) (concat_pages ""))
    as [text|e0]; [discriminate|].
  destruct (isinstance e0 Exception) eqn:E; intro H; inversion H; subst.
  - reflexivity.
  - exact E.
Qed.

End ExtractionFacts.

(** ** Fences *)

Section FenceFacts.

Import Str.

Lemma prefix_split (p s : string) :
  String.prefix p s = true -> s = p ++ drop (String.length p) s.
Proof.
  revert s. induction p as [|c p IH]; intros s H.
  - now destruct s.
  - destruct s as [|d s]; simpl in H; [discriminate|].
    destruct (ascii_dec c d) as [->|]; [|discriminate].
    simpl. now rewrite <- IH.
Qed.

Lemma suffix_split (p s : string) :
  endswith s p = true -> s = slice_to_minus (String.length p) s ++ p.
Proof.
  unfold endswith, slice_to_minus. intro H.
  apply prefix_split in H. rewrite StrFacts.length_rev in H.
  apply (f_equal rev) in H.
  rewrite StrFacts.rev_append, !StrFacts.rev_involutive in H. exact H.
Qed.

(** X4.  Fence removal never touches the content: the text it is given is
    the text it returns with, in front, nothing or the json fence marker
    and, behind, nothing or the closing fence marker. *)
Theorem remove_fences_only_removes_markers (c : string) :
  exists before after,
    c = before ++ remove_fences c ++ after
    /\ (before = "" \/ before = "```json")
    /\ (after = "" \/ after = "```").
Proof.
  unfold remove_fences.
  destruct (startswith c "```json") eqn:Hs.
  - apply prefix_split in Hs. cbn [String.length] in Hs.
    unfold slice_from.
    destruct (endswith (drop 7 c) "```") eqn:He.
    + apply suffix_split in He. cbn [String.length] in He.
      exists "```json", "```". split; [|now split; right].
      now rewrite <- He.
    + exists "```json", "". split; [|split; [now right | now left]].
      now rewrite StrFacts.append_nil_r.
  - destruct (endswith c "```") eqn:He.
    + apply suffix_split in He. cbn [String.length] in He.
      exists "", "```". split; [|split; [now left | now right]].
      exact He.
    + exists "", "". split; [|now split; left].
      simpl. now rewrite StrFacts.append_nil_r.
Qed.

(** A bare fence: the closing marker goes, the opening one stays. *)
Lemma bare_fence_kept (j : string) :
  remove_fences (strip ("```" ++ nl ++ j ++ "```")) = "```" ++ nl ++ j.
Proof.
  assert (Hstrip : strip ("```" ++ nl ++ j ++ "```") = "```" ++ nl ++ j ++ "```").
  { unfold strip, lstrip, rstrip.
    rewrite (StrFacts.strip_front_fixed space_width) by reflexivity.
    rewrite StrFacts.strip_front_fixed.
    - apply StrFacts.rev_involutive.
    - change ("```" ++ nl ++ j ++ "```") with (("```" ++ nl) ++ j ++ "```").
      rewrite !StrFacts.rev_append. reflexivity. }
  rewrite Hstrip. unfold remove_fences.
  change (startswith ("```" ++ nl ++ j ++ "```") "```json") with false.
  cbv beta iota.
  assert (Hrev : rev ("```" ++ nl ++ j ++ "```") = "```" ++ rev ("```" ++ nl ++ j)).
  { change ("```" ++ nl ++ j ++ "```") with (("```" ++ nl) ++ j ++ "```").
    change ("```" ++ nl ++ j) with (("```" ++ nl) ++ j).
    now rewrite !StrFacts.rev_append, <- !StrFacts.append_assoc. }
  unfold endswith, slice_to_minus. rewrite Hrev.
  change (rev "```") with "```". rewrite StrFacts.prefix_append.
  change (drop 3 ("```" ++ rev ("```" ++ nl ++ j))) with (rev ("```" ++ nl ++ j)).
  apply StrFacts.rev_involutive.
Qed.

End FenceFacts.

(** ** The model client *)

Section ClientFacts.

Context {rt : Runtime}.

(** X6.  When the client is built, the endpoint answers, the response
    decodes to an object whose first content block has a text, and that
    text, stripped and freed of its fences, decodes, then
    [parse_with_bedrock] returns the decoded value; later content blocks are
    ignored, nothing is printed, and the model has been invoked exactly
    once, with the model identifier and the request built from the text. *)
Theorem completion_is_decoded (text : string) (s : state rt) (w1 w2 : world rt)
    (response : string) (ed fd : pydict) (more : list pyval)
    (completion : string) (v : pyval) :
  boto3_client rt "bedrock-runtime" AWS_REGION (st_world s) = (Ok tt, w1) ->
  invoke_model rt MODEL_ID (request_of text) w1 = (Ok response, w2) ->
  json_loads rt response = Ok (PDict ed) ->
  lookup "content" ed = Some (PList (PDict fd :: more)) ->
  lookup "text" fd = Some (PStr completion) ->
  json_loads rt (remove_fences (Str.strip completion)) = Ok v ->
  parse_with_bedrock text s
  = (Ok v, mkState w2 (EvInvokeModel MODEL_ID (request_of text) :: st_trace s)).
Proof.
  intros Hclient Hinvoke Hresp Hcontent Htext Hdecode.
  unfold request_of in *.
  unfold parse_with_bedrock, fetch_result_text, decode_result_text,
    try_catch, bind, perform, emit, lift.
  cbn [st_world st_trace].
  rewrite Hclient. cbv beta iota. cbn [st_world st_trace].
  rewrite Hinvoke. cbv beta iota. rewrite Hresp. cbv beta iota.
  cbn [py_get]. rewrite Hcontent. cbv beta iota. cbn [py_getitem_0 py_get].
  rewrite Htext. cbv beta iota. cbn [py_strip]. cbv beta iota.
  rewrite Hdecode. reflexivity.
Qed.

(** X5.  Only a fence tagged json is removed at the front: of a completion
    inside a bare fence (three backticks, a newline, the text, three
    backticks) the closing fence goes and the opening one stays, so the
    decoder is handed a text that starts with the backticks. *)
Theorem bare_fence_is_kept_in_front (j : string) (s : state rt) :
  decode_result_text (PStr ("```" ++ Str.nl ++ j ++ "```")) s
  = (json_loads rt ("```" ++ Str.nl ++ j), s).
Proof.
  unfold decode_result_text, bind, lift, py_strip.
  rewrite bare_fence_kept.
  now destruct (json_loads rt ("```" ++ Str.nl ++ j)).
Qed.

(** X7.  When the completion does not decode as JSON, the call prints two
    diagnostics, the decoder's message and then the raw completion as the
    model sent it, and ends with the exit request of status 1. *)
Theorem undecodable_completion_exits (text : string) (s : state rt)
    (w1 w2 : world rt) (response : string) (ed fd : pydict)
    (more : list pyval) (completion : string) (e : exn) :
  boto3_client rt "bedrock-runtime" AWS_REGION (st_world s) = (Ok tt, w1) ->
  invoke_model rt MODEL_ID (request_of text) w1 = (Ok response, w2) ->
  json_loads rt response = Ok (PDict ed) ->
  lookup "content" ed = Some (PList (PDict fd :: more)) ->
  lookup "text" fd = Some (PStr completion) ->
  json_loads rt (remove_fences (Str.strip completion)) = Raise e ->
  exn_cls e = JSONDecodeError ->
  parse_with_bedrock text s
  = (Raise (sys_exit 1),
     mkState w2
       (EvStderr ("Raw response: " ++ completion)
          :: EvStderr ("Failed to parse JSON response from model: " ++ exn_str e)
          :: EvInvokeModel MODEL_ID (request_of text) :: st_trace s)).
Proof.
  intros Hclient Hinvoke Hresp Hcontent Htext Hdecode Hcls.
  unfold request_of in *.
  unfold parse_with_bedrock, fetch_result_text, decode_result_text,
    try_catch, bind, perform, emit, lift.
  cbn [st_world st_trace].
  rewrite Hclient. cbv beta iota. cbn [st_world st_trace].
  rewrite Hinvoke. cbv beta iota. rewrite Hresp. cbv beta iota.
  cbn [py_get]. rewrite Hcontent. cbv beta iota. cbn [py_getitem_0 py_get].
  rewrite Htext. cbv beta iota. cbn [py_strip]. cbv beta iota.
  rewrite Hdecode. cbv beta iota.
  destruct e as [c msg]. cbn [exn_cls] in Hcls. subst c.
  reflexivity.
Qed.

(** X8.  When it is the response of the endpoint itself that does not
    decode, the handler for decoding errors prints its first diagnostic and
    then fails on the completion it wants to print, which does not exist
    yet: the call ends with UnboundLocalError, an error of class Exception,
    and not with the exit request. *)
Theorem undecodable_response_raises_unbound_local (text : string)
    (s : state rt) (w1 w2 : world rt) (response : string) (e : exn) :
  boto3_client rt "bedrock-runtime" AWS_REGION (st_world s) = (Ok tt, w1) ->
  invoke_model rt MODEL_ID (request_of text) w1 = (Ok response, w2) ->
  json_loads rt response = Raise e ->
  exn_cls e = JSONDecodeError ->
  exists e',
    parse_with_bedrock text s
    = (Raise e',
       mkState w2
         (EvStderr ("Failed to parse JSON response from model: " ++ exn_str e)
            :: EvInvokeModel MODEL_ID (request_of text) :: st_trace s))
    /\ exn_cls e' = UnboundLocalError
    /\ isinstance e' Exception = true.
Proof.
  intros Hclient Hinvoke Hresp Hcls.
  unfold request_of in *.
  unfold parse_with_bedrock, fetch_result_text, try_catch, bind, perform,
    emit, lift.
  cbn [st_world st_trace].
  rewrite Hclient. cbv beta iota. cbn [st_world st_trace].
  rewrite Hinvoke. cbv beta iota. rewrite Hresp. cbv beta iota.
  destruct e as [c msg]. cbn [exn_cls] in Hcls. subst c.
  eexists. split; [reflexivity|]. split; reflexivity.
Qed.

(** X9.  A remote-service error (ClientError) from the one invocation is
    printed and ends the call with the exit request of status 1: the model
    is not invoked again and nothing is decoded. *)
Theorem client_error_exits (text : string) (s : state rt) (w1 w2 : world rt)
    (e : exn) :
  boto3_client rt "bedrock-runtime" AWS_REGION (st_world s) = (Ok tt, w1) ->
  invoke_model rt MODEL_ID (request_of text) w1 = (Raise e, w2) ->
  exn_cls e = ClientError ->
  parse_with_bedrock text s
  = (Raise (sys_exit 1),
     mkState w2
       (EvStderr ("AWS Bedrock API Error: " ++ exn_str e)
          :: EvInvokeModel MODEL_ID (request_of text) :: st_trace s)).
Proof.
  intros Hclient Hinvoke Hcls.
  unfold request_of in *.
  unfold parse_with_bedrock, fetch_result_text, try_catch, bind, perform,
    emit, lift.
  cbn [st_world st_trace].
  rewrite Hclient. cbv beta iota. cbn [st_world st_trace].
  rewrite Hinvoke. cbv beta iota.
  destruct e as [c msg]. cbn [exn_cls] in Hcls. subst c.
  reflexivity.
Qed.

(** What can leave a [try] under the three clauses of the client. *)
Lemma bedrock_clauses_outcome (body : io rt pyval) (result_text : option pyval)
    (s s' : state rt) (e : exn) :
  try_catch body (bedrock_clauses result_text) s = (Raise e, s') ->
  isinstance e Exception = true ->
  result_text = None /\ exn_cls e = UnboundLocalError.
Proof.
  unfold try_catch. destruct (body s) as [[a|e0] s0]; [discriminate|].
  cbn [bedrock_clauses select_clause].
  unfold on_client_error, on_decode_error, on_unexpected, bind, emit, raise.
  destruct (isinstance e0 ClientError);
    [intro H; inversion H; subst; discriminate|].
  destruct (isinstance e0 JSONDecodeError).
  - destruct result_text; intro H; inversion H; subst;
      [discriminate | now split].
  - destruct (isinstance e0 Exception) eqn:E; intro H; inversion H; subst;
      [discriminate | congruence].
Qed.

(** X10.  Once the client is built, the only error of class Exception that
    can leave [parse_with_bedrock] is that UnboundLocalError: every other
    failure inside it has become an exit request (or was no Exception to
    begin with). *)
Theorem client_raises_only_unbound_local (text : string) (s s' : state rt)
    (w1 : world rt) (e : exn) :
  boto3_client rt "bedrock-runtime" AWS_REGION (st_world s) = (Ok tt, w1) ->
  parse_with_bedrock text s = (Raise e, s') ->
  isinstance e Exception = true ->
  exn_cls e = UnboundLocalError.
Proof.
  intros Hclient H Hcls.
  unfold parse_with_bedrock, bind at 1, perform in H.
  rewrite Hclient in H. cbv beta iota in H. unfold bind at 1 in H.
  match type of H with
  | context [try_catch ?b (bedrock_clauses None) ?st] =>
      destruct (try_catch b (bedrock_clauses None) st) as [[rt1|e1] s1] eqn:E1
  end.
  - now apply bedrock_clauses_outcome in H.
  - inversion H; subst. now apply bedrock_clauses_outcome in E1.
Qed.

End ClientFacts.

(** ** No retry *)

Section InvocationFacts.

Context {rt : Runtime}.

Lemma calls_weaken {A : Type} (a b : nat) (m : io rt A) :
  calls_at_most a m -> (a <= b)%nat -> calls_at_most b m.
Proof. intros H Hle s. specialize (H s). lia. Qed.

Lemma calls_ret {A : Type} (a : A) : calls_at_most 0 (ret (rt := rt) a).
Proof. intro s. simpl. lia. Qed.

Lemma calls_raise {A : Type} (e : exn) :
  calls_at_most 0 (raise (rt := rt) (A := A) e).
Proof. intro s. simpl. lia. Qed.

Lemma calls_lift {A : Type} (r : result A) : calls_at_most 0 (lift (rt := rt) r).
Proof. intro s. simpl. lia. Qed.

Lemma calls_observe {A : Type} (q : world rt -> A) : calls_at_most 0 (observe q).
Proof. intro s. simpl. lia. Qed.

Lemma calls_perform {A : Type} (op : world rt -> result A * world rt) :
  calls_at_most 0 (perform op).
Proof. intro s. unfold perform. destruct (op (st_world s)). simpl. lia. Qed.

Lemma calls_emit_quiet (ev : event) :
  is_invocation ev = false -> calls_at_most 0 (emit (rt := rt) ev).
Proof.
  intros H s. unfold emit, invocations. simpl. rewrite H. lia.
Qed.

Lemma calls_emit (ev : event) : calls_at_most 1 (emit (rt := rt) ev).
Proof.
  intro s. unfold emit, invocations. simpl.
  destruct (is_invocation ev); simpl; lia.
Qed.

Lemma calls_bind {A B : Type} (a b : nat) (m : io rt A) (k : A -> io rt B) :
  calls_at_most a m -> (forall x, calls_at_most b (k x)) ->
  calls_at_most (a + b) (bind m k).
Proof.
  intros Hm Hk s. unfold bind. specialize (Hm s).
  destruct (m s) as [[x|e] s1]; simpl in *.
  - specialize (Hk x s1). lia.
  - lia.
Qed.

Lemma calls_try_catch {A : Type} (a b : nat) (body : io rt A)
    (clauses : list (handler_clause A)) :
  calls_at_most a body ->
  Forall (fun c => forall e, calls_at_most b (snd c e)) clauses ->
  calls_at_most (a + b) (try_catch body clauses).
Proof.
  intros Hb Hc s. unfold try_catch. specialize (Hb s).
  destruct (body s) as [[x|e] s1]; simpl in *; [lia|].
  induction Hc as [|[c h] rest Hh _ IH]; simpl; [lia|].
  destruct (isinstance e c); [|exact IH].
  specialize (Hh e s1). simpl in Hh. lia.
Qed.

Lemma calls_try_finally {A : Type} (a b : nat) (body : io rt A)
    (cleanup : io rt unit) :
  calls_at_most a body -> calls_at_most b cleanup ->
  calls_at_most (a + b) (try_finally body cleanup).
Proof.
  intros Hb Hc s. unfold try_finally. specialize (Hb s).
  destruct (body s) as [r s1]. specialize (Hc s1).
  destruct (cleanup s1) as [[u|e] s2]; simpl in *; lia.
Qed.

Ltac count_calls :=
  repeat first
    [ eapply calls_bind; [| intro]
    | eapply calls_try_catch
    | eapply calls_try_finally
    | apply calls_ret | apply calls_raise | apply calls_lift
    | apply calls_observe | apply calls_perform
    | apply calls_emit_quiet; reflexivity
    | apply calls_emit
    | apply Forall_cons; [intro |] | apply Forall_nil
    | progress cbn [snd] ].

Lemma calls_extract (path : string) :
  calls_at_most 0 (extract_text_from_pdf path).
Proof.
  eapply calls_weaken.
  - unfold extract_text_from_pdf, read_pages. count_calls.
  - simpl. lia.
Qed.

Lemma calls_parse (text : string) : calls_at_most 1 (parse_with_bedrock text).
Proof.
  eapply calls_weaken.
  - unfold parse_with_bedrock, bedrock_clauses, fetch_result_text,
      decode_result_text, on_client_error, on_decode_error, on_unexpected.
    count_calls.
  - simpl. lia.
Qed.

Ltac count_pipeline :=
  repeat first
    [ apply calls_extract | apply calls_parse
    | eapply calls_bind; [| intro]
    | eapply calls_try_catch
    | eapply calls_try_finally
    | apply calls_ret | apply calls_raise | apply calls_lift
    | apply calls_observe | apply calls_perform
    | apply calls_emit_quiet; reflexivity
    | apply Forall_cons; [intro |] | apply Forall_nil
    | progress cbn [snd]
    | match goal with
      | |- calls_at_most _ (if ?c then _ else _) => destruct c
      end ].

Lemma calls_process_pdf (path : string) : calls_at_most 1 (process_pdf path).
Proof.
  eapply calls_weaken.
  - unfold process_pdf.
    eapply calls_bind; [apply calls_observe | intro present].
    instantiate (1 := 1%nat).
    destruct (negb present).
    + eapply calls_weaken; [apply calls_raise | lia].
    + eapply calls_weaken; [count_pipeline | simpl; lia].
  - simpl. lia.
Qed.

Lemma calls_remove_temp (temp_path : option string) :
  calls_at_most 0 (remove_temp temp_path).
Proof.
  destruct temp_path as [p|]; simpl; [|apply calls_ret].
  destruct (negb (String.eqb p "")); [|apply calls_ret].
  change 0%nat with (0 + 0)%nat.
  apply calls_bind; [apply calls_observe | intro present].
  destruct present; [apply calls_perform | apply calls_ret].
Qed.

Lemma calls_process_upload (file : upload) :
  calls_at_most 1 (process_upload file).
Proof.
  intro s. unfold process_upload.
  pose proof (calls_perform (mkstemp rt ".pdf") s) as Hmk.
  destruct (perform (mkstemp rt ".pdf") s) as [[[fd temp_path]|e] s1];
    cbn [snd] in Hmk.
  - assert (H : calls_at_most 1
                  (try_finally
                     (try_catch
                        (perform (os_close rt fd) ;;;
                         perform (file_save rt (up_content file) temp_path) ;;;
                         out <- process_pdf temp_path ;;
                         ret (success_envelope (fst out) (snd out)))%io
                        upload_clauses)
                     (remove_temp (Some temp_path)))).
    { eapply calls_weaken.
      - eapply calls_try_finally; [|apply calls_remove_temp].
        unfold upload_clauses.
        eapply calls_try_catch.
        + eapply calls_bind; [apply calls_perform | intro].
          eapply calls_bind; [apply calls_perform | intro].
          eapply calls_bind; [apply calls_process_pdf | intro].
          apply calls_ret.
        + count_pipeline.
      - simpl. lia. }
    specialize (H s1). lia.
  - assert (H : calls_at_most 0
                  (try_finally (try_catch (raise e) upload_clauses)
                               (remove_temp None))).
    { eapply calls_weaken.
      - unfold upload_clauses. count_pipeline.
      - simpl. lia. }
    specialize (H s1). lia.
Qed.

(** The view, branch by branch. *)
Lemma upload_file_unfold (file : upload) (s : state rt) :
  upload_file (Some file) s
  = if String.eqb (up_filename file) ""
    then (Ok (error_envelope "No selected file" 400), s)
    else if Str.endswith (Str.lower (up_filename file)) ".pdf"
         then process_upload file s
         else (Ok (error_envelope "Invalid file type. Please upload a PDF." 400), s).
Proof.
  unfold upload_file, process_upload.
  destruct (String.eqb (up_filename file) ""); [reflexivity|].
  cbn [negb andb].
  now destruct (Str.endswith (Str.lower (up_filename file)) ".pdf").
Qed.

Lemma calls_upload_file (file_part : option upload) :
  calls_at_most 1 (upload_file file_part).
Proof.
  intro s. destruct file_part as [file|]; [|simpl; lia].
  rewrite upload_file_unfold.
  destruct (String.eqb (up_filename file) ""); [simpl; lia|].
  destruct (Str.endswith (Str.lower (up_filename file)) ".pdf");
    [apply calls_process_upload | simpl; lia].
Qed.

Lemma calls_main (write_json : string -> pyval -> world rt -> result unit * world rt)
    (args : cli_args) :
  calls_at_most 1 (main write_json args).
Proof.
  eapply calls_weaken.
  - unfold main.
    eapply calls_try_catch.
    + eapply calls_bind; [apply calls_emit_quiet; reflexivity | intro].
      eapply calls_bind; [apply calls_process_pdf | intro].
      count_pipeline.
    + count_pipeline.
  - simpl. lia.
Qed.

(** X11.  Nothing retries: however a call ends, with a result or with an
    error, [process_pdf], the upload view and the command line each add at
    most one model invocation to what has happened. *)
Theorem at_most_one_invocation_per_call :
  (forall path (s : state rt),
      (invocations (st_trace (snd (process_pdf path s)))
       <= invocations (st_trace s) + 1)%nat)
  /\ (forall file_part (s : state rt),
        (invocations (st_trace (snd (upload_file file_part s)))
         <= invocations (st_trace s) + 1)%nat)
  /\ (forall write_json args (s : state rt),
        (invocations (st_trace (snd (main write_json args s)))
         <= invocations (st_trace s) + 1)%nat).
Proof.
  split; [exact calls_process_pdf|].
  split; [exact calls_upload_file|].
  intros write_json args. exact (calls_main write_json args).
Qed.

End InvocationFacts.

(** ** The upload view *)

Section UploadFacts.

Context {rt : Runtime}.

Lemma lower_append (a b : string) :
  Str.lower (a ++ b) = Str.lower a ++ Str.lower b.
Proof. induction a as [|c a IH]; simpl; [reflexivity | now rewrite IH]. Qed.

Lemma endswith_append (a b : string) : Str.endswith (a ++ b) b = true.
Proof.
  unfold Str.endswith. rewrite StrFacts.rev_append.
  apply StrFacts.prefix_append.
Qed.

Lemma append_nonempty (a b : string) : b <> "" -> String.eqb (a ++ b) "" = false.
Proof.
  intro Hb. apply String.eqb_neq. intro H.
  destruct a; simpl in H; [contradiction | discriminate].
Qed.

(** The view on a request within the size limit is the view on its file
    part. *)
Lemma upload_route_within_limit (req : request) (s : state rt) :
  (req_content_length req <= MAX_CONTENT_LENGTH)%Z ->
  upload_route req s = upload_file (req_file req) s.
Proof.
  intro H. unfold upload_route, request_files, bind, lift.
  apply Z.ltb_ge in H. now rewrite H.
Qed.

(** X12.  A request whose body is longer than the limit of 16 MB is refused
    when its form is first asked for, with the error the framework answers
    with status 413; a request within the limit that has no file part, an
    empty file name, or a file name that does not end in .pdf (in any
    letter case) is answered with an error envelope of status 400.  In both
    cases nothing else happens: no temporary file is made, nothing is
    extracted, the model is not called. *)
Theorem rejected_upload_touches_nothing (req : request) (s : state rt) :
  ((MAX_CONTENT_LENGTH < req_content_length req)%Z ->
   exists e,
     upload_route req s = (Raise e, s)
     /\ exn_cls e = RequestEntityTooLarge
     /\ isinstance e Exception = true)
  /\ ((req_content_length req <= MAX_CONTENT_LENGTH)%Z ->
      match req_file req with
      | None => True
      | Some file => Str.endswith (Str.lower (up_filename file)) ".pdf" = false
      end ->
      exists message,
        upload_route req s = (Ok (error_envelope message 400), s)).
Proof.
  split.
  - intro H. unfold upload_route, request_files, bind, lift.
    apply Z.ltb_lt in H. rewrite H.
    eexists. split; [reflexivity|]. split; reflexivity.
  - intros Hlen H. rewrite (upload_route_within_limit req s Hlen).
    destruct (req_file req) as [file|].
    + rewrite upload_file_unfold, H.
      destruct (String.eqb (up_filename file) ""); eexists; reflexivity.
    + eexists. reflexivity.
Qed.

(** X13.  The extension test ignores letter case: in a request within the
    size limit, a file whose name ends in any spelling of .pdf (.PDF, .Pdf,
    ...) is accepted and handed to the processing branch. *)
Theorem extension_test_ignores_case (len : Z) (stem ext content : string)
    (s : state rt) :
  (len <= MAX_CONTENT_LENGTH)%Z ->
  Str.lower ext = ".pdf" ->
  upload_route (mkRequest len (Some (mkUpload (stem ++ ext) content))) s
  = process_upload (mkUpload (stem ++ ext) content) s.
Proof.
  intros Hlen H.
  rewrite upload_route_within_limit by exact Hlen. cbn [req_file].
  rewrite upload_file_unfold. cbn [up_filename].
  rewrite append_nonempty by (intros ->; discriminate).
  now rewrite lower_append, H, endswith_append.
Qed.

(** X14.  The temporary file does not outlive the request.  Given that a
    successful [os.remove] removes, then however the processing of an
    accepted upload ends (with a response, with an error of the pipeline,
    with an exit request) the temporary file does not exist afterwards,
    unless the removal itself failed, in which case its error is what the
    view raises. *)
Theorem temporary_file_is_removed (file : upload) (s s' : state rt)
    (fd : Z) (temp_path : string) (w1 : world rt) (r : result response) :
  (forall p w w', os_remove rt p w = (Ok tt, w') ->
                  os_path_exists rt p w' = false) ->
  mkstemp rt ".pdf" (st_world s) = (Ok (fd, temp_path), w1) ->
  temp_path <> "" ->
  process_upload file s = (r, s') ->
  os_path_exists rt temp_path (st_world s') = false
  \/ exists e w w', r = Raise e /\ os_remove rt temp_path w = (Raise e, w').
Proof.
  intros Hrm Hmk Hne H.
  unfold process_upload, perform at 1 in H. rewrite Hmk in H.
  unfold try_finally in H.
  match type of H with
  | context [try_catch ?b upload_clauses ?st] =>
      destruct (try_catch b upload_clauses st) as [r0 s0]
  end.
  unfold remove_temp in H.
  apply String.eqb_neq in Hne. rewrite Hne in H. cbn [negb] in H.
  unfold bind, observe, perform, ret in H.
  destruct (os_path_exists rt temp_path (st_world s0)) eqn:Hex.
  - destruct (os_remove rt temp_path (st_world s0)) as [[[]|e] w'] eqn:Hos.
    + inversion H; subst. left. cbn [st_world]. now apply (Hrm _ _ _ Hos).
    + inversion H; subst. right. eauto.
  - inversion H; subst. now left.
Qed.

(** The outcomes of the [try] of the view that are responses. *)
Lemma upload_try_response (body : io rt response) (s s' : state rt)
    (resp : response) :
  try_catch body upload_clauses s = (Ok resp, s') ->
  (exists s1, body s = (Ok resp, s1)) \/ is_error_response 500 resp.
Proof.
  unfold try_catch, upload_clauses.
  destruct (body s) as [[resp0|e] s1]; intro H.
  - inversion H; subst. eauto.
  - cbn [select_clause] in H.
    destruct (isinstance e Exception); [|discriminate].
    unfold bind, emit, ret in H. inversion H; subst.
    right. split; [reflexivity | eexists; reflexivity].
Qed.

Lemma try_finally_response {A : Type} (body : io rt A) (cleanup : io rt unit)
    (s s' : state rt) (a : A) :
  try_finally body cleanup s = (Ok a, s') ->
  exists s1, body s = (Ok a, s1).
Proof.
  unfold try_finally. destruct (body s) as [r s1].
  destruct (cleanup s1) as [[u|e] s2]; intro H; inversion H; subst.
  eauto.
Qed.

(** X15.  Whatever the view returns is one of three envelopes: the success
    envelope with status 200 (success, data, summary), an error envelope
    with status 400, or an error envelope with status 500; and status 200
    is only ever returned with the result of a [process_pdf] that
    returned. *)
Theorem upload_responses_have_three_shapes (file_part : option upload)
    (s s' : state rt) (resp : response) :
  upload_file file_part s = (Ok resp, s') ->
  (is_success_response resp
   /\ exists path s0 s1 data summary,
        process_pdf path s0 = (Ok (data, summary), s1)
        /\ resp = success_envelope data summary)
  \/ is_error_response 400 resp
  \/ is_error_response 500 resp.
Proof.
  destruct file_part as [file|]; intro H.
  - rewrite upload_file_unfold in H.
    destruct (String.eqb (up_filename file) "").
    { inversion H; subst. right; left.
      split; [reflexivity | eexists; reflexivity]. }
    destruct (Str.endswith (Str.lower (up_filename file)) ".pdf").
    2:{ inversion H; subst. right; left.
        split; [reflexivity | eexists; reflexivity]. }
    unfold process_upload in H.
    destruct (perform (mkstemp rt ".pdf") s) as [[[fd temp_path]|e] s1].
    + apply try_finally_response in H. destruct H as [s2 H].
      apply upload_try_response in H. destruct H as [[s3 H]|H]; [|now right; right].
      left. unfold bind in H.
      destruct (perform (os_close rt fd) s1) as [[u|e] s4]; [|discriminate].
      destruct (perform (file_save rt (up_content file) temp_path) s4)
        as [[u'|e] s5]; [|discriminate].
      destruct (process_pdf temp_path s5) as [[[data summary]|e] s6] eqn:Hp;
        [|discriminate].
      unfold ret in H. inversion H; subst. cbn [fst snd].
      split.
      * split; [reflexivity | do 2 eexists; reflexivity].
      * exists temp_path, s5, s3, data, summary. now split.
    + apply try_finally_response in H. destruct H as [s2 H].
      apply upload_try_response in H. destruct H as [[s3 H]|H]; [|now right; right].
      discriminate.
  - simpl in H. inversion H; subst. right; left.
    split; [reflexivity | eexists; reflexivity].
Qed.

End UploadFacts.

(** ** The key order *)

Section KeyOrderFacts.

Lemma selected_ext (d1 d2 : pydict) (ks : list string) :
  (forall k, In k ks -> lookup k d1 = lookup k d2) ->
  selected d1 ks = selected d2 ks.
Proof.
  induction ks as [|k ks IH]; intro H; simpl; [reflexivity|].
  rewrite (H k) by now left.
  rewrite IH; [reflexivity|]. intros k' Hin. apply H. now right.
Qed.

Lemma lookup_none_not_key (k : string) (d : pydict) :
  ~ In k (keys d) -> lookup k d = None.
Proof.
  induction d as [|[k' v] d IH]; simpl; [reflexivity|]. intro H.
  destruct (String.eqb_spec k k') as [->|_]; [exfalso; apply H; now left|].
  apply IH. tauto.
Qed.

(** With distinct keys, what a key is bound to does not depend on the order
    of the entries. *)
Lemma lookup_permutation (d1 d2 : pydict) (k : string) :
  Permutation d1 d2 -> NoDup (keys d1) -> lookup k d1 = lookup k d2.
Proof.
  intro HP. induction HP as [|[k' v] l l' HP IH|[k1 v1] [k2 v2] l|l l' l'' HP1 IH1 HP2 IH2];
    intro Hnd.
  - reflexivity.
  - simpl in *. inversion Hnd; subst.
    destruct (String.eqb k k'); [reflexivity | now apply IH].
  - simpl in *. inversion Hnd as [|? ? Hnot _]; subst.
    destruct (String.eqb_spec k k1) as [->|]; [|reflexivity].
    destruct (String.eqb_spec k1 k2) as [->|]; [|reflexivity].
    exfalso. apply Hnot. now left.
  - rewrite IH1 by assumption. apply IH2.
    unfold keys in *.
    eapply Permutation_NoDup; [|exact Hnd]. now apply Permutation_map.
Qed.

(** X16.  The canonical result does not depend on the order in which the
    model returned the keys: two objects with distinct keys that hold the
    same entries in different orders are normalized to the same result. *)
Theorem key_order_ignores_input_order (d1 d2 : pydict) :
  Permutation d1 d2 ->
  NoDup (keys d1) ->
  enforce_key_order (PDict d1) = enforce_key_order (PDict d2).
Proof.
  intros HP Hnd. rewrite !enforce_key_order_dict.
  rewrite (selected_ext d1 d2); [reflexivity|].
  intros k _. now apply lookup_permutation.
Qed.

(** X17.  Enforcing the key order is idempotent: the canonical result of an
    object is its own canonical result. *)
Theorem key_order_is_idempotent (d : pydict) (out : pyval) :
  enforce_key_order (PDict d) = Ok out ->
  enforce_key_order out = Ok out.
Proof.
  rewrite enforce_key_order_dict. intro H. inversion H; subst.
  rewrite enforce_key_order_dict.
  rewrite (selected_ext (selected d ordered_keys) d); [reflexivity|].
  intros k Hin. rewrite lookup_selected.
  assert (Hex : existsb (String.eqb k) ordered_keys = true).
  { apply existsb_exists. exists k. split; [exact Hin | apply String.eqb_refl]. }
  now rewrite Hex.
Qed.

(** On a value without [get], the comprehension goes through the names as
    long as the value holds none of them, and fails at the first it
    holds. *)
Lemma key_comprehension_container (raw : pyval) (ks : list string)
    (acc : pydict) :
  is_dict raw = false ->
  (forall k, In k ks -> exists b, py_contains k raw = Ok b) ->
  key_comprehension raw ks acc
  = if existsb (fun k => match py_contains k raw with
                         | Ok b => b
                         | Raise _ => false
                         end) ks
    then Raise (no_attribute raw "get")
    else Ok acc.
Proof.
  intros Hraw. revert acc.
  induction ks as [|k ks IH]; intros acc H; [reflexivity|].
  destruct (H k (or_introl eq_refl)) as [b Hb].
  cbn [key_comprehension existsb]. rewrite Hb. cbn [rbind].
  destruct b; cbn [orb].
  - destruct raw; try discriminate; reflexivity.
  - apply IH. intros k' Hin. apply H. now right.
Qed.

(** X18.  When the model's output is valid JSON but not an object, the
    key-order step never returns anything but the empty object, and which
    of its three outcomes occurs is fixed by the value: null, a boolean and
    a number end in the TypeError of the membership test; a list and a text
    in which none of the six names occurs (as an item, as a part) give the
    empty object; a list and a text that hold one of the names end in the
    AttributeError of the missing [get]. *)
Theorem non_object_output_gives_nothing (raw : pyval) :
  is_dict raw = false ->
  match raw with
  | PList _ | PStr _ =>
      ((forall k, In k ordered_keys -> py_contains k raw = Ok false) ->
       enforce_key_order raw = Ok (PDict []))
      /\ ((exists k, In k ordered_keys /\ py_contains k raw = Ok true) ->
          enforce_key_order raw
          = Raise (mkExn AttributeError
                         ("'" ++ type_name raw ++ "' object has no attribute 'get'")))
  | _ =>
      enforce_key_order raw
      = Raise (mkExn TypeError
                     ("argument of type '" ++ type_name raw ++ "' is not iterable"))
  end.
Proof.
  intro Hraw.
  assert (Hcontainer :
            (exists l, raw = PList l) \/ (exists t, raw = PStr t) ->
            ((forall k, In k ordered_keys -> py_contains k raw = Ok false) ->
             enforce_key_order raw = Ok (PDict []))
            /\ ((exists k, In k ordered_keys /\ py_contains k raw = Ok true) ->
                enforce_key_order raw = Raise (no_attribute raw "get"))).
  { intro Hshape.
    assert (Htotal : forall k, In k ordered_keys ->
                               exists b, py_contains k raw = Ok b).
    { intros k _. destruct Hshape as [[l ->]|[t ->]]; eexists; reflexivity. }
    unfold enforce_key_order.
    rewrite (key_comprehension_container raw ordered_keys [] Hraw Htotal).
    split.
    - intro Hnone.
      replace (existsb _ ordered_keys) with false; [reflexivity|].
      symmetry. apply not_true_is_false. intro Hex.
      apply existsb_exists in Hex. destruct Hex as [k [Hin Hk]].
      now rewrite (Hnone k Hin) in Hk.
    - intros [k [Hin Hk]].
      replace (existsb _ ordered_keys) with true; [reflexivity|].
      symmetry. apply existsb_exists. exists k. split; [exact Hin|].
      now rewrite Hk. }
  destruct raw; try discriminate; try reflexivity.
  - apply Hcontainer. right. eauto.
  - apply Hcontainer. left. eauto.
Qed.

End KeyOrderFacts.

(** ** The summary, further *)

Section SummaryMore.

Context {rt : Runtime}.

Lemma summary_fields_ext (d1 d2 : pydict) :
  (forall k, In k summary_sections -> lookup k d1 = lookup k d2) ->
  summary_fields_of (rt := rt) (PDict d1) = summary_fields_of (PDict d2).
Proof.
  intro H.
  assert (E : forall k dflt, In k summary_sections ->
                py_get (PDict d1) k dflt = py_get (PDict d2) k dflt).
  { intros k dflt Hin. cbn [py_get]. now rewrite (H k Hin). }
  unfold summary_fields_of.
  rewrite (E "product"), (E "electrical_specs"), (E "mechanical_specs"),
    (E "temperature_specs"), (E "warranty");
    try reflexivity; simpl; tauto.
Qed.

(** X19.  The summary reads the five sections and nothing else: two records
    that agree on them (whatever their certifications and other keys) get
    the same summary, and so the summary of the canonical result is the
    summary the unfiltered output of the model would have got. *)
Theorem summary_reads_five_sections :
  (forall d1 d2,
      (forall k, In k summary_sections -> lookup k d1 = lookup k d2) ->
      generate_summary (rt := rt) (PDict d1) = generate_summary (PDict d2))
  /\ (forall d out,
        enforce_key_order (PDict d) = Ok out ->
        generate_summary (rt := rt) out = generate_summary (PDict d)).
Proof.
  assert (Hext : forall d1 d2,
             (forall k, In k summary_sections -> lookup k d1 = lookup k d2) ->
             generate_summary (rt := rt) (PDict d1) = generate_summary (PDict d2)).
  { intros d1 d2 H. unfold generate_summary, summary_body.
    now rewrite (summary_fields_ext d1 d2 H). }
  split; [exact Hext|].
  intros d out H. rewrite enforce_key_order_dict in H.
  replace out with (PDict (selected d ordered_keys)) by congruence.
  apply Hext. intros k Hin. rewrite lookup_selected.
  assert (Hex : existsb (String.eqb k) ordered_keys = true).
  { apply existsb_exists. exists k. split; [|apply String.eqb_refl].
    unfold summary_sections, ordered_keys in *. simpl in *. tauto. }
  now rewrite Hex.
Qed.

Ltac chase d v H :=
  repeat match goal with
         | |- exists e, rbind (py_get (PDict d) _ _) _ = Raise e =>
             first [ apply (rbind_raises_at v);
                     [cbn [py_get]; rewrite H; reflexivity|]
                   | apply rbind_raises_later; intro ]
         | |- exists e, rbind (py_get v _ _) _ = Raise e =>
             destruct v; try discriminate; cbn [py_get rbind]; eauto
         | |- exists e, rbind _ _ = Raise e =>
             apply rbind_raises_later; intro
         end.

Lemma non_object_section_raises (d : pydict) (k : string) (v : pyval) :
  In k summary_sections ->
  lookup k d = Some v ->
  is_dict v = false ->
  exists e, summary_body (rt := rt) (PDict d) = Raise e.
Proof.
  intros Hin H Hv. unfold summary_body. apply rbind_raises.
  unfold summary_fields_of.
  unfold summary_sections in Hin. simpl in Hin.
  destruct Hin as [<-|[<-|[<-|[<-|[<-|[]]]]]]; chase d v H.
Qed.

Lemma caught_is_no_summary (data : pyval) :
  (exists e, summary_body (rt := rt) data = Raise e) ->
  exists e,
    generate_summary data = Ok ("Error generating summary: " ++ exn_str e)
    /\ forall f, generate_summary data <> Ok (render f).
Proof.
  intros [e He]. exists e.
  pose proof (generate_summary_caught data e He) as Hg.
  split; [exact Hg|]. intros f Hf. rewrite Hg in Hf.
  apply (error_text_is_no_summary (exn_str e) f). congruence.
Qed.

(** X20.  A section that is present but is not an object (null, as the
    prompt asks for a missing value, or anything else) costs the whole
    summary: whichever of the five sections it is, and whatever the other
    sections hold, [generate_summary] returns the error text. *)
Theorem non_object_section_gives_error_text (d : pydict) (k : string)
    (v : pyval) :
  In k summary_sections ->
  lookup k d = Some v ->
  is_dict v = false ->
  exists e,
    generate_summary (rt := rt) (PDict d)
    = Ok ("Error generating summary: " ++ exn_str e)
    /\ forall f, generate_summary (PDict d) <> Ok (render f).
Proof.
  intros Hin H Hv. apply caught_is_no_summary.
  now apply (non_object_section_raises d k v).
Qed.

Ltac chase_nested d p v Hsec Hsub :=
  repeat match goal with
         | |- exists e, rbind (py_get (PDict d) _ _) _ = Raise e =>
             first [ apply (rbind_raises_at (PDict p));
                     [cbn [py_get]; rewrite Hsec; reflexivity|]
                   | apply rbind_raises_later; intro ]
         | |- exists e, rbind (py_get (PDict p) _ (PDict [])) _ = Raise e =>
             first [ apply (rbind_raises_at v);
                     [cbn [py_get]; rewrite Hsub; reflexivity|]
                   | apply rbind_raises_later; intro ]
         | |- exists e, rbind (py_get v _ _) _ = Raise e =>
             destruct v; try discriminate; cbn [py_get rbind]; eauto
         | |- exists e, rbind _ _ = Raise e =>
             apply rbind_raises_later; intro
         end.

Lemma non_object_range_raises (data v : pyval) :
  path_lookup ["product"; "wattage_range"] data = Some v
  \/ path_lookup ["temperature_specs"; "operating_range_c"] data = Some v ->
  is_dict v = false ->
  exists e, summary_body (rt := rt) data = Raise e.
Proof.
  intros H Hv. cbn [path_lookup] in H.
  destruct data as [| | | | | |d]; try (now destruct H).
  unfold summary_body. apply rbind_raises. unfold summary_fields_of.
  destruct H as [H|H].
  - destruct (lookup "product" d) as [x|] eqn:Hsec; try discriminate.
    destruct x as [| | | | | |p]; try discriminate.
    destruct (lookup "wattage_range" p) as [r|] eqn:Hsub; try discriminate.
    injection H as ->.
    chase_nested d p v Hsec Hsub.
  - destruct (lookup "temperature_specs" d) as [x|] eqn:Hsec; try discriminate.
    destruct x as [| | | | | |p]; try discriminate.
    destruct (lookup "operating_range_c" p) as [r|] eqn:Hsub; try discriminate.
    injection H as ->.
    chase_nested d p v Hsec Hsub.
Qed.

(** X21.  The same holds one level down: when product.wattage_range or
    temperature_specs.operating_range_c is present but is not an object (a
    number, a text, a list, null), [generate_summary] returns the error
    text, whatever the rest of the record holds. *)
Theorem non_object_range_gives_error_text (data v : pyval) :
  path_lookup ["product"; "wattage_range"] data = Some v
  \/ path_lookup ["temperature_specs"; "operating_range_c"] data = Some v ->
  is_dict v = false ->
  exists e,
    generate_summary (rt := rt) data
    = Ok ("Error generating summary: " ++ exn_str e)
    /\ forall f, generate_summary data <> Ok (render f).
Proof.
  intros H Hv. apply caught_is_no_summary.
  now apply (non_object_range_raises data v).
Qed.









End SummaryMore.

(** ** Whole runs *)

Section RunFacts.

Context {rt : Runtime}.

(** No clause of the client returns normally. *)
Lemma bedrock_clauses_never_return (body : io rt pyval)
    (result_text : option pyval) (s s' : state rt) (v : pyval) :
  try_catch body (bedrock_clauses result_text) s = (Ok v, s') ->
  body s = (Ok v, s').
Proof.
  unfold try_catch. destruct (body s) as [[a|e] s0]; [trivial|].
  cbn [bedrock_clauses select_clause].
  unfold on_client_error, on_decode_error, on_unexpected, bind, emit, raise.
  destruct (isinstance e ClientError); [discriminate|].
  destruct (isinstance e JSONDecodeError);
    [destruct result_text; discriminate|].
  destruct (isinstance e Exception); discriminate.
Qed.

Lemma parse_ok_trace (text : string) (s s' : state rt) (v : pyval) :
  parse_with_bedrock text s = (Ok v, s') ->
  st_trace s' = EvInvokeModel MODEL_ID (request_of text) :: st_trace s.
Proof.
  unfold parse_with_bedrock, request_of. unfold bind at 1, perform at 1.
  destruct (boto3_client rt "bedrock-runtime" AWS_REGION (st_world s))
    as [[u|e] w1]; [|discriminate].
  unfold bind at 1.
  match goal with
  | |- context [try_catch ?b (bedrock_clauses None) ?st] =>
      destruct (try_catch b (bedrock_clauses None) st) as [[rtext|e] s1] eqn:E1
  end; [|discriminate].
  intro H. apply bedrock_clauses_never_return in H.
  apply bedrock_clauses_never_return in E1.
  (* the second half leaves the trace alone *)
  assert (Hs : s' = s1).
  { unfold decode_result_text, bind, lift in H.
    destruct (py_strip rtext); [|discriminate]. now inversion H. }
  subst s'.
  unfold fetch_result_text, bind, emit, perform, lift in E1.
  cbn [st_world st_trace] in E1.
  match type of E1 with
  | context [invoke_model rt ?m ?b ?w] =>
      destruct (invoke_model rt m b w) as [[response|e] w2]
  end; [|discriminate].
  destruct (json_loads rt response) as [body|e]; [|discriminate].
  destruct (py_get body "content" PNone) as [content|e]; [|discriminate].
  destruct (py_getitem_0 content) as [first|e]; [|discriminate].
  destruct (py_get first "text" PNone) as [t|e]; [|discriminate].
  now inversion E1.
Qed.

Lemma extract_ok_trace (path : string) (s s' : state rt) (text : string) :
  extract_text_from_pdf path s = (Ok text, s') ->
  st_trace s' = EvPdfOpen path :: st_trace s.
Proof.
  destruct s as [w t]. rewrite extract_spec.
  destruct (rbind (fst (pdfplumber_open rt path w)) (concat_pages ""))
    as [text'|e].
  - intro H. now inversion H.
  - destruct (isinstance e Exception); discriminate.
Qed.

(** X25.  A call of [process_pdf] that returns has done exactly this: the
    path existed, the file was opened and read twice, the model was invoked
    once, with the request built from the text of the second reading, the
    key order was enforced on what the model returned and the summary was
    generated from the canonical result; nothing was printed. *)
Theorem returning_run_has_one_shape (path : string) (s s' : state rt)
    (out : pyval) (summary : string) :
  process_pdf path s = (Ok (out, summary), s') ->
  os_path_exists rt path (st_world s) = true
  /\ exists t1 s1 t2 s2 raw,
       extract_text_from_pdf path s = (Ok t1, s1)
       /\ extract_text_from_pdf path s1 = (Ok t2, s2)
       /\ parse_with_bedrock t2 s2 = (Ok raw, s')
       /\ enforce_key_order raw = Ok out
       /\ generate_summary out = Ok summary
       /\ st_trace s'
          = EvInvokeModel MODEL_ID (request_of t2)
              :: EvPdfOpen path :: EvPdfOpen path :: st_trace s.
Proof.
  intro H. rewrite process_pdf_unfold in H.
  destruct (os_path_exists rt path (st_world s)); [|discriminate].
  split; [reflexivity|].
  unfold rest_of_pipeline, bind, lift, ret in H.
  destruct (extract_text_from_pdf path s) as [[t1|e] s1] eqn:E1; [|discriminate].
  destruct (extract_text_from_pdf path s1) as [[t2|e] s2] eqn:E2; [|discriminate].
  destruct (parse_with_bedrock t2 s2) as [[raw|e] s3] eqn:E3; [|discriminate].
  destruct (enforce_key_order raw) as [out'|e] eqn:E4; [|discriminate].
  destruct (generate_summary out') as [summary'|e] eqn:E5; [|discriminate].
  inversion H; subst.
  exists t1, s1, t2, s2, raw.
  repeat (split; [assumption || reflexivity|]).
  rewrite (parse_ok_trace _ _ _ _ E3), (extract_ok_trace _ _ _ _ E2),
    (extract_ok_trace _ _ _ _ E1). reflexivity.
Qed.

(** *** The command line *)

Section MainFacts.

Variable write_json : string -> pyval -> world rt -> result unit * world rt.

(** X26.  [main] never ends with an error of class Exception: whatever goes
    wrong, what leaves it is an exit request (or another error that is no
    Exception). *)
Theorem main_never_raises_exception (args : cli_args) (s s' : state rt)
    (e : exn) :
  main write_json args s = (Raise e, s') ->
  isinstance e Exception = false.
Proof.
  unfold main, try_catch.
  match goal with
  | |- context [match ?b s with _ => _ end] =>
      destruct (b s) as [[u|e0] s0]
  end; [discriminate|].
  cbn [select_clause].
  destruct (isinstance e0 Exception) eqn:E.
  - unfold bind, emit, raise. intro H. now inversion H.
  - intro H. inversion H; subst. exact E.
Qed.

(** X27.  When [process_pdf] fails with an error of class Exception (the
    missing file, for one), the command line prints the error after its
    first progress line and ends with the exit request of status 1, and
    nothing is written; when [process_pdf] ends with an exit request of its
    own, that request passes through and no further line is printed. *)
Theorem main_reports_and_exits (args : cli_args) (s s1 : state rt) (e : exn) :
  process_pdf (arg_pdf_path args)
    (mkState (st_world s)
       (EvStdout ("Extracting text from " ++ arg_pdf_path args ++ "...")
          :: st_trace s))
  = (Raise e, s1) ->
  main write_json args s
  = if isinstance e Exception
    then (Raise (sys_exit 1),
          mkState (st_world s1) (EvStderr ("Error: " ++ exn_str e) :: st_trace s1))
    else (Raise e, s1).
Proof.
  intro H. unfold main, try_catch, bind at 1, emit at 1.
  unfold bind at 1. rewrite H. cbn [select_clause].
  now destruct (isinstance e Exception).
Qed.

(** X28.  When [process_pdf] returns, the command line writes the canonical
    result, and not the summary, to the output path, and prints its
    progress lines in this order: the line that announces the sending to
    the model comes after the call that has already invoked it.  A writing
    that fails is reported like any other error, with exit status 1. *)
Theorem main_writes_the_canonical_result (args : cli_args) (s s1 : state rt)
    (out : pyval) (summary : string) :
  process_pdf (arg_pdf_path args)
    (mkState (st_world s)
       (EvStdout ("Extracting text from " ++ arg_pdf_path args ++ "...")
          :: st_trace s))
  = (Ok (out, summary), s1) ->
  main write_json args s
  = match write_json (arg_output args) out (st_world s1) with
    | (Ok _, w2) =>
        (Ok tt,
         mkState w2
           (EvStdout ("Results saved to " ++ arg_output args)
              :: EvStdout "Extraction successful."
              :: EvStdout ("Sending to Bedrock (" ++ MODEL_ID ++ ")...")
              :: st_trace s1))
    | (Raise e, w2) =>
        if isinstance e Exception
        then (Raise (sys_exit 1),
              mkState w2
                (EvStderr ("Error: " ++ exn_str e)
                   :: EvStdout "Extraction successful."
                   :: EvStdout ("Sending to Bedrock (" ++ MODEL_ID ++ ")...")
                   :: st_trace s1))
        else (Raise e,
              mkState w2
                (EvStdout "Extraction successful."
                   :: EvStdout ("Sending to Bedrock (" ++ MODEL_ID ++ ")...")
                   :: st_trace s1))
    end.
Proof.
  intro H. unfold main, try_catch, bind at 1, emit at 1.
  unfold bind at 1. rewrite H. cbv beta iota.
  unfold bind, emit, perform. cbn [st_world st_trace fst].
  destruct (write_json (arg_output args) out (st_world s1)) as [[[]|e] w2].
  - reflexivity.
  - cbn [select_clause]. now destruct (isinstance e Exception).
Qed.

End MainFacts.

End RunFacts.

(** ** The further properties at work on the simulated runtime *)

Module MoreScenarios.

Import Sim SimCli.

Lemma extraction_concatenates_pages_witness :
  fst (extract_text_from_pdf (rt := runtime codec) "two.pdf" (start two_page_world))
  = Ok ("Page one" ++ Str.nl ++ "Page two" ++ Str.nl).
Proof.
  now rewrite (extraction_concatenates_pages (rt := runtime codec) "two.pdf"
                 (start two_page_world) ["Page one"; "Page two"] two_page_world
                 eq_refl).
Defined.

Lemma first_bad_page_ends_extraction_witness :
  fst (extract_text_from_pdf (rt := runtime codec) "holed.pdf" (start holed_world))
  = Raise (sys_exit 1).
Proof.
  now rewrite (first_bad_page_ends_extraction (rt := runtime codec) "holed.pdf"
                 (start holed_world) ["Page one"] (Ok None)
                 [Raise (mkExn PDFSyntaxError "unreadable page")]
                 (mkExn TypeError "unsupported operand type(s) for +: 'NoneType' and 'str'")
                 holed_world eq_refl eq_refl eq_refl).
Defined.

Lemma extraction_never_raises_exception_witness :
  isinstance (sys_exit 1) Exception = false.
Proof.
  eapply (extraction_never_raises_exception (rt := runtime codec) "broken.pdf"
            (start broken_world)).
  vm_compute. reflexivity.
Defined.

Lemma completion_is_decoded_witness :
  fst (parse_with_bedrock (rt := runtime codec) "Module X 400W" (start good_world))
  = Ok (PDict []).
Proof.
  erewrite (completion_is_decoded (rt := runtime codec) "Module X 400W"
              (start good_world));
    [reflexivity | reflexivity .. ].
Defined.

Lemma undecodable_completion_exits_witness :
  fst (parse_with_bedrock (rt := runtime chatty_codec) "Module X 400W"
         (start chatty_world))
  = Raise (sys_exit 1).
Proof.
  erewrite (undecodable_completion_exits (rt := runtime chatty_codec)
              "Module X 400W" (start chatty_world));
    [reflexivity | reflexivity .. ].
Defined.

Lemma undecodable_response_raises_unbound_local_witness :
  exists e s',
    parse_with_bedrock (rt := runtime codec) "Module X 400W" (start gateway_world)
    = (Raise e, s')
    /\ exn_cls e = UnboundLocalError.
Proof.
  edestruct (undecodable_response_raises_unbound_local (rt := runtime codec)
               "Module X 400W" (start gateway_world))
    as (e & Hrun & Hcls & _); [reflexivity ..|].
  exists e. eexists. split; [exact Hrun | exact Hcls].
Defined.

Lemma client_error_exits_witness :
  fst (parse_with_bedrock (rt := runtime codec) "Module X 400W"
         (start throttled_world))
  = Raise (sys_exit 1).
Proof.
  erewrite (client_error_exits (rt := runtime codec) "Module X 400W"
              (start throttled_world));
    [reflexivity | reflexivity .. ].
Defined.

Lemma client_raises_only_unbound_local_witness :
  exists e s',
    parse_with_bedrock (rt := runtime codec) "Module X 400W" (start gateway_world)
    = (Raise e, s')
    /\ isinstance e Exception = true
    /\ exn_cls e = UnboundLocalError.
Proof.
  destruct (parse_with_bedrock (rt := runtime codec) "Module X 400W"
              (start gateway_world)) as [[v|e] s'] eqn:E;
    [vm_compute in E; discriminate|].
  assert (Hcls : isinstance e Exception = true).
  { vm_compute in E. now inversion E. }
  exists e, s'. split; [reflexivity|]. split; [exact Hcls|].
  exact (client_raises_only_unbound_local (rt := runtime codec) "Module X 400W"
           (start gateway_world) s' gateway_world e eq_refl E Hcls).
Defined.

Lemma rejected_upload_touches_nothing_witness :
  (exists e,
      upload_route (rt := runtime codec) oversize_request (start good_world)
      = (Raise e, start good_world)
      /\ exn_cls e = RequestEntityTooLarge)
  /\ (exists message,
        upload_route (rt := runtime codec) text_request (start good_world)
        = (Ok (error_envelope message 400), start good_world)).
Proof.
  split.
  - destruct (proj1 (rejected_upload_touches_nothing (rt := runtime codec)
                       oversize_request (start good_world)))
      as (e & Hrun & Hcls & _); [reflexivity|].
    exists e. split; [exact Hrun | exact Hcls].
  - apply (proj2 (rejected_upload_touches_nothing (rt := runtime codec)
                    text_request (start good_world))).
    + unfold MAX_CONTENT_LENGTH. simpl. lia.
    + reflexivity.
Defined.

Lemma extension_test_ignores_case_witness :
  upload_route (rt := runtime codec)
    (mkRequest 2048
       (Some (mkUpload ("DATASHEET" ++ ".PDF") "%PDF-1.7 Module X 400W")))
    (start good_world)
  = process_upload (mkUpload ("DATASHEET" ++ ".PDF") "%PDF-1.7 Module X 400W")
      (start good_world).
Proof.
  apply (extension_test_ignores_case (rt := runtime codec) 2048
           "DATASHEET" ".PDF").
  - unfold MAX_CONTENT_LENGTH. simpl. lia.
  - reflexivity.
Defined.

(** On the simulated disk a removal removes. *)
Lemma find_removed (p : string) (fs : list (string * opened)) :
  find_file p (remove_file p fs) = None.
Proof.
  induction fs as [|[q o] fs IH]; simpl; [reflexivity|].
  destruct (String.eqb p q) eqn:E; simpl; [exact IH|].
  now rewrite E.
Qed.

Lemma sim_remove_removes (table : list (string * pyval)) (p : string)
    (w w' : sim_world) :
  os_remove (runtime table) p w = (Ok tt, w') ->
  os_path_exists (runtime table) p w' = false.
Proof.
  simpl. intro H. inversion H; subst. simpl. now rewrite find_removed.
Qed.

Lemma temporary_file_is_removed_witness :
  os_path_exists (runtime codec) "/tmp/tmpupload.pdf"
    (st_world (snd (process_upload (rt := runtime codec) fake_upload
                      (start good_world))))
  = false.
Proof.
  destruct (temporary_file_is_removed (rt := runtime codec) fake_upload
              (start good_world)
              (snd (process_upload (rt := runtime codec) fake_upload
                      (start good_world)))
              3 "/tmp/tmpupload.pdf" good_world
              (fst (process_upload (rt := runtime codec) fake_upload
                      (start good_world))))
    as [H|(e & w & w' & _ & H)].
  - apply sim_remove_removes.
  - reflexivity.
  - discriminate.
  - apply surjective_pairing.
  - exact H.
  - simpl in H. discriminate.
Defined.

Lemma upload_responses_have_three_shapes_witness :
  exists resp,
    fst (upload_file (rt := runtime codec) (Some pdf_upload) (start good_world))
    = Ok resp
    /\ ((is_success_response resp
         /\ exists path s0 s1 data summary,
              process_pdf (rt := runtime codec) path s0 = (Ok (data, summary), s1)
              /\ resp = success_envelope data summary)
        \/ is_error_response 400 resp
        \/ is_error_response 500 resp).
Proof.
  destruct (upload_file (rt := runtime codec) (Some pdf_upload) (start good_world))
    as [[resp|e] s'] eqn:E; [|vm_compute in E; discriminate].
  exists resp. split; [reflexivity|].
  exact (upload_responses_have_three_shapes (rt := runtime codec)
           (Some pdf_upload) (start good_world) s' resp E).
Defined.

Lemma key_order_ignores_input_order_witness :
  enforce_key_order (PDict noted_output) = enforce_key_order (PDict reordered_output).
Proof.
  apply key_order_ignores_input_order.
  - apply Permutation_sym.
    exact (Permutation_cons_append
             [("notes", PStr "see page 2");
              ("warranty", PDict [("years", PInt 25)])]
             ("product", PDict [("manufacturer", PStr "Acme")])).
  - repeat constructor; simpl; intuition discriminate.
Defined.

Lemma key_order_is_idempotent_witness :
  enforce_key_order
    (PDict [("product", PDict [("manufacturer", PStr "Acme")]);
            ("warranty", PDict [("years", PInt 25)])])
  = Ok (PDict [("product", PDict [("manufacturer", PStr "Acme")]);
               ("warranty", PDict [("years", PInt 25)])]).
Proof.
  apply (key_order_is_idempotent noted_output). reflexivity.
Defined.

Lemma non_object_output_gives_nothing_witness :
  enforce_key_order (PList [PStr "product"])
  = Raise (mkExn AttributeError "'list' object has no attribute 'get'")
  /\ enforce_key_order (PList [PStr "n/a"]) = Ok (PDict [])
  /\ enforce_key_order (PStr "no warranty given")
     = Raise (mkExn AttributeError "'str' object has no attribute 'get'")
  /\ enforce_key_order PNone
     = Raise (mkExn TypeError "argument of type 'NoneType' is not iterable").
Proof.
  split; [|split; [|split]].
  - apply (proj2 (non_object_output_gives_nothing (PList [PStr "product"])
                    eq_refl)).
    exists "product". split; [now left | reflexivity].
  - apply (proj1 (non_object_output_gives_nothing (PList [PStr "n/a"])
                    eq_refl)).
    intros k Hin. simpl in Hin.
    repeat (destruct Hin as [<-|Hin]; [reflexivity|]). destruct Hin.
  - apply (proj2 (non_object_output_gives_nothing (PStr "no warranty given")
                    eq_refl)).
    exists "warranty". split; [simpl; tauto | reflexivity].
  - exact (non_object_output_gives_nothing PNone eq_refl).
Defined.

Lemma summary_reads_five_sections_witness :
  generate_summary (rt := runtime codec)
    (PDict [("product", PDict [("manufacturer", PStr "Acme")]);
            ("warranty", PDict [("years", PInt 25)])])
  = generate_summary (rt := runtime codec) (PDict noted_output).
Proof.
  apply (proj2 (summary_reads_five_sections (rt := runtime codec))).
  reflexivity.
Defined.

Lemma non_object_section_gives_error_text_witness :
  exists e,
    generate_summary (rt := runtime codec) (PDict null_warranty)
    = Ok ("Error generating summary: " ++ exn_str e)
    /\ forall f, generate_summary (rt := runtime codec) (PDict null_warranty) <> Ok (render (rt := runtime codec) f).
Proof.
  apply (non_object_section_gives_error_text (rt := runtime codec)
           null_warranty "warranty" PNone).
  - do 4 right. left. reflexivity.
  - reflexivity.
  - reflexivity.
Defined.

Lemma non_object_range_gives_error_text_witness :
  exists e,
    generate_summary (rt := runtime codec) numeric_range
    = Ok ("Error generating summary: " ++ exn_str e)
    /\ forall f, generate_summary (rt := runtime codec) numeric_range <> Ok (render (rt := runtime codec) f).
Proof.
  apply (non_object_range_gives_error_text (rt := runtime codec)
           numeric_range (PInt 400)).
  - left. reflexivity.
  - reflexivity.
Defined.




Lemma returning_run_has_one_shape_witness :
  exists out summary s',
    process_pdf (rt := runtime codec) "a.pdf" (start good_world)
    = (Ok (out, summary), s')
    /\ invocations (st_trace s') = 1%nat
    /\ List.length (st_trace s') = 3%nat.
Proof.
  destruct (process_pdf (rt := runtime codec) "a.pdf" (start good_world))
    as [[[out summary]|e] s'] eqn:E; [|vm_compute in E; discriminate].
  exists out, summary, s'. split; [reflexivity|].
  destruct (returning_run_has_one_shape (rt := runtime codec) "a.pdf"
              (start good_world) s' out summary E)
    as (_ & t1 & s1 & t2 & s2 & raw & _ & _ & _ & _ & _ & Ht).
  rewrite Ht. split; reflexivity.
Defined.

Lemma main_never_raises_exception_witness :
  exists e s',
    main (rt := runtime codec) write_json cli_missing (start good_world)
    = (Raise e, s')
    /\ isinstance e Exception = false.
Proof.
  destruct (main (rt := runtime codec) write_json cli_missing (start good_world))
    as [[u|e] s'] eqn:E; [vm_compute in E; discriminate|].
  exists e, s'. split; [reflexivity|].
  exact (main_never_raises_exception (rt := runtime codec) write_json
           cli_missing (start good_world) s' e E).
Defined.

Lemma main_reports_and_exits_witness :
  fst (main (rt := runtime codec) write_json cli_missing (start good_world))
  = Raise (sys_exit 1)
  /\ os_path_exists (runtime codec) "output.json"
       (st_world (snd (main (rt := runtime codec) write_json cli_missing
                         (start good_world))))
     = false.
Proof.
  erewrite (main_reports_and_exits (rt := runtime codec) write_json cli_missing
              (start good_world)); [|vm_compute; reflexivity].
  split; reflexivity.
Defined.

Lemma main_writes_the_canonical_result_witness :
  fst (main (rt := runtime codec) write_json cli (start good_world)) = Ok tt
  /\ os_path_exists (runtime codec) "output.json"
       (st_world (snd (main (rt := runtime codec) write_json cli
                         (start good_world))))
     = true
  /\ fst (main (rt := runtime codec) write_fails cli (start good_world))
     = Raise (sys_exit 1).
Proof.
  erewrite (main_writes_the_canonical_result (rt := runtime codec) write_json
              cli (start good_world)); [|vm_compute; reflexivity].
  split; [reflexivity|]. split; [reflexivity|].
  erewrite (main_writes_the_canonical_result (rt := runtime codec) write_fails
              cli (start good_world)); [|vm_compute; reflexivity].
  reflexivity.
Defined.

End MoreScenarios.
